(** * MiniExpress: a shallow embedding of [server.py] and [app.py]

    The development follows the layout of the source files: the Python
    built-ins and standard-library functions the server calls ([str]
    methods, the UTF-8 codec, [int], [urllib.parse], [posixpath]) come
    first, then the [Request] and [Response] classes, then the
    [MiniExpress] router and its per-connection dispatcher
    [handle_request], then the handlers and the registrations of the
    application [app.py].

    Representation choices.
    - A Python [bytes] value is a [list byte].
    - A Python [str] value is a Rocq [string] holding the UTF-8 encoding
      of the text, so [s.encode('utf-8')] is [list_byte_of_string s] and
      [b.decode('utf-8', errors)] is the validating decoder [utf8_decode].
      Character classes that Python defines on code points (white space,
      digits, identifier characters) are modelled on the ASCII range.
    - A [dict] whose iteration order reaches the wire (the response
      headers) is an association list with Python's update-in-place
      insertion; the other dicts are [gmap]s.
    - The socket, the file system, [json.loads] and [mimetypes] are the
      external collaborators of the program; they are section variables
      or explicit state. The process the server runs in is the class
      [Host]: what the [print] in the [except] clause around a handler
      does, and what allocating the buffer for a body does. The
      logging line of [handle_request] is taken to return.
    - [send] is modelled for texts that [encode('utf-8')] accepts; the
      statements that rest on it carry [encodable] or [converts] as a
      hypothesis.
    - The application's [database] is threaded through its handlers;
      [json.dumps] on the stored objects is a section variable. The
      accept loop of [listen] and its threads are not modelled: the
      statements are about one call of [handle_request], or about
      handler calls that run one after the other. *)

From Stdlib Require Import ZArith NArith Ascii String Strings.Byte List Bool Lia.
From stdpp Require Import base option list gmap strings.

(** ** Python built-ins on [str] *)

Module Py.

Definition chr (n : nat) : ascii := ascii_of_nat n.
Definition ord (c : ascii) : N := N_of_ascii c.

Definition LF : string := String (chr 10) "".
Definition CR : string := String (chr 13) "".
Definition CRLF : string := String (chr 13) (String (chr 10) "").

Definition encode (s : string) : list byte := String.list_byte_of_string s.
Definition of_bytes (b : list byte) : string := String.string_of_list_byte b.

(** [s.startswith(p)] *)
Fixpoint startswith (p s : string) : bool :=
  match p, s with
  | "", _ => true
  | String a p', String b s' => if Ascii.eqb a b then startswith p' s' else false
  | String _ _, "" => false
  end.

(** [s[n:]] for [0 <= n] *)
Fixpoint drop (n : nat) (s : string) : string :=
  match n, s with
  | O, _ => s
  | S n', String _ s' => drop n' s'
  | S _, "" => ""
  end.

(** [sub in s] *)
Fixpoint contains (sub s : string) : bool :=
  startswith sub s ||
  match s with
  | "" => false
  | String _ s' => contains sub s'
  end.

(** [c in s] for a single character *)
Fixpoint has_char (c : ascii) (s : string) : bool :=
  match s with
  | "" => false
  | String a s' => Ascii.eqb a c || has_char c s'
  end.

(** [s.split(c, 1)] when [c in s]: the text before and after the first [c]. *)
Fixpoint split_once (c : ascii) (s : string) : option (string * string) :=
  match s with
  | "" => None
  | String a s' =>
      if Ascii.eqb a c then Some ("", s')
      else match split_once c s' with
           | Some (l, r) => Some (String a l, r)
           | None => None
           end
  end.

(** [s.split(c)] for a one-character separator: never empty, [''.split(c) == ['']]. *)
Fixpoint split (c : ascii) (s : string) : list string :=
  match s with
  | "" => [""]
  | String a s' =>
      if Ascii.eqb a c then "" :: split c s'
      else match split c s' with
           | x :: xs => String a x :: xs
           | [] => [String a ""]
           end
  end.

(** [s.replace(a, b)] for single characters *)
Fixpoint replace_char (a b : ascii) (s : string) : string :=
  match s with
  | "" => ""
  | String c s' => String (if Ascii.eqb c a then b else c) (replace_char a b s')
  end.

(** [s.lstrip(chars)], [s.rstrip(chars)], [s.strip(chars)] for a character
    class given as a predicate. *)
Fixpoint lstrip_by (f : ascii -> bool) (s : string) : string :=
  match s with
  | "" => ""
  | String a s' => if f a then lstrip_by f s' else s
  end.

Fixpoint rstrip_by (f : ascii -> bool) (s : string) : string :=
  match s with
  | "" => ""
  | String a s' =>
      match rstrip_by f s' with
      | "" => if f a then "" else String a ""
      | r => String a r
      end
  end.

Definition strip_by (f : ascii -> bool) (s : string) : string :=
  rstrip_by f (lstrip_by f s).

Definition is_slash (c : ascii) : bool := Ascii.eqb c "/".

(** [str.isspace] on the ASCII range: TAB, LF, VT, FF, CR, FS, GS, RS, US, SPACE. *)
Definition isspace (c : ascii) : bool :=
  let n := ord c in
  ((9 <=? n) && (n <=? 13) || (28 <=? n) && (n <=? 32))%N.

(** [s.strip()] *)
Definition strip (s : string) : string := strip_by isspace s.

(** [s.split()]: the maximal runs of non-space characters. *)
Fixpoint split_ws_go (cur : option string) (s : string) : list string :=
  match s with
  | "" => option_list (String.rev <$> cur)
  | String a s' =>
      if isspace a
      then option_list (String.rev <$> cur) ++ split_ws_go None s'
      else split_ws_go (Some (String a (default "" cur))) s'
  end.

Definition split_ws (s : string) : list string := split_ws_go None s.

(** *** [str(n)] and [int(s)] *)

Definition digit_char (d : N) : ascii := ascii_of_N (48 + d).

Fixpoint str_pos_go (fuel : nat) (n : N) (acc : string) : string :=
  match fuel with
  | O => acc
  | S fuel' =>
      let acc' := String (digit_char (n mod 10)) acc in
      if (n <? 10)%N then acc' else str_pos_go fuel' (n / 10) acc'
  end.

(** Decimal text of a natural number. [N.size_nat] bounds the number of digits. *)
Definition str_N (n : N) : string := str_pos_go (S (N.size_nat n)) n "".
Definition str_nat (n : nat) : string := str_N (N.of_nat n).
Definition str_Z (z : Z) : string :=
  (if z <? 0 then "-" +:+ str_N (Z.to_N (- z)) else str_N (Z.to_N z))%Z.

Definition digit_val (c : ascii) : option Z :=
  let n := ord c in
  if ((48 <=? n) && (n <=? 57))%N then Some (Z.of_N n - 48)%Z else None.

(** The digits of an [int] literal: a digit, then digits each optionally
    preceded by one underscore. [prev_digit] says whether the previous
    character was a digit. *)
Fixpoint int_digits (acc : Z) (prev_digit : bool) (s : string) : option Z :=
  match s with
  | "" => if prev_digit then Some acc else None
  | String c s' =>
      match digit_val c with
      | Some d => int_digits (10 * acc + d) true s'
      | None =>
          if Ascii.eqb c "_" && prev_digit
          then match s' with
               | "" => None
               | String c' _ => if digit_val c' is Some _ then int_digits acc false s' else None
               end
          else None
      end
  end.

(** The white space [int()] skips around a literal: C's [isspace], that
    is TAB, LF, VT, FF, CR and SPACE. Unlike [str.strip], it does not
    skip FS, GS, RS and US. *)
Definition is_c_space (c : ascii) : bool :=
  let n := ord c in
  ((9 <=? n) && (n <=? 13) || (n =? 32))%N.

(** [int(s)] in base ten on ASCII text; [None] is [ValueError]. (CPython's
    limit on the number of digits of a literal is not modelled.) *)
Definition int (s : string) : option Z :=
  match strip_by is_c_space s with
  | String "-" r => Z.opp <$> int_digits 0 false r
  | String "+" r => int_digits 0 false r
  | r => int_digits 0 false r
  end.

(** *** The UTF-8 codec

    The decoder scans the input into well-formed sequences and error
    units, as CPython does: an invalid start byte is an error unit of one
    byte; a sequence broken by a bad continuation byte is an error unit
    made of the bytes read so far, and scanning resumes at the offending
    byte; a sequence cut by the end of input is one error unit. *)

Inductive errors := Strict | Ignore | Replace.

Inductive unit_ := Good (bs : list byte) | Bad (bs : list byte).

Record pending := { seen : list byte; more : nat; lo : N; hi : N }.

Definition between (a n b : N) : bool := ((a <=? n) && (n <=? b))%N.

Definition utf8_start (b : byte) : list unit_ * option pending :=
  let n := Byte.to_N b in
  let lead m l h := ([], Some {| seen := [b]; more := m; lo := l; hi := h |}) in
  if (n <? 128)%N then ([Good [b]], None)
  else if between 194 n 223 then lead 1%nat 128%N 191%N
  else if (n =? 224)%N then lead 2%nat 160%N 191%N
  else if between 225 n 236 || between 238 n 239 then lead 2%nat 128%N 191%N
  else if (n =? 237)%N then lead 2%nat 128%N 159%N
  else if (n =? 240)%N then lead 3%nat 144%N 191%N
  else if between 241 n 243 then lead 3%nat 128%N 191%N
  else if (n =? 244)%N then lead 3%nat 128%N 143%N
  else ([Bad [b]], None).

Fixpoint utf8_scan (p : option pending) (bs : list byte) : list unit_ :=
  match bs with
  | [] => match p with None => [] | Some q => [Bad (seen q)] end
  | b :: bs' =>
      match p with
      | None => let '(out, p') := utf8_start b in out ++ utf8_scan p' bs'
      | Some q =>
          if between (lo q) (Byte.to_N b) (hi q) then
            match more q with
            | S (S m) =>
                utf8_scan (Some {| seen := seen q ++ [b]; more := S m;
                                   lo := 128; hi := 191 |}) bs'
            | _ => Good (seen q ++ [b]) :: utf8_scan None bs'
            end
          else
            Bad (seen q) :: (let '(out, p') := utf8_start b in out ++ utf8_scan p' bs')
      end
  end.

Definition is_good (u : unit_) : bool :=
  match u with Good _ => true | Bad _ => false end.

(** U+FFFD REPLACEMENT CHARACTER, in UTF-8. *)
Definition replacement : list byte := [xef; xbf; xbd].

Definition unit_bytes (e : errors) (u : unit_) : list byte :=
  match u with
  | Good bs => bs
  | Bad _ => match e with Replace => replacement | _ => [] end
  end.

(** [b.decode('utf-8', errors=e)]; [None] is [UnicodeDecodeError]. *)
Definition utf8_decode (e : errors) (bs : list byte) : option string :=
  let us := utf8_scan None bs in
  match e with
  | Strict => if forallb is_good us then Some (of_bytes (concat (map (unit_bytes e) us))) else None
  | _ => Some (of_bytes (concat (map (unit_bytes e) us)))
  end.

(** The two non-raising handlers as total functions. *)
Definition decode_lossy (e : errors) (bs : list byte) : string :=
  of_bytes (concat (map (unit_bytes e) (utf8_scan None bs))).

(** The input bytes a unit of the scan stands for, and the bytes a
    pending sequence has read. *)
Definition raw_bytes (u : unit_) : list byte :=
  match u with Good bs => bs | Bad bs => bs end.

Definition pending_bytes (p : option pending) : list byte :=
  match p with Some q => seen q | None => [] end.

(** *** Insertion-ordered [dict] with [str] keys

    [d[k] = v] overwrites in place when [k] is present and appends
    otherwise, so iteration follows first insertion. *)

Definition dict (V : Type) := list (string * V).

Fixpoint dict_set {V} (k : string) (v : V) (d : dict V) : dict V :=
  match d with
  | [] => [(k, v)]
  | (k', v') :: d' =>
      if String.eqb k k' then (k, v) :: d' else (k', v') :: dict_set k v d'
  end.

Fixpoint dict_get {V} (k : string) (d : dict V) : option V :=
  match d with
  | [] => None
  | (k', v') :: d' => if String.eqb k k' then Some v' else dict_get k d'
  end.

(** [k in d] *)
Definition dict_has {V} (k : string) (d : dict V) : bool :=
  match dict_get k d with Some _ => true | None => false end.

End Py.

(** ** [urllib.parse] *)

Module Urllib.

Definition hex_val (c : ascii) : option N :=
  let n := Py.ord c in
  if Py.between 48 n 57 then Some (n - 48)%N
  else if Py.between 65 n 70 then Some (n - 55)%N
  else if Py.between 97 n 102 then Some (n - 87)%N
  else None.

Definition byte_of_N (n : N) : byte :=
  match Byte.of_N n with Some b => b | None => x00 end.

(** [unquote_to_bytes]: a percent sign followed by two hexadecimal digits
    is the byte they name; any other percent sign stands for itself. *)
Fixpoint unquote_to_bytes (s : string) : list byte :=
  match s with
  | "" => []
  | String c s' =>
      let literal := Ascii.byte_of_ascii c :: unquote_to_bytes s' in
      if Ascii.eqb c "%" then
        match s' with
        | String a (String b r) =>
            match hex_val a, hex_val b with
            | Some x, Some y => byte_of_N (16 * x + y) :: unquote_to_bytes r
            | _, _ => literal
            end
        | _ => literal
        end
      else literal
  end.

(** An ASCII run of the input, held reversed, is unquoted to bytes and
    decoded with replacement. *)
Definition flush (run : string) : string :=
  Py.decode_lossy Py.Replace (unquote_to_bytes (String.rev run)).

Fixpoint unquote_go (run : string) (s : string) : string :=
  match s with
  | "" => flush run
  | String c s' =>
      if (Py.ord c <? 128)%N then unquote_go (String c run) s'
      else flush run +:+ String c (unquote_go "" s')
  end.

(** [unquote(s, encoding='utf-8', errors='replace')]: the ASCII runs of
    [s] are unquoted and decoded one by one, the text between them is
    kept. *)
Definition unquote (s : string) : string :=
  if Py.has_char "%" s then unquote_go "" s else s.

(** One field of a query string, as [parse_qsl] decodes it. *)
Definition decode_field (s : string) : string :=
  unquote (Py.replace_char "+" " " s).

(** The loop body of [parse_qsl] with [keep_blank_values=False] and
    [strict_parsing=False]: a field without [=] or with nothing after it
    is skipped. *)
Definition parse_pair (name_value : string) : option (string * string) :=
  match Py.split_once "=" name_value with
  | Some (n, v) =>
      if String.eqb v "" then None else Some (decode_field n, decode_field v)
  | None => None
  end.

(** [parse_qsl(qs)] with the default separator [&]. *)
Definition parse_qsl (qs : string) : list (string * string) :=
  if String.eqb qs "" then [] else omap parse_pair (Py.split "&" qs).

Definition add_value (m : gmap string (list string)) (nv : string * string)
  : gmap string (list string) :=
  match m !! nv.1 with
  | Some vs => <[nv.1 := vs ++ [nv.2]]> m
  | None => <[nv.1 := [nv.2]]> m
  end.

(** [parse_qs(qs)] *)
Definition parse_qs (qs : string) : gmap string (list string) :=
  fold_left add_value (parse_qsl qs) ∅.

End Urllib.

(** ** [posixpath] *)

Module Posixpath.

(** [os.path.join(a, b)] *)
Definition join (a b : string) : string :=
  if Py.startswith "/" b then b
  else if String.eqb a "" || Py.startswith "/" (String.rev a) then a +:+ b
  else a +:+ "/" +:+ b.

Definition norm_step (absolute : bool) (acc : list string) (comp : string)
  : list string :=
  if String.eqb comp "" || String.eqb comp "." then acc
  else if String.eqb comp ".." then
    match acc with
    | [] => if absolute then [] else [".."]
    | top :: rest => if String.eqb top ".." then ".." :: acc else rest
    end
  else comp :: acc.

(** The components [os.path.normpath] keeps, in order: empty and [.]
    components dropped, each [..] cancelling the component before it. *)
Definition norm_comps (path : string) : list string :=
  rev (fold_left (norm_step (Py.startswith "/" path)) (Py.split "/" path) []).

Fixpoint list_startswith (p l : list string) : bool :=
  match p, l with
  | [], _ => true
  | a :: p', b :: l' => String.eqb a b && list_startswith p' l'
  | _ :: _, [] => false
  end.

(** [path] names the directory [dir] or something below it, after both
    are normalised. *)
Definition within (dir path : string) : bool :=
  Bool.eqb (Py.startswith "/" dir) (Py.startswith "/" path) &&
  list_startswith (norm_comps dir) (norm_comps path).

End Posixpath.

(** ** Exceptions, results and the connection state *)

(** The exception classes the server distinguishes: [send] swallows
    [BrokenPipeError]; the dispatcher's [except Exception] catches every
    class derived from [Exception] and lets the others
    ([KeyboardInterrupt], [SystemExit]) through. *)
Inductive exn :=
| BrokenPipeError
| Exception (cls msg : string)
| BaseException (cls : string).

Definition is_Exception (e : exn) : bool :=
  match e with BaseException _ => false | _ => true end.

Definition is_BrokenPipe (e : exn) : bool :=
  match e with BrokenPipeError => true | _ => false end.

(** [str(e)] *)
Definition exn_text (e : exn) : string :=
  match e with
  | BrokenPipeError => "[Errno 32] Broken pipe"
  | Exception _ msg => msg
  | BaseException _ => ""
  end.

Inductive result (A : Type) := Ok (a : A) | Raise (e : exn).
Arguments Ok {A} a.
Arguments Raise {A} e.

(** The client socket: the bytes delivered so far, whether [close()] was
    called, and the peer's behaviour: [fault = Some (n, e)] is a
    connection that accepts [n] more bytes and then makes [sendall] raise
    [e]. *)
Record socket := {
  wire : list byte;
  fault : option (nat * exn);
  closed : bool
}.

Definition healthy (sk : socket) : Prop := fault sk = None /\ closed sk = false.

Definition fresh_socket : socket := {| wire := []; fault := None; closed := false |}.

Definition sendall (chunk : list byte) (sk : socket) : result unit * socket :=
  if closed sk then (Raise (Exception "OSError" "[Errno 9] Bad file descriptor"), sk)
  else match fault sk with
       | None =>
           (Ok tt, {| wire := wire sk ++ chunk; fault := None; closed := false |})
       | Some (n, e) =>
           if (length chunk <=? n)%nat
           then (Ok tt, {| wire := wire sk ++ chunk;
                           fault := Some ((n - length chunk)%nat, e); closed := false |})
           else (Raise e, {| wire := wire sk ++ take n chunk;
                             fault := Some (O, e); closed := false |})
       end.

(** Consecutive [sendall] calls; the first exception ends the sequence. *)
Fixpoint sendall_seq (chunks : list (list byte)) (sk : socket) : result unit * socket :=
  match chunks with
  | [] => (Ok tt, sk)
  | c :: cs =>
      match sendall c sk with
      | (Ok _, sk') => sendall_seq cs sk'
      | (Raise e, sk') => (Raise e, sk')
      end
  end.

(** ** The [Response] class *)

Record Response := {
  status_code : Z;
  status_text : string;
  headers : Py.dict string;
  sent : bool
}.

(** [Response.__init__] *)
Definition Response_init : Response :=
  {| status_code := 200; status_text := "OK"; headers := []; sent := false |}.

(** A [Response] holds a reference to the client socket, so its methods
    act on the pair of both. *)
Record conn := { res : Response; sock : socket }.

Definition M (A : Type) : Type := conn -> result A * conn.

Definition ret {A} (a : A) : M A := fun st => (Ok a, st).
Definition raise {A} (e : exn) : M A := fun st => (Raise e, st).
Definition bind {A B} (m : M A) (f : A -> M B) : M B :=
  fun st => match m st with
            | (Ok a, st') => f a st'
            | (Raise e, st') => (Raise e, st')
            end.

Global Instance M_ret : MRet M := @ret.
Global Instance M_bind : MBind M := fun A B f m => bind m f.

(** [try: m  except C1 as e: h1 e  except C2 as e: h2 e ...]: a clause is
    a class test and a handler; the first clause whose class accepts the
    exception handles it, and an exception raised by a handler is not
    caught by the other clauses. *)
Definition clause (A : Type) : Type := (exn -> bool) * (exn -> M A).

Definition try_except {A} (m : M A) (clauses : list (clause A)) : M A :=
  fun st => match m st with
            | (Raise e, st') =>
                match find (fun c : clause A => c.1 e) clauses with
                | Some c => c.2 e st'
                | None => (Raise e, st')
                end
            | r => r
            end.

(** [try: m  finally: f]: [f] always runs; an exception of [f] replaces
    the outcome of [m]. *)
Definition try_finally {A} (m : M A) (f : M unit) : M A :=
  fun st => match m st with
            | (r, st') => match f st' with
                          | (Ok _, st'') => (r, st'')
                          | (Raise e, st'') => (Raise e, st'')
                          end
            end.

Definition update_res (f : Response -> Response) : M unit :=
  fun st => (Ok tt, {| res := f (res st); sock := sock st |}).

Definition set_status (code : Z) (text : string) (r : Response) : Response :=
  {| status_code := code; status_text := text; headers := headers r; sent := sent r |}.

Definition set_headers (h : Py.dict string) (r : Response) : Response :=
  {| status_code := status_code r; status_text := status_text r; headers := h; sent := sent r |}.

Definition set_sent (r : Response) : Response :=
  {| status_code := status_code r; status_text := status_text r;
     headers := headers r; sent := true |}.

Definition reason_phrase (code : Z) : string :=
  (if code =? 200 then "OK" else if code =? 201 then "Created"
   else if code =? 202 then "Accepted" else if code =? 204 then "No Content"
   else if code =? 301 then "Moved Permanently" else if code =? 302 then "Found"
   else if code =? 400 then "Bad Request" else if code =? 401 then "Unauthorized"
   else if code =? 403 then "Forbidden" else if code =? 404 then "Not Found"
   else if code =? 500 then "Internal Server Error" else "")%Z.

(** [Response.status] *)
Definition status (code : Z) : M unit :=
  update_res (set_status code (reason_phrase code)).

(** [self.headers[name] = value], also [Response.set_header] *)
Definition set_header (name value : string) : M unit :=
  update_res (fun r => set_headers (Py.dict_set name value (headers r)) r).

(** What a handler may pass to [send]: [None], a [bytes] object, or any
    other object whose [str()] returns, given by the text [str()] makes
    of it. *)
Inductive data := DNone | DBytes (b : list byte) | DObj (str_of : string).

Definition body_bytes_of (d : data) : list byte :=
  match d with
  | DNone => []
  | DBytes b => b
  | DObj s => Py.encode s
  end.

Definition setdefault_header (name value : string) (h : Py.dict string) : Py.dict string :=
  if Py.dict_has name h then h else Py.dict_set name value h.

(** The header map [send] leaves behind for a body of the given bytes. *)
Definition final_headers (h : Py.dict string) (body_bytes : list byte) : Py.dict string :=
  Py.dict_set "Content-Length" (Py.str_nat (length body_bytes))
    (Py.dict_set "Connection" "close"
       (setdefault_header "Access-Control-Allow-Origin" "*"
          (setdefault_header "Content-Type" "text/plain; charset=utf-8" h))).

Definition status_line (r : Response) : string :=
  "HTTP/1.1 " +:+ Py.str_Z (status_code r) +:+ " " +:+ status_text r +:+ Py.CRLF.

Definition header_line (nv : string * string) : string :=
  nv.1 +:+ ": " +:+ nv.2 +:+ Py.CRLF.

(** The [sendall] calls of one response, in order. *)
Definition chunks (r : Response) (body_bytes : list byte) : list (list byte) :=
  Py.encode (status_line r)
    :: map (fun nv => Py.encode (header_line nv)) (headers r)
    ++ [Py.encode Py.CRLF]
    ++ (match body_bytes with [] => [] | _ => [body_bytes] end).

(** The bytes of one complete response. *)
Definition render (r : Response) (body_bytes : list byte) : list byte :=
  concat (chunks r body_bytes).

(** [Response.send]. The conversion [str(data).encode('utf-8')] and the
    encoding of the status line and of the header lines are total here;
    in Python they raise [UnicodeEncodeError] for a text with a lone
    surrogate, the first before anything is written or marked, the
    others between two writes. The definition is that of the calls in
    which they return. *)
Definition send (d : data) : M unit :=
  fun st =>
    if sent (res st) then (Ok tt, st)
    else
      let body_bytes := body_bytes_of d in
      let r := set_headers (final_headers (headers (res st)) body_bytes) (res st) in
      match sendall_seq (chunks r body_bytes) (sock st) with
      | (Ok _, sk) => (Ok tt, {| res := set_sent r; sock := sk |})
      | (Raise e, sk) =>
          if is_BrokenPipe e then (Ok tt, {| res := set_sent r; sock := sk |})
          else (Raise e, {| res := set_sent r; sock := sk |})
      end.

(** What a handler may pass to [json]: an object given by what
    [json.dumps] makes of it ([None] when it raises) and by its [str()]. *)
Record jsonable := { dumps : option string; obj_str : string }.

(** [Response.json] *)
Definition json (o : jsonable) : M unit :=
  let body := match dumps o with Some s => s | None => obj_str o end in
  set_header "Content-Type" "application/json; charset=utf-8" ;;
  send (DObj body).

(** [client_sock.close()] *)
Definition close : M unit :=
  fun st => (Ok tt, {| res := res st;
                      sock := {| wire := wire (sock st); fault := fault (sock st);
                                 closed := true |} |}).

(** ** The [Request] class *)

(** The values [json.loads] produces. *)
#[local] Unset Elimination Schemes.
Inductive json_value :=
| JNull
| JBool (b : bool)
| JInt (z : Z)
| JFloat (lexeme : string)
| JStr (s : string)
| JList (l : list json_value)
| JDict (d : list (string * json_value)).
#[local] Set Elimination Schemes.

(** A query parameter: a single string, or all the values of a repeated key. *)
Inductive qvalue := QStr (s : string) | QList (l : list string).

(** The decoded body. *)
Inductive body_value :=
| BNone
| BJson (j : json_value)
| BText (s : string)
| BForm (m : gmap string (list string))
| BBytes (b : list byte).

Record Request := {
  method : string;
  raw_path : string;
  path : string;
  query : gmap string qvalue;
  req_headers : gmap string string;
  params : gmap string string;
  client_addr : string;
  body : body_value
}.

(** [values[0] if len(values) == 1 else values] *)
Definition unwrap (values : list string) : qvalue :=
  match values with
  | [v] => QStr v
  | _ => QList values
  end.

Definition query_of (query_string : string) : gmap string qvalue :=
  if String.eqb query_string "" then ∅ else unwrap <$> Urllib.parse_qs query_string.

Section Request.

(** [json.loads] on a [bytes] body; [None] when it raises. *)
Variable json_loads : list byte -> option json_value.

Definition decode_body (hdrs : gmap string string) (raw : list byte) : body_value :=
  match raw with
  | [] => BNone
  | _ =>
      let content_type := default "" (hdrs !! "Content-Type") in
      if Py.contains "application/json" content_type then
        match json_loads raw with
        | Some j => BJson j
        | None => BText (Py.decode_lossy Py.Ignore raw)
        end
      else if Py.contains "application/x-www-form-urlencoded" content_type then
        BForm (Urllib.parse_qs (Py.decode_lossy Py.Ignore raw))
      else BBytes raw
  end.

(** [Request.__init__] *)
Definition Request_init (method_ path_ : string) (hdrs : gmap string string)
    (raw : list byte) (addr : string) : Request :=
  let '(path_only, query_string) :=
    match Py.split_once "?" path_ with
    | Some (p, q) => (p, q)
    | None => (path_, "")
    end in
  {| method := method_; raw_path := path_; path := path_only;
     query := query_of query_string; req_headers := hdrs; params := ∅;
     client_addr := addr; body := decode_body hdrs raw |}.

End Request.

Definition with_params (groups : gmap string string) (req : Request) : Request :=
  {| method := method req; raw_path := raw_path req; path := path req;
     query := query req; req_headers := req_headers req; params := groups;
     client_addr := client_addr req; body := body req |}.

(** ** Compiled route patterns

    [add_route] builds the pattern [^/$] for the template [/] and
    [^(/part)*/?$] for any other, a part being [re.escape] of a literal
    segment or the named group [(?P<name>[^/]+)]. The patterns of this
    shape are represented by their segments and matched as [re.match]
    matches them. *)

Inductive segment := Literal (s : string) | Placeholder (name : string).

Inductive regex := ReRoot | ReSegments (segs : list segment).

(** [$]: the end of the text, or just before a final line feed. *)
Definition at_end (s : string) : bool := String.eqb s "" || String.eqb s Py.LF.

(** [/?$] *)
Definition tail_ok (s : string) : bool :=
  match s with
  | String c r => Py.is_slash c && at_end r || at_end s
  | "" => true
  end.

(** The longest prefix matched by [[^/]+], and the text after it. *)
Fixpoint span_segment (s : string) : string * string :=
  match s with
  | "" => ("", "")
  | String c r =>
      if Py.is_slash c then ("", s)
      else let '(v, rest) := span_segment r in (String c v, rest)
  end.

(** [s] with the prefix [p] removed, when it starts with [p]. *)
Fixpoint strip_prefix (p s : string) : option string :=
  match p, s with
  | "", _ => Some s
  | String a p', String b s' => if Ascii.eqb a b then strip_prefix p' s' else None
  | String _ _, "" => None
  end.

Fixpoint match_segments (segs : list segment) (s : string) (groups : gmap string string)
  : option (gmap string string) :=
  match segs with
  | [] => if tail_ok s then Some groups else None
  | Literal l :: segs' =>
      match strip_prefix (String "/" l) s with
      | Some rest => match_segments segs' rest groups
      | None => None
      end
  | Placeholder name :: segs' =>
      match s with
      | String c r =>
          if Py.is_slash c then
            let '(v, rest) := span_segment r in
            if String.eqb v "" then None
            else match_segments segs' rest (<[name := v]> groups)
          else None
      | "" => None
      end
  end.

(** [regex.match(path)] followed by [match.groupdict()]; [None] is no match. *)
Definition regex_match (re : regex) (s : string) : option (gmap string string) :=
  match re with
  | ReRoot =>
      match s with
      | String c r => if Py.is_slash c && at_end r then Some ∅ else None
      | "" => None
      end
  | ReSegments segs => match_segments segs s ∅
  end.

(** A group name [re] accepts, on the ASCII range: an identifier. *)
Definition ident_start (c : ascii) : bool :=
  let n := Py.ord c in
  Py.between 65 n 90 || Py.between 97 n 122 || (n =? 95)%N.

Definition ident_char (c : ascii) : bool :=
  ident_start c || Py.between 48 (Py.ord c) 57.

Fixpoint all_chars (f : ascii -> bool) (s : string) : bool :=
  match s with
  | "" => true
  | String c r => f c && all_chars f r
  end.

Definition isidentifier (s : string) : bool :=
  match s with
  | "" => false
  | String c r => ident_start c && all_chars ident_char r
  end.

Definition segment_of (part : string) : segment :=
  match part with
  | String ":" name => Placeholder name
  | _ => Literal part
  end.

Fixpoint group_names (segs : list segment) : list string :=
  match segs with
  | [] => []
  | Literal _ :: segs' => group_names segs'
  | Placeholder n :: segs' => n :: group_names segs'
  end.

Fixpoint distinct (l : list string) : bool :=
  match l with
  | [] => true
  | x :: l' => negb (existsb (String.eqb x) l') && distinct l'
  end.

(** The pattern [add_route] compiles for a template. [None]: a
    placeholder name is not an identifier or is used twice, so
    [re.compile] raises or the pattern is not of the shape above. *)
Definition compile (template : string) : option regex :=
  if String.eqb template "/" then Some ReRoot
  else
    let parts := Py.split "/" (Py.strip_by Py.is_slash template) in
    let segs := map segment_of parts in
    if forallb isidentifier (group_names segs) && distinct (group_names segs)
    then Some (ReSegments segs) else None.

(** ** Route handlers

    A handler is user code that receives the request and the response.
    It is represented by the calls it makes on the response, ending
    with a return or a raised exception; an exception raised inside one
    of those calls leaves the handler. *)

Inductive hprog :=
| HReturn
| HRaise (e : exn)
| HStatus (code : Z) (k : hprog)
| HSetHeader (name value : string) (k : hprog)
| HSend (d : data) (k : hprog)
| HJson (o : jsonable) (k : hprog).

Definition handler := Request -> hprog.

Fixpoint run_hprog (p : hprog) : M unit :=
  match p with
  | HReturn => ret tt
  | HRaise e => raise e
  | HStatus code k => status code ;; run_hprog k
  | HSetHeader name value k => set_header name value ;; run_hprog k
  | HSend d k => send d ;; run_hprog k
  | HJson o k => json o ;; run_hprog k
  end.

(** ** The [MiniExpress] class *)

Record MiniExpress := {
  routes : gmap string (list (regex * handler));
  static_routes : list (string * string)
}.

(** [MiniExpress.__init__] *)
Definition MiniExpress_init : MiniExpress := {| routes := ∅; static_routes := [] |}.

(** [self.routes.get(method, [])] *)
Definition routes_get (self : MiniExpress) (method_ : string) : list (regex * handler) :=
  default [] (routes self !! method_).

(** [MiniExpress.add_route]; [None] when compiling the pattern fails. *)
Definition add_route (method_ template : string) (h : handler) (self : MiniExpress)
  : option MiniExpress :=
  match compile template with
  | Some re =>
      Some {| routes := <[method_ := routes_get self method_ ++ [(re, h)]]> (routes self);
              static_routes := static_routes self |}
  | None => None
  end.

(** [MiniExpress.use_static] *)
Definition use_static (prefix directory : string) (self : MiniExpress) : MiniExpress :=
  let prefix1 := if Py.startswith "/" prefix then prefix else "/" +:+ prefix in
  {| routes := routes self;
     static_routes := static_routes self ++ [(Py.rstrip_by Py.is_slash prefix1, directory)] |}.

(** ** The dispatcher: [MiniExpress.handle_request] *)

(** The lines successive [rfile.readline()] calls return: each ends with
    a line feed, except possibly the last; after them [readline] returns
    [b'']. *)
Fixpoint readlines_go (cur : list byte) (input : list byte) : list (list byte) :=
  match input with
  | [] => match cur with [] => [] | _ => [rev cur] end
  | b :: input' =>
      if Byte.eqb b x0a then rev (b :: cur) :: readlines_go [] input'
      else readlines_go (b :: cur) input'
  end.

Definition readlines (input : list byte) : list (list byte) := readlines_go [] input.

Definition UnicodeDecodeError : exn :=
  Exception "UnicodeDecodeError" "'utf-8' codec can't decode bytes".

(** [ValueError] of [int()], carrying the rejected literal. *)
Definition ValueError (literal : string) : exn := Exception "ValueError" literal.

(** The header loop. It returns the header map and the lines left unread. *)
Fixpoint read_headers (hdrs : gmap string string) (lines : list (list byte))
  : result (gmap string string * list (list byte)) :=
  match lines with
  | [] => Ok (hdrs, [])
  | l :: rest =>
      match Py.utf8_decode Py.Strict l with
      | None => Raise UnicodeDecodeError
      | Some hline =>
          if String.eqb hline "" || String.eqb hline Py.CRLF || String.eqb hline Py.LF
          then Ok (hdrs, rest)
          else
            match Py.split_once ":" hline with
            | Some (name, val) => read_headers (<[Py.strip name := Py.strip val]> hdrs) rest
            | None => read_headers hdrs rest
            end
      end
  end.

(** The process the server runs in: what [print] does with a line (it
    raises when standard output is closed or cannot encode the text),
    and what allocating a [bytes] object of a given size does (it raises
    [MemoryError], or [OverflowError] for a size next to the largest
    index, when there is no room for it). *)
Class Host := {
  print_ : string -> result unit;
  allocation : Z -> result unit
}.

(** A host whose [print] returns and that has memory for every body. *)
#[global] Instance obliging_host : Host :=
  {| print_ := fun _ => Ok tt; allocation := fun _ => Ok tt |}.

(** [rfile.read(length)] on the buffered reader of the socket: the
    length must fit an index, and the result is a new [bytes] object of
    [length] bytes, allocated before the data is copied. *)
Definition rfile_read {host : Host} (n : Z) (unread : list byte) : result (list byte) :=
  (if n =? -1 then Ok unread
   else if n <? -1
     then Raise (Exception "ValueError" "read length must be non-negative or -1")
   else if 2 ^ 63 <=? n
     then Raise (Exception "OverflowError" "cannot fit 'int' into an index-sized integer")
   else match allocation n with
        | Raise e => Raise e
        | Ok _ => Ok (take (Z.to_nat n) unread)
        end)%Z.

(** The body: read only when a [Content-Length] header was received. *)
Definition read_body {host : Host} (hdrs : gmap string string) (unread : list byte)
  : result (list byte) :=
  match hdrs !! "Content-Length" with
  | Some v =>
      match Py.int v with
      | Some n => rfile_read n unread
      | None => Raise (ValueError v)
      end
  | None => Ok []
  end.

Definition close_socket (sk : socket) : socket :=
  {| wire := wire sk; fault := fault sk; closed := true |}.

Definition is_FileNotFoundError (e : exn) : bool :=
  match e with
  | Exception cls _ => String.eqb cls "FileNotFoundError"
  | _ => false
  end.

Definition lift {A} (r : result A) : M A := fun st => (r, st).

Section Dispatcher.

Context {host : Host}.

Variable json_loads : list byte -> option json_value.

(** The file system and [mimetypes]: [os.path.isdir], the outcome of
    opening and reading a file, and [mimetypes.guess_type]. *)
Variable isdir : string -> bool.
Variable read_file : string -> result (list byte).
Variable guess_type : string -> option string.

(** The path a static mapping resolves a request path to. *)
Definition static_file_path (prefix directory path_ : string) : string :=
  let rel_path := Py.drop (String.length prefix) path_ in
  let file_path := Posixpath.join directory (Py.lstrip_by Py.is_slash rel_path) in
  if isdir file_path then Posixpath.join file_path "index.html" else file_path.

(** The body of the static loop for the first matching prefix; the
    result is the flag [served]. *)
Definition serve_static (prefix directory : string) (req : Request) : M bool :=
  let file_path := static_file_path prefix directory (path req) in
  try_except
    (content ← lift (read_file file_path);
     let ctype := match guess_type file_path with
                  | Some t => if String.eqb t "" then "application/octet-stream" else t
                  | None => "application/octet-stream"
                  end in
     set_header "Content-Type" ctype ;;
     send (DBytes content) ;;
     mret true)
    [ (is_FileNotFoundError, fun _ => mret false);
      (is_Exception, fun e => status 500 ;;
                              send (DObj ("Error reading static file: " +:+ exn_text e)) ;;
                              mret true) ].

Fixpoint static_loop (mappings : list (string * string)) (req : Request) : M bool :=
  match mappings with
  | [] => mret false
  | (prefix, directory) :: rest =>
      if Py.startswith prefix (path req) then serve_static prefix directory req
      else static_loop rest req
  end.

(** The line printed for a handler that raised. *)
Definition error_log (req : Request) (e : exn) : string :=
  "Handler error for " +:+ path req +:+ ": " +:+ exn_text e.

(** The [try/except/finally] around the call of a matched handler. *)
Definition guarded (h : handler) (req : Request) : M unit :=
  try_finally
    (try_except (run_hprog (h req))
       [ (is_Exception, fun e => lift (print_ (error_log req e)) ;;
                                 status 500 ;;
                                 send (DObj "Internal Server Error")) ])
    (fun st => if sent (res st) then (Ok tt, st) else send DNone st).

(** The body of the route loop for the first matching route. *)
Definition invoke (h : handler) (req : Request) : M unit :=
  guarded h req ;; close.

Fixpoint route_loop (route_list : list (regex * handler)) (req : Request) : M unit :=
  match route_list with
  | [] => status 404 ;; send (DObj "Not Found") ;; close
  | (re, h) :: rest =>
      match regex_match re (path req) with
      | Some groups => invoke h (with_params groups req)
      | None => route_loop rest req
      end
  end.

(** [handle_request] from the point where [req] and [res] exist. *)
Definition respond (self : MiniExpress) (req : Request) : M unit :=
  if String.eqb (method req) "OPTIONS" then
    status 200 ;;
    set_header "Access-Control-Allow-Origin" "*" ;;
    set_header "Access-Control-Allow-Methods" "GET,POST,PUT,DELETE,OPTIONS" ;;
    set_header "Access-Control-Allow-Headers" "Content-Type" ;;
    send (DObj "") ;;
    close
  else
    served ← static_loop (static_routes self) req;
    if served : bool then close
    else route_loop (routes_get self (method req)) req.

(** [MiniExpress.handle_request]: [input] is what the peer sends before
    it stops; the result is the outcome of the call (an exception that
    leaves it ends the connection thread) and the final socket. *)
Definition handle_request (self : MiniExpress) (client_sock : socket)
    (input : list byte) (addr : string) : result unit * socket :=
  let lines := readlines input in
  match Py.utf8_decode Py.Strict (hd [] lines) with
  | None => (Ok tt, close_socket client_sock)
  | Some line =>
      if String.eqb line "" then (Ok tt, close_socket client_sock)
      else
        match Py.split_ws (Py.strip line) with
        | [method_; raw_path_; _] =>
            match read_headers ∅ (tl lines) with
            | Raise e => (Raise e, client_sock)
            | Ok (hdrs, unread) =>
                match read_body hdrs (concat unread) with
                | Raise e => (Raise e, client_sock)
                | Ok raw =>
                    let req := Request_init json_loads method_ raw_path_ hdrs raw addr in
                    let '(r, st) := respond self req {| res := Response_init; sock := client_sock |} in
                    (r, sock st)
                end
            end
        | _ => (Ok tt, close_socket client_sock)
        end
  end.

End Dispatcher.

(** ** Vocabulary of the statements *)

(** The two finalising calls a handler can make on a response. *)
Inductive finalizer := ViaSend (d : data) | ViaJson (o : jsonable).

Definition finalize (f : finalizer) : M unit :=
  match f with
  | ViaSend d => send d
  | ViaJson o => json o
  end.

(** Text that [encode('utf-8')] accepts: the string is well-formed
    UTF-8, so the [str] it stands for holds no lone surrogate. *)
Definition encodes (s : string) : bool :=
  match Py.utf8_decode Py.Strict (Py.encode s) with Some _ => true | None => false end.

(** [data] that [send] can turn into bytes: [None], a [bytes] object, or
    an object whose [str()] encodes. *)
Definition converts (d : data) : bool :=
  match d with
  | DObj s => encodes s
  | _ => true
  end.

(** A response whose status text and header texts encode, handed to
    [send] with data that converts: the calls of [send] that get as far
    as the end of their writes unless the socket stops them, which are
    the calls the model of [send] describes. *)
Definition encodable (r : Response) (d : data) : bool :=
  encodes (status_text r)
  && forallb (fun nv : string * string => encodes nv.1 && encodes nv.2) (headers r)
  && converts d.

(** The text [json] sends for an object: what [json.dumps] makes of it,
    or its [str()] when [json.dumps] raises. *)
Definition json_text (o : jsonable) : string :=
  match dumps o with Some s => s | None => obj_str o end.

(** The data a finalising call hands to [send]. *)
Definition finalizer_data (f : finalizer) : data :=
  match f with
  | ViaSend d => d
  | ViaJson o => DObj (json_text o)
  end.

(** The response [send] writes for the response [r] as the caller left
    it and a body: [r] with the headers [send] adds. *)
Definition as_sent (r : Response) (body_bytes : list byte) : Response :=
  set_headers (final_headers (headers r) body_bytes) r.

(** What a socket gained is what one call [send(d)] writes when the
    response is [r]: the bytes of [r] with the headers [send] adds and
    the body of [d], all of them when the socket [sk0] accepts what it
    is given, and a prefix of them when the write broke. *)
Definition response_on (r : Response) (d : data) (sk0 sk : socket) : Prop :=
  exists p,
    p `prefix_of` render (as_sent r (body_bytes_of d)) (body_bytes_of d) /\
    wire sk = wire sk0 ++ p /\
    (healthy sk0 -> p = render (as_sent r (body_bytes_of d)) (body_bytes_of d)).

(** [st] is [st0] after the one call [send(d)] that wrote, made when the
    response was [r]: the response is marked as sent, and the socket
    gained what that call writes. *)
Definition wrote_response (r : Response) (d : data) (st0 st : conn) : Prop :=
  sent (res st) = true /\ response_on r d (sock st0) (sock st).



(** The first finalising call of a handler: the response as the calls
    before it left it, and the data it hands to [send]; [None] for a
    handler that makes no such call. *)
Fixpoint first_send (p : hprog) (r : Response) : option (Response * data) :=
  match p with
  | HReturn | HRaise _ => None
  | HStatus code k => first_send k (set_status code (reason_phrase code) r)
  | HSetHeader name value k =>
      first_send k (set_headers (Py.dict_set name value (headers r)) r)
  | HSend d _ => Some (r, d)
  | HJson o _ =>
      Some (set_headers (Py.dict_set "Content-Type" "application/json; charset=utf-8"
                           (headers r)) r,
            DObj (json_text o))
  end.

(** A sequence of [add_route] calls, in program order. *)
Fixpoint register_all (regs : list (string * string * handler)) (self : MiniExpress)
  : option MiniExpress :=
  match regs with
  | [] => Some self
  | (m, t, h) :: rest =>
      match add_route m t h self with
      | Some self' => register_all rest self'
      | None => None
      end
  end.

(** The registrations made for one method, compiled, in program order. *)
Definition compiled_for (method_ : string) (regs : list (string * string * handler))
  : list (regex * handler) :=
  omap (fun '(m, t, h) =>
          if String.eqb m method_ then (fun re => (re, h)) <$> compile t else None)
       regs.

(** The text of a path made of one slash and one value per segment,
    followed by a trailer. *)
Fixpoint join_segments (values : list string) (trailer : string) : string :=
  match values with
  | [] => trailer
  | v :: vs => "/" +:+ v +:+ join_segments vs trailer
  end.

(** What a segment of a template requires of the piece of the path it
    matched, and what it records about it. *)
Definition segment_value (groups : gmap string string) (seg : segment) (v : string)
  : Prop :=
  match seg with
  | Literal l => v = l
  | Placeholder name =>
      groups !! name = Some v /\ String.eqb v "" = false /\ Py.has_char "/" v = false
  end.

(** The values a list of decoded pairs holds for one key, in order. *)
Fixpoint values_of (k : string) (pairs : list (string * string)) : list string :=
  match pairs with
  | [] => []
  | (n, v) :: rest => if String.eqb n k then v :: values_of k rest else values_of k rest
  end.

Definition is_digit (c : ascii) : bool :=
  match Py.digit_val c with Some _ => true | None => false end.

(** The number a string of digits denotes, continuing from [acc]. *)
Fixpoint digits_value (acc : Z) (s : string) : Z :=
  match s with
  | "" => acc
  | String c s' => digits_value (10 * acc + default 0%Z (Py.digit_val c)) s'
  end.

(** [m] keeps the property [P] of the connection, however it ends. *)
Definition preserves {A} (P : conn -> Prop) (m : M A) : Prop :=
  forall st, P st -> P (m st).2.

(** The outcome [out] of a run of the dispatcher on a socket whose
    [closed] flag was [c]: a run that returns has closed the socket, and
    a run that an exception leaves has not called [close]. *)
Definition closes (c : bool) (out : result unit * conn) : Prop :=
  match out.1 with
  | Ok _ => closed (sock out.2) = true
  | Raise _ => closed (sock out.2) = c
  end.

(** A response as it stands when it is written: status, reason phrase
    and the header entries in the order they are emitted. *)
Definition response (code : Z) (text : string) (hs : Py.dict string) : Response :=
  {| status_code := code; status_text := text; headers := hs; sent := false |}.

(** The connection as [handle_request] sets it up for a request. *)
Definition fresh_conn (sk : socket) : conn := {| res := Response_init; sock := sk |}.

(** [ctype or 'application/octet-stream'] *)
Definition content_type_of (guess : option string) : string :=
  match guess with
  | Some t => if String.eqb t "" then "application/octet-stream" else t
  | None => "application/octet-stream"
  end.


Section Owed.

Context {host : Host}.

Variable isdir : string -> bool.
Variable read_file : string -> result (list byte).
Variable guess_type : string -> option string.

(** The one call of [send] that writes when the dispatcher calls a
    matched handler that makes the calls [p], as the response it is made
    on and the data it is given: the handler's own first finalising
    call; for a handler that makes none, the dispatcher's
    [status(500).send("Internal Server Error")] when the handler raised
    an exception derived from [Exception] and the [print] before it
    returned, and the [send(None)] of the [finally] clause otherwise. *)
Definition handler_answer (p : hprog) (req : Request) (st : conn) : Response * data :=
  match first_send p (res st) with
  | Some rd => rd
  | None =>
      let ran := run_hprog p st in
      match ran.1 with
      | Raise e =>
          if is_Exception e then
            match print_ (error_log req e) with
            | Ok _ => (set_status 500 "Internal Server Error" (res ran.2),
                       DObj "Internal Server Error")
            | Raise _ => (res ran.2, DNone)
            end
          else (res ran.2, DNone)
      | Ok _ => (res ran.2, DNone)
      end
  end.

(** The same for the route loop: the answer of the first route whose
    pattern matches, and [status(404).send("Not Found")] without one. *)
Fixpoint route_answer (route_list : list (regex * handler)) (req : Request) (st : conn)
  : Response * data :=
  match route_list with
  | [] => (set_status 404 "Not Found" (res st), DObj "Not Found")
  | (re, h) :: rest =>
      match regex_match re (path req) with
      | Some groups =>
          handler_answer (h (with_params groups req)) (with_params groups req) st
      | None => route_answer rest req st
      end
  end.




End Owed.

(** What a piece of a path must be for a segment to accept it. *)
Definition segment_fits (seg : segment) (v : string) : Prop :=
  match seg with
  | Literal l => v = l
  | Placeholder _ => String.eqb v "" = false /\ Py.has_char "/" v = false
  end.

(** A query value as [Request] stores it: a non-empty string, or a list
    of two or more non-empty strings. *)
Definition well_shaped (q : qvalue) : Prop :=
  match q with
  | QStr v => v <> ""
  | QList l => (2 <= length l)%nat /\ Forall (fun v => v <> "") l
  end.

(** The value [send] gives a header the handler did not set. *)
Definition default_header (name : string) : option string :=
  if String.eqb name "Content-Type" then Some "text/plain; charset=utf-8"
  else if String.eqb name "Access-Control-Allow-Origin" then Some "*"
  else None.

Definition OSError_closed : exn := Exception "OSError" "[Errno 9] Bad file descriptor".

(** Text in the ASCII range, where [str.isspace], [str.strip] and
    [str.split] are as modelled. *)
Definition is_ascii (s : string) : bool := all_chars (fun c => (Py.ord c <? 128)%N) s.

(** A non-empty run of ASCII characters without white space. *)
Definition is_token (s : string) : bool :=
  negb (String.eqb s "") && is_ascii s && all_chars (fun c => negb (Py.isspace c)) s.

(** A header a client can put on one line: ASCII, no colon in the name
    and no line feed. *)
Definition is_field (nv : string * string) : bool :=
  is_ascii nv.1 && is_ascii nv.2 && negb (Py.has_char ":" nv.1)
  && negb (Py.has_char (Py.chr 10) nv.1) && negb (Py.has_char (Py.chr 10) nv.2).

Definition request_line (method_ target version : string) : string :=
  method_ +:+ " " +:+ target +:+ " " +:+ version +:+ Py.CRLF.

(** The bytes of a request: request line, header lines, blank line, and
    whatever follows. *)
Definition request_bytes (method_ target version : string)
    (fields : list (string * string)) (rest : list byte) : list byte :=
  Py.encode (request_line method_ target version)
  ++ concat (map (fun nv => Py.encode (header_line nv)) fields)
  ++ Py.encode Py.CRLF ++ rest.

(** The header map the header loop builds from the fields in order. *)
Definition headers_of (fields : list (string * string)) : gmap string string :=
  foldl (fun h nv => <[Py.strip nv.1 := Py.strip nv.2]> h) ∅ fields.

(** ** The application [app.py] *)

(** An entry of [database]: [{"id": new_id, "data": body}]. *)
Record item := { item_id : Z; item_data : body_value }.

(** The double quote. *)
Definition dquote : string := String (Py.chr 34) "".

(** The object [{"id": new_id}] as [json] receives it. *)
Definition id_json (new_id : Z) : jsonable :=
  {| dumps := Some ("{" +:+ dquote +:+ "id" +:+ dquote +:+ ": " +:+ Py.str_Z new_id +:+ "}");
     obj_str := "{'id': " +:+ Py.str_Z new_id +:+ "}" |}.

(** [isinstance(body, dict)]: a JSON object, or the map [parse_qs] makes
    of a form body. *)
Definition isinstance_dict (b : body_value) : bool :=
  match b with
  | BJson (JDict _) | BForm _ => true
  | _ => false
  end.

Section App.

(** [json.dumps] and [str] on the other objects the handlers pass to
    [json], and [str] on a list of query values. *)
Variable user_json : option string -> jsonable.
Variable item_json : item -> jsonable.
Variable database_json : list item -> jsonable.
Variable str_of_list : list string -> string.

Definition home : handler :=
  fun _ => HSend (DObj "Welcome to MiniExpress!") HReturn.

Definition echo : handler :=
  fun req =>
    let message := match query req !! "message" with
                   | Some (QStr s) => s
                   | Some (QList l) => str_of_list l
                   | None => "No message provided"
                   end in
    HSend (DObj ("Echo: " +:+ message)) HReturn.

Definition get_user : handler :=
  fun req => HJson (user_json (params req !! "id")) HReturn.

(** [create_data]: the database it leaves behind and the calls it makes
    on the response. *)
Definition create_data (database : list item) (req : Request) : list item * hprog :=
  if isinstance_dict (body req) then
    let new_id := (Z.of_nat (length database) + 1)%Z in
    (database ++ [{| item_id := new_id; item_data := body req |}],
     HStatus 201 (HJson (id_json new_id) HReturn))
  else (database, HStatus 400 (HSend (DObj "Invalid JSON!") HReturn)).

Definition get_all_data (database : list item) : handler :=
  fun _ => HJson (database_json database) HReturn.

Definition get_data_by_id (database : list item) : handler :=
  fun req =>
    match params req !! "id" ≫= Py.int with
    | None => HStatus 400 (HSend (DObj "Invalid ID!") HReturn)
    | Some data_id =>
        match find (fun it => (item_id it =? data_id)%Z) database with
        | Some it => HJson (item_json it) HReturn
        | None => HStatus 404 (HSend (DObj "Item not found") HReturn)
        end
    end.

(** The registrations of [app.py] in program order; the handlers see the
    database as it stands when they are called. *)
Definition app_routes (database : list item) : list (string * string * handler) :=
  [("GET", "/", home);
   ("GET", "/echo", echo);
   ("GET", "/user/:id", get_user);
   ("POST", "/data", fun req => (create_data database req).2);
   ("GET", "/data", get_all_data database);
   ("GET", "/data/:id", get_data_by_id database)].

Definition app (database : list item) : option MiniExpress :=
  register_all (app_routes database) (use_static "/static" "./static" MiniExpress_init).

(** The database after [create_data] has run for each of the requests,
    one call after the other, starting from the empty list. *)
Definition database_after (reqs : list Request) : list item :=
  foldl (fun database req => (create_data database req).1) [] reqs.

End App.

(** ** Vocabulary of the statements about the application *)

Section Routed.

Context {host : Host}.

Variable isdir : string -> bool.
Variable read_file : string -> result (list byte).
Variable guess_type : string -> option string.

(** The dispatcher hands the request to [h], with [groups] as [params]. *)
Definition routed_to (self : MiniExpress) (req : Request) (h : handler)
    (groups : gmap string string) : Prop :=
  forall st, respond isdir read_file guess_type self req st
             = invoke h (with_params groups req) st.

(** The one response that goes out for the request is the answer of
    [h], called with [groups] as [params]: the call of [send] that
    writes is the one [handler_answer] names for it, whenever the texts
    of that call encode. *)
Definition answered_by (self : MiniExpress) (req : Request) (h : handler)
    (groups : gmap string string) : Prop :=
  let req' := with_params groups req in
  forall st,
    sent (res st) = false ->
    encodable (handler_answer (h req') req' st).1 (handler_answer (h req') req' st).2 = true ->
    wrote_response (handler_answer (h req') req' st).1 (handler_answer (h req') req' st).2
      st (respond isdir read_file guess_type self req st).2.

End Routed.

(** A complete response with the headers [send] gives a handler that set
    at most the content type. *)
Definition plain_response (code : Z) (ctype body_text : string) : Response :=
  response code (reason_phrase code)
    [("Content-Type", ctype);
     ("Access-Control-Allow-Origin", "*");
     ("Connection", "close");
     ("Content-Length", Py.str_nat (length (Py.encode body_text)))].

(** The connection after [r] with the body [body_text] went out on [sk]
    and the socket was closed. *)
Definition answered (sk : socket) (r : Response) (body_text : string) : conn :=
  {| res := set_sent r;
     sock := {| wire := wire sk ++ render r (Py.encode body_text);
                fault := None; closed := true |} |}.

(** A request as [create_data] sees it, with a given decoded body. *)
Definition post_with_body (b : body_value) : Request :=
  {| method := "POST"; raw_path := "/data"; path := "/data"; query := ∅;
     req_headers := ∅; params := ∅; client_addr := "peer"; body := b |}.

(** A request for [GET /data/<piece>] before routing. *)
Definition request_for_item (piece : string) : Request :=
  {| method := "GET"; raw_path := "/data/" +:+ piece; path := "/data/" +:+ piece;
     query := ∅; req_headers := ∅; params := ∅; client_addr := "peer"; body := BNone |}.

(** Stand-ins for [json.dumps]: the text names the object. *)
Definition item_json_stub (it : item) : jsonable :=
  {| dumps := Some ("item " +:+ Py.str_Z (item_id it)); obj_str := "" |}.

Definition any_json_stub {A} (_ : A) : jsonable := {| dumps := None; obj_str := "" |}.

(** * Checks of the library models on concrete inputs *)

Example utf8_examples :
  Py.utf8_decode Py.Strict [x68; x69] = Some "hi" /\
  Py.utf8_decode Py.Strict [x68; xff] = None /\
  Py.decode_lossy Py.Ignore [x68; xff; x69] = "hi" /\
  Py.encode (Py.decode_lossy Py.Replace [xe2; x82; x41]) = [xef; xbf; xbd; x41] /\
  Py.str_Z 1204 = "1204" /\ Py.str_Z 0 = "0" /\ Py.int "12_0" = Some 120%Z /\
  Py.int "abc" = None /\ Py.int "-7" = Some (-7)%Z /\
  Py.split "/" "a//b" = ["a"; ""; "b"] /\
  Py.split_ws " GET  /x HTTP/1.1 " = ["GET"; "/x"; "HTTP/1.1"] /\
  Py.strip_by Py.is_slash "//a/b/" = "a/b".
Proof. vm_compute. repeat split. Qed.

Example urllib_examples :
  Urllib.parse_qsl "message=hi&tag=a&tag=b" = [("message", "hi"); ("tag", "a"); ("tag", "b")] /\
  Urllib.parse_qsl "a=1&a=&b&&c=x+y%21%zz" = [("a", "1"); ("c", "x y!%zz")] /\
  Py.encode (Urllib.unquote "%E2%82%AC%ff") = [xe2; x82; xac; xef; xbf; xbd] /\
  Posixpath.join "./static" "css/a.css" = "./static/css/a.css" /\
  Posixpath.join "./static" "" = "./static/" /\
  Posixpath.norm_comps "./static/../server.py" = ["server.py"] /\
  Posixpath.within "./static" "./static/a/../b" = true.
Proof. vm_compute. repeat split. Qed.

(** * Decimal text *)

Lemma digit_val_digit_char (d : N) :
  (d < 10)%N -> Py.digit_val (Py.digit_char d) = Some (Z.of_N d).
Proof.
  intros Hd.
  assert (d = 0 \/ d = 1 \/ d = 2 \/ d = 3 \/ d = 4 \/ d = 5 \/ d = 6 \/ d = 7
          \/ d = 8 \/ d = 9)%N as H by lia.
  repeat (destruct H as [->|H]; [reflexivity|]). by subst.
Qed.

Lemma str_pos_go_value (fuel : nat) (n : N) (acc : string) :
  (0 < fuel)%nat -> (Z.of_N n < 2 ^ Z.of_nat fuel)%Z ->
  digits_value 0 (Py.str_pos_go fuel n acc) = digits_value (Z.of_N n) acc.
Proof.
  revert n acc. induction fuel as [|fuel IH]; intros n acc Hf Hn; [lia|].
  simpl. destruct (N.ltb_spec n 10) as [Hlt|Hge].
  - simpl. rewrite N.mod_small by done. by rewrite digit_val_digit_char.
  - rewrite Nat2Z.inj_succ, Z.pow_succ_r in Hn by lia.
    assert (0 < fuel)%nat as Hf'.
    { destruct fuel; [|lia]. simpl in Hn. lia. }
    rewrite IH; [|done|].
    + simpl. rewrite digit_val_digit_char by (apply N.mod_lt; lia). simpl.
      f_equal. rewrite N2Z.inj_div, N2Z.inj_mod. simpl.
      pose proof (Z.div_mod (Z.of_N n) 10). lia.
    + rewrite N2Z.inj_div. simpl.
      apply Z.div_lt_upper_bound; lia.
Qed.

Lemma str_pos_go_digits (fuel : nat) (n : N) (acc : string) :
  all_chars is_digit acc = true ->
  all_chars is_digit (Py.str_pos_go fuel n acc) = true.
Proof.
  revert n acc. induction fuel as [|fuel IH]; intros n acc Hacc; simpl; [done|].
  assert (all_chars is_digit (String (Py.digit_char (n mod 10)) acc) = true) as H.
  { simpl. rewrite Hacc. unfold is_digit.
    rewrite digit_val_digit_char by (apply N.mod_lt; lia). done. }
  destruct (n <? 10)%N; auto.
Qed.

Lemma str_pos_go_nonempty (fuel : nat) (n : N) (acc : string) :
  (0 < fuel)%nat -> Py.str_pos_go fuel n acc <> "".
Proof.
  revert n acc. induction fuel as [|fuel IH]; intros n acc Hf; [lia|].
  simpl. destruct (n <? 10)%N; [done|].
  destruct fuel; [done|]. apply IH. lia.
Qed.

Lemma pos_size_nat_bound (p : positive) : (Z.pos p < 2 ^ Z.of_nat (Pos.size_nat p))%Z.
Proof.
  induction p as [p IH|p IH|]; simpl Pos.size_nat;
    rewrite ?Nat2Z.inj_succ, ?Z.pow_succ_r by lia; lia.
Qed.

Lemma size_nat_bound (n : N) : (Z.of_N n < 2 ^ Z.of_nat (S (N.size_nat n)))%Z.
Proof.
  rewrite Nat2Z.inj_succ, Z.pow_succ_r by lia.
  destruct n as [|p]; simpl; [lia|].
  pose proof (pos_size_nat_bound p). lia.
Qed.

Lemma digit_not_space (c : ascii) : is_digit c = true -> Py.is_c_space c = false.
Proof.
  unfold is_digit, Py.digit_val, Py.is_c_space.
  destruct (48 <=? Py.ord c)%N eqn:H1; [|done]. apply N.leb_le in H1.
  intros _. apply orb_false_intro.
  - apply andb_false_intro2. apply N.leb_gt. lia.
  - apply N.eqb_neq. lia.
Qed.

Lemma strip_digits (s : string) :
  all_chars is_digit s = true -> Py.strip_by Py.is_c_space s = s.
Proof.
  intros Hs. unfold Py.strip_by.
  assert (Py.lstrip_by Py.is_c_space s = s) as ->.
  { destruct s as [|c s]; [done|]. simpl in *.
    apply andb_prop in Hs as [Hc _]. by rewrite (digit_not_space _ Hc). }
  induction s as [|c s IH]; [done|]. simpl in *.
  apply andb_prop in Hs as [Hc Hs]. rewrite (IH Hs), (digit_not_space _ Hc).
  by destruct s.
Qed.

Lemma int_digits_value (s : string) (acc : Z) (prev : bool) :
  all_chars is_digit s = true -> prev = true \/ s <> "" ->
  Py.int_digits acc prev s = Some (digits_value acc s).
Proof.
  revert acc prev. induction s as [|c s IH]; intros acc prev Hs Hp; simpl.
  - destruct Hp as [->|]; done.
  - simpl in Hs. apply andb_prop in Hs as [Hc Hs]. unfold is_digit in Hc.
    destruct (Py.digit_val c) as [d|]; [|done]. simpl. apply IH; auto.
Qed.

Lemma int_of_digits (s : string) :
  all_chars is_digit s = true -> s <> "" ->
  Py.int s = Some (digits_value 0 s).
Proof.
  intros Hs Hne. unfold Py.int. rewrite (strip_digits _ Hs).
  rewrite <- (int_digits_value s 0 false Hs (or_intror Hne)).
  destruct s as [|c s]; [done|]. simpl in Hs. apply andb_prop in Hs as [Hc _].
  destruct c as [[] [] [] [] [] [] [] []]; try done.
Qed.

(** [int(str(n)) == n] for a length [n]. *)
Lemma int_str_nat (n : nat) : Py.int (Py.str_nat n) = Some (Z.of_nat n).
Proof.
  unfold Py.str_nat, Py.str_N.
  rewrite int_of_digits.
  - rewrite str_pos_go_value; [|lia|apply size_nat_bound]. simpl.
    by rewrite nat_N_Z.
  - by apply str_pos_go_digits.
  - apply str_pos_go_nonempty. lia.
Qed.

(** * Facts about the socket and [Response.send] *)

(** Exposes the state passing of a sequence of calls. *)
Ltac unfold_bind := unfold mbind, M_bind, bind.

Lemma sendall_seq_healthy (cs : list (list byte)) (sk : socket) :
  healthy sk ->
  sendall_seq cs sk
  = (Ok tt, {| wire := wire sk ++ concat cs; fault := None; closed := false |}).
Proof.
  revert sk. induction cs as [|c cs IH]; intros sk [Hf Hc]; simpl.
  - destruct sk; simpl in *; subst. by rewrite app_nil_r.
  - unfold sendall. rewrite Hc, Hf. rewrite IH by done. simpl.
    by rewrite <- app_assoc.
Qed.

Lemma sendall_wire (c : list byte) (sk : socket) :
  exists p, p `prefix_of` c /\ wire (sendall c sk).2 = wire sk ++ p.
Proof.
  unfold sendall. destruct (closed sk).
  { exists []. split; [apply prefix_nil | by rewrite app_nil_r]. }
  destruct (fault sk) as [[n e]|]; [destruct (length c <=? n)%nat|]; simpl.
  - by exists c.
  - exists (take n c). split; [apply prefix_take | done].
  - by exists c.
Qed.

Lemma sendall_seq_wire (cs : list (list byte)) (sk : socket) :
  exists p, p `prefix_of` concat cs /\ wire (sendall_seq cs sk).2 = wire sk ++ p.
Proof.
  revert sk. induction cs as [|c cs IH]; intros sk; simpl.
  { exists []. split; [done | by rewrite app_nil_r]. }
  destruct (sendall c sk) as [[[]|e] sk'] eqn:Hc.
  - destruct (IH sk') as (p & Hp & Hw).
    assert (wire sk' = wire sk ++ c) as Hsk'.
    { revert Hc. unfold sendall. destruct (closed sk); [done|].
      destruct (fault sk) as [[n e]|]; [destruct (length c <=? n)%nat|];
        intros [= <-]; done. }
    exists (c ++ p). split; [by apply prefix_app|].
    by rewrite Hw, Hsk', <- app_assoc.
  - destruct (sendall_wire c sk) as (p & Hp & Hw). rewrite Hc in Hw.
    exists p. split; [by apply prefix_app_r | done].
Qed.

Lemma send_noop (d : data) (st : conn) :
  sent (res st) = true -> send d st = (Ok tt, st).
Proof. intros H. unfold send. by rewrite H. Qed.

Lemma send_sent (d : data) (st : conn) : sent (res (send d st).2) = true.
Proof.
  unfold send. destruct (sent (res st)) eqn:Hs; [done|].
  destruct (sendall_seq _ _) as [[[]|e] sk]; [done|].
  by destruct (is_BrokenPipe e).
Qed.

Lemma send_healthy (d : data) (st : conn) :
  sent (res st) = false -> healthy (sock st) ->
  send d st =
  (Ok tt,
   let r := set_headers (final_headers (headers (res st)) (body_bytes_of d)) (res st) in
   {| res := set_sent r;
      sock := {| wire := wire (sock st) ++ render r (body_bytes_of d);
                 fault := None; closed := false |} |}).
Proof.
  intros Hs Hh. unfold send. rewrite Hs.
  by rewrite (sendall_seq_healthy _ _ Hh).
Qed.

Lemma dict_get_set_eq {V} (k : string) (v : V) (d : Py.dict V) :
  Py.dict_get k (Py.dict_set k v d) = Some v.
Proof.
  induction d as [|[k' v'] d IH]; simpl.
  - by rewrite String.eqb_refl.
  - destruct (String.eqb k k') eqn:E; simpl; rewrite ?String.eqb_refl, ?E; done.
Qed.

Lemma dict_get_set_ne {V} (k k' : string) (v : V) (d : Py.dict V) :
  k <> k' -> Py.dict_get k' (Py.dict_set k v d) = Py.dict_get k' d.
Proof.
  intros Hne. induction d as [|[k0 v0] d IH]; simpl.
  - destruct (String.eqb_spec k' k); [congruence | done].
  - destruct (String.eqb_spec k k0) as [->|]; simpl.
    + destruct (String.eqb_spec k' k0); [congruence | done].
    + destruct (String.eqb_spec k' k0); done.
Qed.


Lemma dict_set_keys {V} (k k0 : string) (v : V) (d : Py.dict V) :
  k0 ∈ (Py.dict_set k v d).*1 -> k0 = k \/ k0 ∈ d.*1.
Proof.
  induction d as [|[k' v'] d IH]; simpl.
  - intros ->%list_elem_of_singleton. by left.
  - destruct (String.eqb_spec k k') as [->|Hne]; simpl.
    + intros [->|Hin]%elem_of_cons; [by left | right; by right].
    + intros [->|Hin]%elem_of_cons; [right; by left|].
      destruct (IH Hin); [by left | right; by right].
Qed.

Lemma dict_set_keys_NoDup {V} (k : string) (v : V) (d : Py.dict V) :
  NoDup d.*1 -> NoDup (Py.dict_set k v d).*1.
Proof.
  induction d as [|[k' v'] d IH]; simpl; intros Hd.
  - apply NoDup_singleton.
  - apply NoDup_cons in Hd as [Hnotin Hd].
    destruct (String.eqb_spec k k') as [->|Hne]; simpl.
    + by apply NoDup_cons.
    + apply NoDup_cons. split; [|auto].
      intros [?|?]%dict_set_keys; [congruence | done].
Qed.


Lemma final_headers_NoDup (h : Py.dict string) (b : list byte) :
  NoDup h.*1 -> NoDup (final_headers h b).*1.
Proof.
  intros H. unfold final_headers, setdefault_header.
  do 2 apply dict_set_keys_NoDup.
  repeat (case_match; try apply dict_set_keys_NoDup); done.
Qed.

Lemma send_headers_NoDup (d : data) (st : conn) :
  NoDup (headers (res st)).*1 -> NoDup (headers (res (send d st).2)).*1.
Proof.
  intros H. unfold send. destruct (sent (res st)); [done|].
  destruct (sendall_seq _ _) as [[[]|e] sk]; [|destruct (is_BrokenPipe e)];
    by apply final_headers_NoDup.
Qed.

Lemma render_eq (r : Response) (b : list byte) :
  render r b
  = Py.encode (status_line r)
    ++ concat (map (fun nv => Py.encode (header_line nv)) (headers r))
    ++ Py.encode Py.CRLF ++ b.
Proof.
  unfold render, chunks. simpl. f_equal.
  rewrite concat_app. f_equal. simpl.
  destruct b; simpl; by rewrite ?app_nil_r.
Qed.



Lemma json_eq (o : jsonable) (st : conn) :
  json o st
  = send (DObj (match dumps o with Some s => s | None => obj_str o end))
      {| res := set_headers (Py.dict_set "Content-Type" "application/json; charset=utf-8"
                               (headers (res st))) (res st);
         sock := sock st |}.
Proof. reflexivity. Qed.

(** C3 (amended). For a first [send] or [json] whose data converts to
    bytes ([None], a [bytes] object, or an object whose [str()]
    encodes), and whatever the socket does: the call leaves [sent] true;
    every later [send] returns normally and changes neither the
    response nor the socket; every later [json] returns normally and
    leaves the socket as it is, what it does to the response being the
    [Content-Type] entry that it stores in the header map before it
    delegates to [send]. *)
Theorem finalize_once (first second : finalizer) (st : conn) :
  converts (finalizer_data first) = true ->
  let st1 := (finalize first st).2 in
  let out := finalize second st1 in
  sent (res st1) = true /\
  out.1 = Ok tt /\
  sock out.2 = sock st1 /\
  match second with
  | ViaSend _ => out.2 = st1
  | ViaJson _ =>
      res out.2
      = set_headers (Py.dict_set "Content-Type" "application/json; charset=utf-8"
                       (headers (res st1))) (res st1)
  end.
Proof.
  intros _ st1 out.
  assert (sent (res st1) = true) as Hs.
  { subst st1. destruct first; simpl; [|rewrite json_eq]; apply send_sent. }
  subst out. destruct second as [d|o]; simpl.
  - rewrite (send_noop _ _ Hs). done.
  - rewrite json_eq, send_noop by done. done.
Qed.

(** C3, witness: a [send] whose write breaks after ten bytes, followed
    by a second [send]: the wire keeps the ten bytes of the first. *)
Lemma finalize_once_witness :
  let st := {| res := Response_init;
               sock := {| wire := []; fault := Some (10%nat, BrokenPipeError);
                          closed := false |} |} in
  let st1 := (finalize (ViaSend (DObj "first")) st).2 in
  sent (res st1) = true /\
  Py.of_bytes (wire (sock st1)) = "HTTP/1.1 2" /\
  finalize (ViaSend (DObj "second")) st1 = (Ok tt, st1).
Proof.
  intros st st1.
  destruct (finalize_once (ViaSend (DObj "first")) (ViaSend (DObj "second")) st eq_refl)
    as (Hs & Hr & _ & Hout).
  split; [exact Hs|]. split; [reflexivity|].
  fold st1 in Hr, Hout. destruct (finalize (ViaSend (DObj "second")) st1) as [r st2].
  simpl in Hr, Hout. by rewrite Hr, Hout.
Defined.

(** C3, counterexample. A [json] call that follows a [send] is not a
    no-op: it emits nothing, but it replaces the [Content-Type] entry of
    the header map. *)
Lemma json_after_send_changes_headers :
  let st1 := (send (DObj "a") {| res := Response_init; sock := fresh_socket |}).2 in
  let st2 := (json {| dumps := Some "{}"; obj_str := "{}" |} st1).2 in
  sent (res st1) = true /\
  sock st2 = sock st1 /\
  Py.dict_get "Content-Type" (headers (res st1)) = Some "text/plain; charset=utf-8" /\
  Py.dict_get "Content-Type" (headers (res st2)) = Some "application/json; charset=utf-8".
Proof. vm_compute. done. Qed.

(** * The handler call of the dispatcher *)

Lemma wrote_response_from (r : Response) (d : data) (st0 st0' st : conn) :
  sock st0 = sock st0' -> wrote_response r d st0' st -> wrote_response r d st0 st.
Proof.
  intros Hk (Hs & p & Hp & Hw & Hh). split; [done|]. exists p. by rewrite Hk.
Qed.

Lemma wrote_response_later (r : Response) (d : data) (st0 st1 st2 : conn) :
  wrote_response r d st0 st1 ->
  sent (res st2) = true -> wire (sock st2) = wire (sock st1) ->
  wrote_response r d st0 st2.
Proof.
  intros (_ & p & Hp & Hw & Hh) Hs Hk. split; [done|]. exists p. by rewrite Hk.
Qed.

(** A [send] on a response not yet sent writes that response. *)
Lemma send_wrote (d : data) (st : conn) :
  sent (res st) = false -> wrote_response (res st) d st (send d st).2.
Proof.
  intros Hs. split; [apply send_sent|].
  unfold send, as_sent. rewrite Hs.
  set (r := set_headers _ _).
  destruct (sendall_seq_wire (chunks r (body_bytes_of d)) (sock st)) as (p & Hp & Hw).
  exists p. split; [done|]. split.
  - revert Hw. destruct (sendall_seq _ _) as [[[]|e] sk]; [done|].
    by destruct (is_BrokenPipe e).
  - intros H0. rewrite (sendall_seq_healthy _ _ H0) in Hw. simpl in Hw.
    by apply app_inv_head in Hw.
Qed.

Lemma bind_snd {A B} (m : M A) (f : A -> M B) (st : conn) (P : conn -> Prop) :
  P (m st).2 -> (forall a st', P st' -> P (f a st').2) -> P ((m ≫= f) st).2.
Proof.
  intros Hm Hf. unfold_bind.
  destruct (m st) as [[a|e] st']; simpl in *; auto.
Qed.

Lemma wrote_then_close (r : Response) (d : data) (st0 : conn) (m : M unit) (st : conn) :
  wrote_response r d st0 (m st).2 -> wrote_response r d st0 ((m ;; close) st).2.
Proof.
  intros Hw. unfold_bind. destruct (m st) as [[[]|e] st1]; simpl in *; [|done].
  apply (wrote_response_later _ _ _ st1); [done | exact (proj1 Hw) | done].
Qed.

(** Once the response is sent, nothing a handler does reaches the
    socket. *)
Lemma run_hprog_sent (p : hprog) (st : conn) :
  sent (res st) = true ->
  sent (res (run_hprog p st).2) = true /\ sock (run_hprog p st).2 = sock st.
Proof.
  revert st. induction p as [|e|code k IH|name value k IH|d k IH|o k IH];
    intros st Hs; simpl; try done.
  - by apply (IH {| res := set_status code (reason_phrase code) (res st); sock := sock st |}).
  - by apply (IH {| res := set_headers (Py.dict_set name value (headers (res st))) (res st);
                    sock := sock st |}).
  - unfold_bind. rewrite send_noop by done. by apply IH.
  - unfold_bind. rewrite json_eq, send_noop by done.
    by apply (IH {| res := set_headers _ (res st); sock := sock st |}).
Qed.

(** A handler that makes no finalising call leaves the response unsent
    and the socket as it was. *)
Lemma run_hprog_unsent (p : hprog) (st : conn) :
  sent (res st) = false -> first_send p (res st) = None ->
  sent (res (run_hprog p st).2) = false /\ sock (run_hprog p st).2 = sock st.
Proof.
  revert st. induction p as [|e|code k IH|name value k IH|d k IH|o k IH];
    intros st Hs Hf; simpl in *; try done.
  - by apply (IH {| res := set_status code (reason_phrase code) (res st); sock := sock st |}).
  - by apply (IH {| res := set_headers (Py.dict_set name value (headers (res st))) (res st);
                    sock := sock st |}).
Qed.

(** The first finalising call of a handler is the call that writes. *)
Lemma run_hprog_first_send (p : hprog) (st : conn) (r : Response) (d : data) :
  sent (res st) = false -> first_send p (res st) = Some (r, d) ->
  wrote_response r d st (run_hprog p st).2.
Proof.
  revert st. induction p as [|e|code k IH|name value k IH|d0 k IH|o k IH];
    intros st Hs Hf; simpl in *; try done.
  - apply (wrote_response_from _ _ _
             {| res := set_status code (reason_phrase code) (res st); sock := sock st |});
      [done|]. by apply IH.
  - apply (wrote_response_from _ _ _
             {| res := set_headers (Py.dict_set name value (headers (res st))) (res st);
                sock := sock st |}); [done|]. by apply IH.
  - injection Hf as <- <-. pose proof (send_wrote d0 st Hs) as Hw.
    unfold_bind. destruct (send d0 st) as [[[]|e] st1]; simpl in *; [|done].
    destruct (run_hprog_sent k st1 (proj1 Hw)) as [Hs2 Hk2].
    apply (wrote_response_later _ _ _ st1); [done|done|by rewrite Hk2].
  - injection Hf as <- <-. unfold_bind. rewrite json_eq. fold (json_text o).
    set (st' := {| res := set_headers _ (res st); sock := sock st |}).
    pose proof (send_wrote (DObj (json_text o)) st' Hs) as Hw.
    apply (wrote_response_from _ _ st st') in Hw; [|done].
    destruct (send (DObj (json_text o)) st') as [[[]|e] st1]; simpl in *; [|done].
    destruct (run_hprog_sent k st1 (proj1 Hw)) as [Hs2 Hk2].
    apply (wrote_response_later _ _ _ st1); [done|done|by rewrite Hk2].
Qed.

Section HandlerCall.

Context {host : Host}.

Lemma invoke_eq (h : handler) (req : Request) (st : conn) :
  invoke h req st = (guarded h req ;; close) st.
Proof. reflexivity. Qed.

(** The [finally] clause of the handler call. *)
Lemma forced_send_wrote (st0 st : conn) (r : Response) (d : data) (out : result unit) :
  (if sent (res st) then wrote_response r d st0 st
   else sock st = sock st0 /\ (r, d) = (res st, DNone)) ->
  wrote_response r d st0
    (match (if sent (res st) then (Ok tt, st) else send DNone st) with
     | (Ok _, st') => (out, st')
     | (Raise e, st') => (Raise e, st')
     end).2.
Proof.
  destruct (sent (res st)) eqn:Hs; simpl; [done|].
  intros [Hk [= -> ->]]. pose proof (send_wrote DNone st Hs) as Hw.
  apply (wrote_response_from _ _ st0 st) in Hw; [|done].
  by destruct (send DNone st) as [[[]|e] st'].
Qed.

(** Whatever the handler does and however its call ends, the call of
    [send] that writes is the one [handler_answer] names. *)
Lemma guarded_wrote (h : handler) (req : Request) (st : conn) :
  sent (res st) = false ->
  wrote_response (handler_answer (h req) req st).1 (handler_answer (h req) req st).2
    st (guarded h req st).2.
Proof.
  intros Hs. unfold handler_answer, guarded, try_finally, try_except.
  destruct (first_send (h req) (res st)) as [[r d]|] eqn:Hf; simpl.
  - pose proof (run_hprog_first_send _ _ _ _ Hs Hf) as Hw.
    destruct (run_hprog (h req) st) as [[[]|e] st1]; simpl in *.
    + apply forced_send_wrote. by rewrite (proj1 Hw).
    + destruct (is_Exception e); simpl.
      * unfold lift. unfold_bind. destruct (print_ _) as [[]|e']; simpl.
        -- rewrite send_noop by exact (proj1 Hw). apply forced_send_wrote. simpl.
           rewrite (proj1 Hw).
           apply (wrote_response_later _ _ _ st1); [done | exact (proj1 Hw) | done].
        -- apply forced_send_wrote. by rewrite (proj1 Hw).
      * apply forced_send_wrote. by rewrite (proj1 Hw).
  - destruct (run_hprog_unsent _ _ Hs Hf) as [Hs1 Hk1].
    destruct (run_hprog (h req) st) as [[[]|e] st1]; simpl in *.
    + apply forced_send_wrote. by rewrite Hs1.
    + destruct (is_Exception e); simpl.
      * unfold lift. unfold_bind. destruct (print_ _) as [[]|e']; simpl.
        -- set (st2 := {| res := set_status 500 (reason_phrase 500) (res st1);
                          sock := sock st1 |}).
           pose proof (send_wrote (DObj "Internal Server Error") st2 Hs1) as Hw.
           apply (wrote_response_from _ _ st st2) in Hw; [|done].
           destruct (send (DObj "Internal Server Error") st2) as [r2 st3]. simpl in *.
           apply forced_send_wrote. rewrite (proj1 Hw). exact Hw.
        -- apply forced_send_wrote. by rewrite Hs1.
      * apply forced_send_wrote. by rewrite Hs1.
Qed.

Lemma invoke_wrote (h : handler) (req : Request) (st : conn) :
  sent (res st) = false ->
  wrote_response (handler_answer (h req) req st).1 (handler_answer (h req) req st).2
    st (invoke h req st).2.
Proof.
  intros Hs. pose proof (guarded_wrote h req st Hs) as Hw.
  rewrite invoke_eq. unfold_bind.
  destruct (guarded h req st) as [[[]|e] st1]; simpl in *; [|done].
  apply (wrote_response_later _ _ _ st1); [done | exact (proj1 Hw) | done].
Qed.

Lemma route_loop_wrote (route_list : list (regex * handler)) (req : Request) (st : conn) :
  sent (res st) = false ->
  wrote_response (route_answer route_list req st).1 (route_answer route_list req st).2
    st (route_loop route_list req st).2.
Proof.
  intros Hs. induction route_list as [|[re h] rest IH]; simpl.
  - set (st1 := {| res := set_status 404 (reason_phrase 404) (res st); sock := sock st |}).
    pose proof (send_wrote (DObj "Not Found") st1 Hs) as Hw.
    apply (wrote_response_from _ _ st st1) in Hw; [|done].
    unfold_bind. simpl. fold st1.
    destruct (send (DObj "Not Found") st1) as [[[]|e] st2]; simpl in *; [|done].
    apply (wrote_response_later _ _ _ st2); [done | exact (proj1 Hw) | done].
  - destruct (regex_match re (path req)) as [groups|]; [|done].
    by apply invoke_wrote.
Qed.

End HandlerCall.

Section HandlerOutcome.

Context {host : Host}.



End HandlerOutcome.



(** * Route registration and resolution *)

Lemma add_route_routes_get (m t : string) (h : handler) (self self' : MiniExpress)
    (m' : string) :
  add_route m t h self = Some self' ->
  routes_get self' m'
  = routes_get self m' ++ compiled_for m' [(m, t, h)] /\
  static_routes self' = static_routes self.
Proof.
  unfold add_route, compiled_for. destruct (compile t) as [re|] eqn:Hc; [|done].
  intros [= <-]. unfold routes_get. simpl. split; [|done].
  destruct (String.eqb_spec m m') as [->|Hne]; simpl.
  - by rewrite lookup_insert_eq, Hc.
  - rewrite lookup_insert_ne by done. by rewrite app_nil_r.
Qed.

Lemma register_all_routes_get (regs : list (string * string * handler))
    (self app : MiniExpress) (m : string) :
  register_all regs self = Some app ->
  routes_get app m = routes_get self m ++ compiled_for m regs /\
  static_routes app = static_routes self.
Proof.
  revert self. induction regs as [|[[m0 t0] h0] regs IH]; intros self; simpl.
  - intros [= <-]. by rewrite app_nil_r.
  - destruct (add_route m0 t0 h0 self) as [self'|] eqn:Hadd; [|done].
    intros Hrest. destruct (IH _ Hrest) as [-> ->].
    destruct (add_route_routes_get _ _ _ _ _ m Hadd) as [-> ->].
    split; [|done]. rewrite <- app_assoc. f_equal.
    unfold compiled_for. simpl.
    destruct (String.eqb m0 m); [|done]. by destruct (compile t0).
Qed.

Lemma route_loop_first_match {host : Host} (before after : list (regex * handler)) (re : regex)
    (h : handler) (req : Request) (groups : gmap string string) :
  Forall (fun rh => regex_match rh.1 (path req) = None) before ->
  regex_match re (path req) = Some groups ->
  route_loop (before ++ (re, h) :: after) req = invoke h (with_params groups req).
Proof.
  intros Hb Hm. induction Hb as [|[re0 h0] before H0 Hb IH]; simpl.
  - by rewrite Hm.
  - simpl in H0. by rewrite H0.
Qed.

Section Resolution.

Context {host : Host}.

Variable isdir : string -> bool.
Variable read_file : string -> result (list byte).
Variable guess_type : string -> option string.

(** C4 (amended). For an application built by a sequence of [add_route]
    calls on one without routes, whatever static mappings it has, the
    route list of a method is the list of the patterns registered for
    exactly that method, in registration order. When the first of them
    that matches the request path was registered with handler [h], the
    route loop runs [h], with the groups of that match as [params],
    whatever was registered after it. So does the dispatcher for a
    request whose method is not [OPTIONS] and that the static loop
    leaves unserved, and the one response that goes out is then the
    answer of [h]: the response of its first [send] or [json], or what
    the dispatcher sends for a handler that made no such call. *)
Theorem first_registered_match_is_invoked
    (regs : list (string * string * handler)) (base app : MiniExpress) (req : Request)
    (before after : list (regex * handler)) (re : regex) (h : handler)
    (groups : gmap string string) (st : conn) :
  routes base = ∅ ->
  register_all regs base = Some app ->
  compiled_for (method req) regs = before ++ (re, h) :: after ->
  Forall (fun rh => regex_match rh.1 (path req) = None) before ->
  regex_match re (path req) = Some groups ->
  let req' := with_params groups req in
  routes_get app (method req) = compiled_for (method req) regs /\
  route_loop (routes_get app (method req)) req = invoke h req' /\
  (method req <> "OPTIONS" ->
   static_loop isdir read_file guess_type (static_routes app) req st = (Ok false, st) ->
   respond isdir read_file guess_type app req st = invoke h req' st /\
   (sent (res st) = false ->
    encodable (handler_answer (h req') req' st).1 (handler_answer (h req') req' st).2 = true ->
    wrote_response (handler_answer (h req') req' st).1 (handler_answer (h req') req' st).2
      st (respond isdir read_file guess_type app req st).2)).
Proof.
  intros Hbase Hreg Hsplit Hb Hm req'.
  destruct (register_all_routes_get _ _ _ (method req) Hreg) as [Hr Hs].
  assert (routes_get base (method req) = []) as Hnil.
  { unfold routes_get. by rewrite Hbase, lookup_empty. }
  rewrite Hnil in Hr. simpl in Hr.
  pose proof (route_loop_first_match _ after _ h _ _ Hb Hm) as Hloop.
  split_and!; [done|by rewrite Hr, Hsplit|].
  intros Hopt Hstatic.
  assert (respond isdir read_file guess_type app req st = invoke h req' st) as Hrespond.
  { unfold respond. destruct (String.eqb_spec (method req) "OPTIONS"); [done|].
    unfold_bind. rewrite Hstatic. rewrite Hr, Hsplit. by rewrite Hloop. }
  split; [done|]. intros Hsent _. rewrite Hrespond. by apply invoke_wrote.
Qed.

End Resolution.

(** C4, witness: [/user/:id] registered before [/user/me], a route of
    another method between them, and a static mapping; [GET /user/me]
    is answered by the first handler. *)
Lemma first_registered_match_is_invoked_witness :
  let first : handler := fun req => HSend (DObj (default "" (params req !! "id"))) HReturn in
  let second : handler := fun _ => HSend (DObj "it is me") HReturn in
  let regs := [("GET", "/user/:id", first); ("POST", "/user/me", second);
               ("GET", "/user/me", second)] in
  let req := Request_init (fun _ => None) "GET" "/user/me" ∅ [] "peer" in
  let st := {| res := Response_init; sock := fresh_socket |} in
  exists app,
    register_all regs (use_static "/static" "./static" MiniExpress_init) = Some app /\
    wrote_response Response_init (DObj "me") st
      (respond (fun _ => false) (fun _ => Raise (Exception "FileNotFoundError" ""))
         (fun _ => None) app req st).2.
Proof.
  intros first second regs req st.
  destruct (register_all regs (use_static "/static" "./static" MiniExpress_init))
    as [app|] eqn:Happ; [|discriminate].
  exists app. split; [reflexivity|].
  assert (static_routes app = [("/static", "./static")]) as Hst.
  { by destruct (register_all_routes_get _ _ _ "GET" Happ) as [_ ->]. }
  refine (proj2 (proj2 (proj2 (first_registered_match_is_invoked _ _ _ regs
                          (use_static "/static" "./static" MiniExpress_init) app req []
                          [(ReSegments [Literal "user"; Literal "me"], second)]
                          (ReSegments [Literal "user"; Placeholder "id"]) first
                          {[ "id" := "me" ]} st eq_refl Happ eq_refl _ eq_refl)) _ _)
            eq_refl eq_refl).
  - constructor.
  - discriminate.
  - by rewrite Hst.
Defined.

(** C4, counterexample. A handler registered for [OPTIONS /x] and one
    registered for [GET /static/:name], on an application that serves
    [/static] from a directory holding [a.txt]. Each is the first
    registered route of its method that matches, and neither is
    invoked: [OPTIONS /x] gets the preflight response, and
    [GET /static/a.txt] gets the file. *)
Lemma matching_route_is_not_invoked :
  let h : handler := fun _ => HSend (DObj "handled") HReturn in
  let regs := [("OPTIONS", "/x", h); ("GET", "/static/:name", h)] in
  let read_file := fun p : string =>
    if String.eqb p "./static/a.txt" then Ok (Py.encode "file")
    else Raise (Exception "FileNotFoundError" p) in
  let options := Request_init (fun _ => None) "OPTIONS" "/x" ∅ [] "peer" in
  let get := Request_init (fun _ => None) "GET" "/static/a.txt" ∅ [] "peer" in
  let st := {| res := Response_init; sock := fresh_socket |} in
  exists app,
    register_all regs (use_static "/static" "./static" MiniExpress_init) = Some app /\
    routes_get app "OPTIONS" = [(ReSegments [Literal "x"], h)] /\
    regex_match (ReSegments [Literal "x"]) (path options) = Some ∅ /\
    Py.of_bytes (wire (sock (invoke h options st).2))
    = "HTTP/1.1 200 OK" +:+ Py.CRLF +:+
      "Content-Type: text/plain; charset=utf-8" +:+ Py.CRLF +:+
      "Access-Control-Allow-Origin: *" +:+ Py.CRLF +:+
      "Connection: close" +:+ Py.CRLF +:+
      "Content-Length: 7" +:+ Py.CRLF +:+ Py.CRLF +:+ "handled" /\
    Py.of_bytes (wire (sock (respond (fun _ => false) read_file (fun _ => None)
                               app options st).2))
    = "HTTP/1.1 200 OK" +:+ Py.CRLF +:+
      "Access-Control-Allow-Origin: *" +:+ Py.CRLF +:+
      "Access-Control-Allow-Methods: GET,POST,PUT,DELETE,OPTIONS" +:+ Py.CRLF +:+
      "Access-Control-Allow-Headers: Content-Type" +:+ Py.CRLF +:+
      "Content-Type: text/plain; charset=utf-8" +:+ Py.CRLF +:+
      "Connection: close" +:+ Py.CRLF +:+
      "Content-Length: 0" +:+ Py.CRLF +:+ Py.CRLF /\
    routes_get app "GET" = [(ReSegments [Literal "static"; Placeholder "name"], h)] /\
    regex_match (ReSegments [Literal "static"; Placeholder "name"]) (path get)
    = Some {[ "name" := "a.txt" ]} /\
    Py.of_bytes (wire (sock (respond (fun _ => false) read_file (fun _ => None)
                               app get st).2))
    = "HTTP/1.1 200 OK" +:+ Py.CRLF +:+
      "Content-Type: application/octet-stream" +:+ Py.CRLF +:+
      "Access-Control-Allow-Origin: *" +:+ Py.CRLF +:+
      "Connection: close" +:+ Py.CRLF +:+
      "Content-Length: 4" +:+ Py.CRLF +:+ Py.CRLF +:+ "file".
Proof.
  intros h regs read_file options get st.
  eexists. split; [reflexivity|]. vm_compute. repeat split.
Qed.

(** * Path parameters *)

Lemma strip_prefix_spec (p s r : string) :
  strip_prefix p s = Some r -> s = p +:+ r.
Proof.
  revert s. induction p as [|a p IH]; intros [|b s]; simpl; try done.
  - by intros [= <-].
  - by intros [= <-].
  - destruct (Ascii.eqb_spec a b) as [->|]; [|done].
    intros H. by rewrite (IH _ H).
Qed.

Lemma span_segment_spec (s v rest : string) :
  span_segment s = (v, rest) ->
  s = v +:+ rest /\ Py.has_char "/" v = false.
Proof.
  revert v rest. induction s as [|c s IH]; intros v rest; simpl.
  - by intros [= <- <-].
  - unfold Py.is_slash. destruct (Ascii.eqb c "/") eqn:Hc.
    + by intros [= <- <-].
    + destruct (span_segment s) as [v' rest'] eqn:Hs. intros [= <- <-].
      destruct (IH _ _ eq_refl) as [-> Hv]. simpl. by rewrite Hc.
Qed.

Lemma existsb_eqb_false (n : string) (l : list string) :
  existsb (String.eqb n) l = false -> n ∉ l.
Proof.
  induction l as [|x l IH]; simpl; [intros _; apply not_elem_of_nil|].
  destruct (String.eqb_spec n x) as [->|Hne]; [done|]. simpl.
  intros H. apply not_elem_of_cons. auto.
Qed.

Lemma match_segments_literal (l : string) (segs : list segment) (s : string)
    (g : gmap string string) :
  match_segments (Literal l :: segs) s g
  = match strip_prefix (String "/" l) s with
    | Some rest => match_segments segs rest g
    | None => None
    end.
Proof. reflexivity. Qed.

Lemma match_segments_frame (segs : list segment) (s : string)
    (g g' : gmap string string) (n : string) :
  match_segments segs s g = Some g' -> n ∉ group_names segs -> g' !! n = g !! n.
Proof.
  revert s g. induction segs as [|[l|name] segs IH]; intros s g.
  - simpl. destruct (tail_ok s); [|done]. by intros [= ->].
  - rewrite match_segments_literal.
    destruct (strip_prefix _ s) as [rest|]; [|done]. simpl. eauto.
  - simpl. destruct s as [|c r]; [done|]. destruct (Py.is_slash c); [|done].
    destruct (span_segment r) as [v rest]. destruct (String.eqb v ""); [done|].
    intros Hm [Hne Hn]%not_elem_of_cons.
    rewrite (IH _ _ Hm Hn). by rewrite lookup_insert_ne.
Qed.

Lemma match_segments_spec (segs : list segment) (s : string)
    (g g' : gmap string string) :
  distinct (group_names segs) = true ->
  match_segments segs s g = Some g' ->
  exists values trailer,
    s = join_segments values trailer /\
    tail_ok trailer = true /\
    Forall2 (segment_value g') segs values.
Proof.
  revert s g. induction segs as [|[l|name] segs IH]; intros s g.
  - simpl. intros _. destruct (tail_ok s) eqn:Ht; [|done]. intros [= ->].
    exists [], s. by repeat split.
  - rewrite match_segments_literal. simpl group_names.
    intros Hd. destruct (strip_prefix _ s) as [rest|] eqn:Hp; [|done].
    intros Hm. destruct (IH _ _ Hd Hm) as (values & trailer & -> & Ht & Hv).
    exists (l :: values), trailer. split_and!; [|done|by constructor].
    apply strip_prefix_spec in Hp. rewrite Hp. reflexivity.
  - simpl. intros [Hfresh Hd]%andb_prop. apply negb_true_iff, existsb_eqb_false in Hfresh.
    destruct s as [|c r]; [done|]. unfold Py.is_slash.
    destruct (Ascii.eqb_spec c "/") as [->|]; [|done].
    destruct (span_segment r) as [v rest] eqn:Hs.
    destruct (String.eqb v "") eqn:Hv; [done|].
    intros Hm. destruct (IH _ _ Hd Hm) as (values & trailer & -> & Ht & Hvs).
    apply span_segment_spec in Hs as [-> Hslash].
    exists (v :: values), trailer. split_and!; [done|done|].
    constructor; [|done]. simpl.
    rewrite (match_segments_frame _ _ _ _ _ Hm Hfresh), lookup_insert_eq. done.
Qed.

Lemma compile_segments (template : string) (segs : list segment) :
  compile template = Some (ReSegments segs) ->
  segs = map segment_of (Py.split "/" (Py.strip_by Py.is_slash template)) /\
  distinct (group_names segs) = true.
Proof.
  unfold compile. destruct (String.eqb template "/"); [done|].
  destruct (forallb _ _ && distinct _) eqn:H; [|done].
  intros [= <-]. apply andb_prop in H as [_ H]. done.
Qed.

(** C5 (amended). For a template that compiles to segments, one per
    part of the template between slashes, and a path its pattern
    accepts, the path is one slash and one piece per segment, then an
    optional slash; the piece under a literal segment is that literal,
    and the piece under a placeholder is non-empty, has no slash, and
    is, character for character and with no percent-decoding, what
    [params] holds under the placeholder's name. So [/user/42] gives
    [params["id"] == "42"] and [/user/] does not match [/user/:id]. *)
Theorem params_are_raw_segments (template : string) (segs : list segment)
    (p : string) (groups : gmap string string) :
  compile template = Some (ReSegments segs) ->
  regex_match (ReSegments segs) p = Some groups ->
  segs = map segment_of (Py.split "/" (Py.strip_by Py.is_slash template)) /\
  (exists values trailer,
     p = join_segments values trailer /\
     tail_ok trailer = true /\
     Forall2 (segment_value groups) segs values) /\
  (compile "/user/:id" = Some (ReSegments [Literal "user"; Placeholder "id"]) /\
   regex_match (ReSegments [Literal "user"; Placeholder "id"]) "/user/42"
   = Some {[ "id" := "42" ]} /\
   regex_match (ReSegments [Literal "user"; Placeholder "id"]) "/user/" = None).
Proof.
  intros Hc Hm. apply compile_segments in Hc as [Hsegs Hd].
  split; [done|]. split; [|by vm_compute].
  by apply (match_segments_spec segs p ∅ groups Hd).
Qed.

(** C5, witness: the template [/user/:id] on the path [/user/a%20b/]. *)
Lemma params_are_raw_segments_witness :
  exists values trailer,
    "/user/a%20b/" = join_segments values trailer /\
    tail_ok trailer = true /\
    Forall2 (segment_value {[ "id" := "a%20b" ]})
      [Literal "user"; Placeholder "id"] values.
Proof.
  exact (proj1 (proj2 (params_are_raw_segments "/user/:id"
                         [Literal "user"; Placeholder "id"]
                         "/user/a%20b/" {[ "id" := "a%20b" ]} eq_refl eq_refl))).
Defined.

(** C5, counterexample. The path parameter is the text of the segment
    as received: [%20] stays [%20], whereas query parsing decodes the
    same text to a space. *)
Lemma path_param_is_not_percent_decoded :
  compile "/user/:id" = Some (ReSegments [Literal "user"; Placeholder "id"]) /\
  regex_match (ReSegments [Literal "user"; Placeholder "id"]) "/user/a%20b"
  = Some {[ "id" := "a%20b" ]} /\
  query_of "id=a%20b" = {[ "id" := QStr "a b" ]}.
Proof. by vm_compute. Qed.

(** * Body decoding *)

Lemma lossy_of_valid (e : Py.errors) (raw : list byte) (s : string) :
  Py.utf8_decode Py.Strict raw = Some s -> Py.decode_lossy e raw = s.
Proof.
  unfold Py.utf8_decode, Py.decode_lossy.
  destruct (forallb _ _) eqn:Hgood; [|done]. intros [= <-]. f_equal. f_equal.
  induction (Py.utf8_scan None raw) as [|[bs|bs] us IH]; simpl in *; [done| |done].
  by rewrite IH.
Qed.

(** The scan loses no byte: its units, in order, are the input. *)
Lemma utf8_start_raw (b : byte) :
  concat (map Py.raw_bytes (Py.utf8_start b).1) ++ Py.pending_bytes (Py.utf8_start b).2
  = [b].
Proof. unfold Py.utf8_start. repeat case_match; done. Qed.

Lemma utf8_scan_raw (p : option Py.pending) (bs : list byte) :
  concat (map Py.raw_bytes (Py.utf8_scan p bs)) = Py.pending_bytes p ++ bs.
Proof.
  revert p. induction bs as [|b bs IH]; intros p; simpl.
  - destruct p; simpl; by rewrite ?app_nil_r.
  - pose proof (utf8_start_raw b) as Hb.
    destruct p as [q|]; simpl.
    + destruct (Py.between _ _ _).
      * destruct (Py.more q) as [|[|m]]; simpl; rewrite IH; simpl;
          by rewrite <- ?app_assoc.
      * destruct (Py.utf8_start b) as [out p']. simpl in *.
        rewrite map_app, concat_app, IH. f_equal.
        by rewrite app_assoc, Hb.
    + destruct (Py.utf8_start b) as [out p']. simpl in *.
      rewrite map_app, concat_app, IH. by rewrite app_assoc, Hb.
Qed.

Lemma ignore_sublist_units (us : list Py.unit_) :
  concat (map (Py.unit_bytes Py.Ignore) us) `sublist_of` concat (map Py.raw_bytes us).
Proof.
  induction us as [|[bs|bs] us IH]; simpl; [done| |].
  - by apply sublist_app.
  - by apply sublist_inserts_l.
Qed.

Lemma encode_of_bytes (bs : list byte) : Py.encode (Py.of_bytes bs) = bs.
Proof. apply list_byte_of_string_of_list_byte. Qed.

(** Decoding with [errors='ignore'] only removes bytes. *)
Lemma decode_ignore_sublist (raw : list byte) :
  Py.encode (Py.decode_lossy Py.Ignore raw) `sublist_of` raw.
Proof.
  unfold Py.decode_lossy. rewrite encode_of_bytes.
  rewrite <- (utf8_scan_raw None raw) at 2. apply ignore_sublist_units.
Qed.

Section BodyDecoding.

Variable json_loads : list byte -> option json_value.

(** C6 (amended). For a non-empty body whose [Content-Type] contains
    [application/json], decoding the body is a total function of the
    outcome of [json.loads]: the parsed value when it returns, and when
    it raises the text obtained by decoding the bytes as UTF-8 with the
    invalid sequences dropped (not replaced): the text is what is left
    of the bytes once some are removed, and a body that is valid UTF-8
    is kept as it is. The [Request] is built in both cases. *)
Theorem json_body_fails_open (m p addr : string) (hdrs : gmap string string)
    (raw : list byte) :
  raw <> [] ->
  Py.contains "application/json" (default "" (hdrs !! "Content-Type")) = true ->
  body (Request_init json_loads m p hdrs raw addr)
  = match json_loads raw with
    | Some j => BJson j
    | None => BText (Py.decode_lossy Py.Ignore raw)
    end /\
  Py.encode (Py.decode_lossy Py.Ignore raw) `sublist_of` raw /\
  (forall s, Py.utf8_decode Py.Strict raw = Some s -> Py.decode_lossy Py.Ignore raw = s).
Proof.
  intros Hraw Hct. split_and!; [|apply decode_ignore_sublist|apply lossy_of_valid].
  unfold Request_init. destruct (Py.split_once "?" p) as [[? ?]|]; simpl;
    unfold decode_body; destruct raw; try done; by rewrite Hct.
Qed.

End BodyDecoding.

(** C6, witness: a body that [json.loads] rejects. *)
Lemma json_body_fails_open_witness :
  body (Request_init (fun _ => None) "POST" "/data"
          {[ "Content-Type" := "application/json; charset=utf-8" ]} [x7b; xff] "peer")
  = BText "{".
Proof.
  refine (eq_trans
            (proj1 (json_body_fails_open (fun _ => None) "POST" "/data" "peer"
                      {[ "Content-Type" := "application/json; charset=utf-8" ]}
                      [x7b; xff] _ _)) _).
  - discriminate.
  - reflexivity.
  - reflexivity.
Defined.

(** C6, counterexample. The body [b'{\xff'] with a JSON content type:
    whenever [json.loads] raises on it, the decoded body is the text
    [{], the invalid byte dropped; decoding with replacement would give
    [{] followed by U+FFFD. *)
Lemma bad_json_body_drops_invalid_bytes :
  (forall json_loads : list byte -> option json_value,
     json_loads [x7b; xff] = None ->
     body (Request_init json_loads "POST" "/data"
             {[ "Content-Type" := "application/json" ]} [x7b; xff] "peer")
     = BText "{") /\
  Py.encode (Py.decode_lossy Py.Ignore [x7b; xff]) = [x7b] /\
  Py.encode (Py.decode_lossy Py.Replace [x7b; xff]) = [x7b; xef; xbf; xbd].
Proof.
  split; [|by vm_compute].
  intros json_loads H. unfold Request_init. simpl. unfold decode_body.
  replace (Py.contains _ _) with true by (by vm_compute). by rewrite H.
Qed.

(** * Query strings *)

Lemma fold_add_value (pairs : list (string * string)) (m : gmap string (list string))
    (k : string) :
  fold_left Urllib.add_value pairs m !! k
  = match m !! k, values_of k pairs with
    | None, [] => None
    | None, vs => Some vs
    | Some old, vs => Some (old ++ vs)
    end.
Proof.
  revert m. induction pairs as [|[n v] pairs IH]; intros m; simpl.
  - destruct (m !! k); by rewrite ?app_nil_r.
  - rewrite IH. unfold Urllib.add_value. simpl.
    destruct (String.eqb_spec n k) as [->|Hne].
    + destruct (m !! k) as [old|]; rewrite lookup_insert_eq; [|done].
      by rewrite <- app_assoc.
    + destruct (m !! n); by rewrite lookup_insert_ne.
Qed.

Lemma parse_qsl_eq (qs : string) :
  Urllib.parse_qsl qs = omap Urllib.parse_pair (Py.split "&" qs).
Proof.
  unfold Urllib.parse_qsl. by destruct (String.eqb_spec qs "") as [->|].
Qed.

Lemma split_once_app (c : ascii) (n v : string) :
  Py.has_char c n = false -> Py.split_once c (n +:+ String c v) = Some (n, v).
Proof.
  induction n as [|a n IH]; simpl.
  - by rewrite Ascii.eqb_refl.
  - intros [Ha Hn]%orb_false_elim. change (String a n +:+ String c v)
      with (String a (n +:+ String c v)). simpl. by rewrite Ha, IH.
Qed.

(** C7 (amended). The query map of a request is read off the fields of
    the query string, the text after the first [?] of the request
    target, split at [&]: a field [name=value] with a
    non-empty value contributes the pair of its name and value, each
    with [+] read as a space and percent escapes decoded; a field with
    an empty value or without [=] contributes nothing. A key that has
    one contributed value maps to that value as a scalar, a key that
    has several maps to the list of them in order, and a key that has
    none is absent. *)
Theorem query_of_values (qs k : string) :
  (forall json_loads m p hdrs raw addr, Py.has_char "?" p = false ->
     query (Request_init json_loads m (p +:+ "?" +:+ qs) hdrs raw addr) = query_of qs) /\
  Urllib.parse_qsl qs = omap Urllib.parse_pair (Py.split "&" qs) /\
  (forall n v, Py.has_char "=" n = false ->
     Urllib.parse_pair (n +:+ "=" +:+ v)
     = if String.eqb v "" then None
       else Some (Urllib.decode_field n, Urllib.decode_field v)) /\
  (forall f, Py.has_char "=" f = false -> Urllib.parse_pair f = None) /\
  query_of qs !! k
  = match values_of k (Urllib.parse_qsl qs) with
    | [] => None
    | [v] => Some (QStr v)
    | vs => Some (QList vs)
    end /\
  Urllib.decode_field "a+b%21%zz" = "a b!%zz" /\
  query_of "message=hi&tag=a&tag=b"
  = {[ "message" := QStr "hi"; "tag" := QList ["a"; "b"] ]}.
Proof.
  split_and!; [|apply parse_qsl_eq| | | |by vm_compute|by vm_compute].
  - intros json_loads m p hdrs raw addr Hp. unfold Request_init.
    change (p +:+ "?" +:+ qs) with (p +:+ String "?" qs).
    by rewrite split_once_app.
  - intros n v Hn. unfold Urllib.parse_pair.
    change (n +:+ "=" +:+ v) with (n +:+ String "=" v).
    by rewrite split_once_app.
  - intros f Hf. unfold Urllib.parse_pair.
    assert (Py.split_once "=" f = None) as ->; [|done].
    induction f as [|a f IH]; simpl in *; [done|].
    apply orb_false_elim in Hf as [-> Hf]. by rewrite IH.
  - unfold query_of. destruct (String.eqb_spec qs "") as [->|_].
    + by rewrite lookup_empty.
    + rewrite lookup_fmap. unfold Urllib.parse_qs. rewrite fold_add_value, lookup_empty.
      by destruct (values_of k (Urllib.parse_qsl qs)) as [|v [|v' vs]].
Qed.

(** C7, counterexample. Fields with an empty value are skipped: in
    [tag=&tag=b] the key [tag] occurs twice and maps to the scalar [b],
    and in [a=] the key [a] occurs once and maps to nothing. *)
Lemma blank_query_values_are_dropped :
  query_of "tag=&tag=b" = {[ "tag" := QStr "b" ]} /\
  query_of "a=" = ∅.
Proof. by vm_compute. Qed.

(** * The static layer *)

Section StaticLayer.

Context {host : Host}.

Variable json_loads : list byte -> option json_value.
Variable isdir : string -> bool.
Variable read_file : string -> result (list byte).
Variable guess_type : string -> option string.

Lemma static_loop_first_match (before after : list (string * string))
    (prefix directory : string) (req : Request) :
  Forall (fun m => Py.startswith m.1 (path req) = false) before ->
  Py.startswith prefix (path req) = true ->
  static_loop isdir read_file guess_type (before ++ (prefix, directory) :: after) req
  = serve_static isdir read_file guess_type prefix directory req.
Proof.
  intros Hb Hp. induction Hb as [|[p0 d0] before H0 Hb IH]; simpl.
  - by rewrite Hp.
  - simpl in H0. by rewrite H0.
Qed.

Lemma serve_static_missing (prefix directory : string) (req : Request) (st : conn)
    (e : exn) :
  read_file (static_file_path isdir prefix directory (path req)) = Raise e ->
  is_FileNotFoundError e = true ->
  serve_static isdir read_file guess_type prefix directory req st = (Ok false, st).
Proof.
  intros Hr He. unfold serve_static, try_except, lift; unfold_bind.
  rewrite Hr. simpl. by rewrite He.
Qed.

Lemma serve_static_found (prefix directory : string) (req : Request) (st : conn)
    (content : list byte) :
  read_file (static_file_path isdir prefix directory (path req)) = Ok content ->
  sent (res st) = false -> healthy (sock st) ->
  exists r,
    status_code r = status_code (res st) /\
    serve_static isdir read_file guess_type prefix directory req st
    = (Ok true,
       {| res := set_sent r;
          sock := {| wire := wire (sock st) ++ render r content;
                     fault := None; closed := false |} |}).
Proof.
  intros Hr Hs Hh. unfold serve_static, try_except, lift; unfold_bind.
  rewrite Hr. unfold set_header, update_res. cbv beta iota zeta.
  erewrite send_healthy; [|exact Hs|exact Hh]. cbv beta iota zeta.
  eexists. split; [|reflexivity]. done.
Qed.

Lemma serve_static_failed (prefix directory : string) (req : Request) (st : conn)
    (e : exn) :
  read_file (static_file_path isdir prefix directory (path req)) = Raise e ->
  is_FileNotFoundError e = false -> is_Exception e = true ->
  serve_static isdir read_file guess_type prefix directory req st
  = (status 500 ;; send (DObj ("Error reading static file: " +:+ exn_text e)) ;;
     mret true) st.
Proof.
  intros Hr Hf He. unfold serve_static, try_except, lift; unfold_bind.
  rewrite Hr. simpl. by rewrite Hf, He.
Qed.

(** C8 (amended). Static mappings are tried in registration order and
    the first whose prefix starts the request path decides: the outcome
    is that of serving from it, whatever mappings come after it. When
    reading the file it resolves to raises [FileNotFoundError], nothing
    is sent, also when a later mapping matches the path too, and a
    request whose method is not [OPTIONS] goes on to the dynamic routes:
    the one response that goes out is the answer of the route loop. When
    reading the file raises another exception derived from [Exception],
    the one response that goes out is the static layer's 500, and the
    dynamic routes are not tried. *)
Theorem static_miss_falls_through (self : MiniExpress) (req : Request) (st : conn)
    (before after : list (string * string)) (prefix directory : string) (e : exn) :
  static_routes self = before ++ (prefix, directory) :: after ->
  Forall (fun m => Py.startswith m.1 (path req) = false) before ->
  Py.startswith prefix (path req) = true ->
  read_file (static_file_path isdir prefix directory (path req)) = Raise e ->
  method req <> "OPTIONS" ->
  let out := respond isdir read_file guess_type self req st in
  let routes_ := routes_get self (method req) in
  let failed := (set_status 500 "Internal Server Error" (res st),
                 DObj ("Error reading static file: " +:+ exn_text e)) in
  static_loop isdir read_file guess_type (static_routes self) req
  = serve_static isdir read_file guess_type prefix directory req /\
  (is_FileNotFoundError e = true ->
   static_loop isdir read_file guess_type (static_routes self) req st = (Ok false, st) /\
   out = route_loop routes_ req st /\
   (sent (res st) = false ->
    encodable (route_answer routes_ req st).1 (route_answer routes_ req st).2 = true ->
    wrote_response (route_answer routes_ req st).1 (route_answer routes_ req st).2
      st out.2)) /\
  (is_FileNotFoundError e = false -> is_Exception e = true ->
   sent (res st) = false -> encodable failed.1 failed.2 = true ->
   wrote_response failed.1 failed.2 st out.2 /\
   (healthy (sock st) -> out.1 = Ok tt /\ closed (sock out.2) = true)).
Proof.
  intros Hsplit Hb Hp Hr Hopt out routes_ failed.
  assert (static_loop isdir read_file guess_type (static_routes self) req
          = serve_static isdir read_file guess_type prefix directory req) as Hfirst.
  { rewrite Hsplit. by apply static_loop_first_match. }
  split_and!; [done| |].
  - intros He.
    assert (static_loop isdir read_file guess_type (static_routes self) req st
            = (Ok false, st)) as Hloop.
    { rewrite Hfirst. by apply (serve_static_missing _ _ _ _ e). }
    assert (out = route_loop routes_ req st) as Hout.
    { subst out. unfold respond. destruct (String.eqb_spec (method req) "OPTIONS"); [done|].
      unfold_bind. by rewrite Hloop. }
    split_and!; [done|done|]. intros Hs _. rewrite Hout. by apply route_loop_wrote.
  - intros Hf He Hs _.
    assert (out = ((status 500 ;;
                    send (DObj ("Error reading static file: " +:+ exn_text e))) ;;
                   close) st) as Hout.
    { subst out. unfold respond. destruct (String.eqb_spec (method req) "OPTIONS"); [done|].
      unfold_bind. rewrite Hfirst, (serve_static_failed _ _ _ _ e) by done.
      unfold_bind. simpl.
      by destruct (send (DObj ("Error reading static file: " +:+ exn_text e)) _)
        as [[[]|e'] st1]. }
    set (st1 := {| res := set_status 500 (reason_phrase 500) (res st); sock := sock st |}).
    split.
    + rewrite Hout.
      apply (wrote_then_close _ _ st
               (status 500 ;; send (DObj ("Error reading static file: " +:+ exn_text e)))).
      apply (wrote_response_from _ _ st st1); [done|].
      exact (send_wrote (DObj ("Error reading static file: " +:+ exn_text e)) st1 Hs).
    + intros Hh. rewrite Hout. unfold_bind. simpl. fold st1.
      by rewrite (send_healthy _ st1 Hs Hh).
Qed.

(** C9. The request [GET / HTTP/1.1] with the header [Content-Length:
    abc]: [int()] raises [ValueError], which leaves [handle_request];
    nothing is written to the socket and it is not closed. *)
Theorem bad_content_length_escapes (self : MiniExpress) (client_sock : socket)
    (addr : string) :
  handle_request json_loads isdir read_file guess_type self client_sock
    (Py.encode ("GET / HTTP/1.1" +:+ Py.CRLF +:+
                "Content-Length: abc" +:+ Py.CRLF +:+ Py.CRLF)) addr
  = (Raise (ValueError "abc"), client_sock).
Proof. reflexivity. Qed.

End StaticLayer.

(** C8, witness: two mappings of the prefix [/assets]; the file exists
    only under the second, which is not consulted. *)
(** C8, witness: two mappings of the same prefix; the file is missing
    under the first and present under the second, and the request is
    answered by the route loop. *)
Lemma static_miss_falls_through_witness :
  let read_file := fun p : string =>
    if String.eqb p "./second/logo.png" then Ok [x89; x50]
    else Raise (Exception "FileNotFoundError" p) in
  let app := use_static "/assets" "./second" (use_static "/assets" "./first" MiniExpress_init) in
  let req := Request_init (fun _ => None) "GET" "/assets/logo.png" ∅ [] "peer" in
  let st := {| res := Response_init; sock := fresh_socket |} in
  respond (fun _ => false) read_file (fun _ => None) app req st
  = route_loop (routes_get app "GET") req st /\
  wrote_response (set_status 404 "Not Found" Response_init) (DObj "Not Found") st
    (respond (fun _ => false) read_file (fun _ => None) app req st).2.
Proof.
  intros read_file app req st.
  destruct (static_miss_falls_through (fun _ => false) read_file (fun _ => None)
              app req st [] [("/assets", "./second")] "/assets" "./first"
              (Exception "FileNotFoundError" "./first/logo.png")
              eq_refl (List.Forall_nil _) eq_refl eq_refl ltac:(discriminate))
    as (_ & Hmiss & _).
  destruct (Hmiss eq_refl) as (_ & Hout & Hw).
  split; [exact Hout | exact (Hw eq_refl eq_refl)].
Defined.

(** C8, counterexample. [./static/key] is a regular file, so the file
    [./static/key/x] does not exist and opening it raises
    [NotADirectoryError]. A route matches [GET /static/key/x], and the
    request does not fall through to it: the static layer answers
    with status 500. And [OPTIONS /static/gone], for a file that is
    missing, does not reach the route registered for it either: it gets
    the preflight response, where the route loop would have run the
    handler. *)
Lemma missing_file_does_not_fall_through :
  let h : handler := fun _ => HSend (DObj "handled") HReturn in
  let read_file := fun p : string =>
    if String.eqb p "./static/key/x"
    then Raise (Exception "NotADirectoryError"
                  "[Errno 20] Not a directory: './static/key/x'")
    else Raise (Exception "FileNotFoundError" p) in
  let req := Request_init (fun _ => None) "GET" "/static/key/x" ∅ [] "peer" in
  let options := Request_init (fun _ => None) "OPTIONS" "/static/gone" ∅ [] "peer" in
  let st := {| res := Response_init; sock := fresh_socket |} in
  exists app,
    register_all [("GET", "/static/key/:name", h); ("OPTIONS", "/static/:name", h)]
      (use_static "/static" "./static" MiniExpress_init) = Some app /\
    static_file_path (fun _ => false) "/static" "./static" (path req) = "./static/key/x" /\
    routes_get app "GET"
    = [(ReSegments [Literal "static"; Literal "key"; Placeholder "name"], h)] /\
    regex_match (ReSegments [Literal "static"; Literal "key"; Placeholder "name"]) (path req)
    = Some {[ "name" := "x" ]} /\
    (static_loop (fun _ => false) read_file (fun _ => None) (static_routes app) req st).1
    = Ok true /\
    Py.of_bytes (wire (sock (respond (fun _ => false) read_file (fun _ => None)
                               app req st).2))
    = "HTTP/1.1 500 Internal Server Error" +:+ Py.CRLF +:+
      "Content-Type: text/plain; charset=utf-8" +:+ Py.CRLF +:+
      "Access-Control-Allow-Origin: *" +:+ Py.CRLF +:+
      "Connection: close" +:+ Py.CRLF +:+
      "Content-Length: 71" +:+ Py.CRLF +:+ Py.CRLF +:+
      "Error reading static file: [Errno 20] Not a directory: './static/key/x'" /\
    read_file (static_file_path (fun _ => false) "/static" "./static" (path options))
    = Raise (Exception "FileNotFoundError" "./static/gone") /\
    Py.of_bytes (wire (sock (route_loop (routes_get app "OPTIONS") options st).2))
    = "HTTP/1.1 200 OK" +:+ Py.CRLF +:+
      "Content-Type: text/plain; charset=utf-8" +:+ Py.CRLF +:+
      "Access-Control-Allow-Origin: *" +:+ Py.CRLF +:+
      "Connection: close" +:+ Py.CRLF +:+
      "Content-Length: 7" +:+ Py.CRLF +:+ Py.CRLF +:+ "handled" /\
    Py.of_bytes (wire (sock (respond (fun _ => false) read_file (fun _ => None)
                               app options st).2))
    = "HTTP/1.1 200 OK" +:+ Py.CRLF +:+
      "Access-Control-Allow-Origin: *" +:+ Py.CRLF +:+
      "Access-Control-Allow-Methods: GET,POST,PUT,DELETE,OPTIONS" +:+ Py.CRLF +:+
      "Access-Control-Allow-Headers: Content-Type" +:+ Py.CRLF +:+
      "Content-Type: text/plain; charset=utf-8" +:+ Py.CRLF +:+
      "Connection: close" +:+ Py.CRLF +:+
      "Content-Length: 0" +:+ Py.CRLF +:+ Py.CRLF.
Proof.
  intros h read_file req options st.
  eexists. split; [reflexivity|]. vm_compute. repeat split.
Qed.

Section Traversal.

Context {host : Host}.

Variable json_loads : list byte -> option json_value.
Variable isdir : string -> bool.
Variable read_file : string -> result (list byte).
Variable guess_type : string -> option string.

Lemma handle_request_get_traversal (self : MiniExpress) (sk : socket) :
  handle_request json_loads isdir read_file guess_type self sk
    (Py.encode ("GET /static/../server.py HTTP/1.1" +:+ Py.CRLF +:+ Py.CRLF)) "peer"
  = let '(r, st) :=
      respond isdir read_file guess_type self
        (Request_init json_loads "GET" "/static/../server.py" ∅ [] "peer")
        {| res := Response_init; sock := sk |} in
    (r, sock st).
Proof. reflexivity. Qed.

(** C10. The path a static mapping opens is the configured directory
    joined with what follows the prefix in the request path, leading
    slashes stripped and nothing else changed. For the mapping of
    [/static] to [./static], the request path [/static/../server.py]
    resolves to [./static/../server.py], which is outside [./static];
    and when that file exists the server answers the request with its
    content. *)
Theorem static_path_escapes_directory :
  (forall prefix directory p,
     static_file_path isdir prefix directory p
     = let file_path :=
         Posixpath.join directory
           (Py.lstrip_by Py.is_slash (Py.drop (String.length prefix) p)) in
       if isdir file_path then Posixpath.join file_path "index.html" else file_path) /\
  (Py.startswith "/static" "/static/../server.py" = true /\
   In ".." (Py.split "/" "/static/../server.py") /\
   Posixpath.join "./static"
     (Py.lstrip_by Py.is_slash (Py.drop (String.length "/static") "/static/../server.py"))
   = "./static/../server.py" /\
   Posixpath.within "./static"
     (static_file_path isdir "/static" "./static" "/static/../server.py") = false) /\
  (forall content,
     isdir "./static/../server.py" = false ->
     read_file "./static/../server.py" = Ok content ->
     let out :=
       handle_request json_loads isdir read_file guess_type
         (use_static "/static" "./static" MiniExpress_init) fresh_socket
         (Py.encode ("GET /static/../server.py HTTP/1.1" +:+ Py.CRLF +:+ Py.CRLF))
         "peer" in
     out.1 = Ok tt /\
     exists r, status_code r = 200%Z /\ wire out.2 = render r content).
Proof.
  split_and!; [done|done| |done| |].
  - simpl. right. right. by left.
  - unfold static_file_path.
    change (Posixpath.join "./static" _) with "./static/../server.py".
    by destruct (isdir _).
  - intros content Hd Hr out. subst out.
    rewrite handle_request_get_traversal. unfold respond.
    change (String.eqb _ "OPTIONS") with false. cbv iota.
    unfold_bind.
    change (static_routes _) with [("/static", "./static")].
    unfold static_loop.
    change (Py.startswith "/static" _) with true. cbv iota.
    destruct (serve_static_found isdir read_file guess_type "/static" "./static"
                (Request_init json_loads "GET" "/static/../server.py" ∅ [] "peer")
                {| res := Response_init; sock := fresh_socket |} content)
      as (r & Hcode & ->); [|done|done|].
    + unfold static_file_path.
      change (Posixpath.join "./static" _) with "./static/../server.py".
      by rewrite Hd.
    + simpl. split; [done|]. by exists r.
Qed.

End Traversal.

(** C10, witness: a file system that holds [./static/../server.py]. *)
Lemma static_path_escapes_directory_witness :
  let read_file := fun p : string =>
    if String.eqb p "./static/../server.py" then Ok (Py.encode "import socket")
    else Raise (Exception "FileNotFoundError" p) in
  let out :=
    handle_request (fun _ => None) (fun _ => false) read_file (fun _ => None)
      (use_static "/static" "./static" MiniExpress_init) fresh_socket
      (Py.encode ("GET /static/../server.py HTTP/1.1" +:+ Py.CRLF +:+ Py.CRLF))
      "peer" in
  out.1 = Ok tt /\
  exists r, status_code r = 200%Z /\ wire out.2 = render r (Py.encode "import socket").
Proof.
  intros read_file out.
  exact (proj2 (proj2 (static_path_escapes_directory (fun _ => None) (fun _ => false)
                         read_file (fun _ => None)))
           (Py.encode "import socket") eq_refl eq_refl).
Defined.

(** * The dispatcher as a whole *)

Lemma preserves_bind {A B} (P : conn -> Prop) (m : M A) (f : A -> M B) :
  preserves P m -> (forall a, preserves P (f a)) -> preserves P (m ≫= f).
Proof.
  intros Hm Hf st H. unfold_bind. specialize (Hm st H).
  destruct (m st) as [[a|e] st']; simpl in *; [by apply Hf | done].
Qed.

Lemma preserves_ret {A} (P : conn -> Prop) (a : A) : preserves P (mret a).
Proof. by intros st H. Qed.

Lemma preserves_raise {A} (P : conn -> Prop) (e : exn) : preserves P (@raise A e).
Proof. by intros st H. Qed.

Lemma preserves_lift {A} (P : conn -> Prop) (r : result A) : preserves P (lift r).
Proof. by intros st H. Qed.

Lemma preserves_try_except {A} (P : conn -> Prop) (m : M A) (clauses : list (clause A)) :
  preserves P m ->
  Forall (fun c : clause A => forall e, preserves P (c.2 e)) clauses ->
  preserves P (try_except m clauses).
Proof.
  intros Hm Hc st H. unfold try_except. specialize (Hm st H).
  destruct (m st) as [[a|e] st']; simpl in *; [done|].
  destruct (find _ clauses) as [c|] eqn:Hfind; [|done].
  apply find_some in Hfind as [Hin _]. apply list_elem_of_In in Hin.
  rewrite Forall_forall in Hc. by apply (Hc c Hin e).
Qed.

Lemma preserves_try_finally {A} (P : conn -> Prop) (m : M A) (f : M unit) :
  preserves P m -> preserves P f -> preserves P (try_finally m f).
Proof.
  intros Hm Hf st H. unfold try_finally. specialize (Hm st H).
  destruct (m st) as [r st']. specialize (Hf st' Hm).
  by destruct (f st') as [[[]|e] st''].
Qed.

Lemma preserves_run_hprog (P : conn -> Prop) (p : hprog) :
  (forall code, preserves P (status code)) ->
  (forall n v, preserves P (set_header n v)) ->
  (forall d, preserves P (send d)) ->
  preserves P (run_hprog p).
Proof.
  intros Hstatus Hset Hsend.
  induction p as [|e|code k IH|name value k IH|d k IH|o k IH]; simpl.
  - apply preserves_ret.
  - apply preserves_raise.
  - by apply preserves_bind.
  - by apply preserves_bind.
  - by apply preserves_bind.
  - apply preserves_bind; [|done]. unfold json. by apply preserves_bind.
Qed.

Section Whole.

Context {host : Host}.

Variable json_loads : list byte -> option json_value.
Variable isdir : string -> bool.
Variable read_file : string -> result (list byte).
Variable guess_type : string -> option string.

Lemma preserves_guarded (P : conn -> Prop) (h : handler) (req : Request) :
  (forall code, preserves P (status code)) ->
  (forall n v, preserves P (set_header n v)) ->
  (forall d, preserves P (send d)) ->
  preserves P (guarded h req).
Proof.
  intros Hstatus Hset Hsend. unfold guarded.
  apply preserves_try_finally.
  - apply preserves_try_except; [by apply preserves_run_hprog|].
    repeat constructor. intros e. simpl.
    apply preserves_bind; [apply preserves_lift|]. intros _. by apply preserves_bind.
  - intros st H. destruct (sent (res st)); [done | by apply Hsend].
Qed.

Lemma preserves_serve_static (P : conn -> Prop) (prefix directory : string)
    (req : Request) :
  (forall code, preserves P (status code)) ->
  (forall n v, preserves P (set_header n v)) ->
  (forall d, preserves P (send d)) ->
  preserves P (serve_static isdir read_file guess_type prefix directory req).
Proof.
  intros Hstatus Hset Hsend. unfold serve_static.
  apply preserves_try_except.
  - apply preserves_bind; [apply preserves_lift|]. intros content.
    apply preserves_bind; [done|]. intros _.
    apply preserves_bind; [done|]. intros _. apply preserves_ret.
  - repeat constructor; intros e; simpl; [apply preserves_ret|].
    apply preserves_bind; [done|]. intros _.
    apply preserves_bind; [done|]. intros _. apply preserves_ret.
Qed.

Lemma preserves_static_loop (P : conn -> Prop) (mappings : list (string * string))
    (req : Request) :
  (forall code, preserves P (status code)) ->
  (forall n v, preserves P (set_header n v)) ->
  (forall d, preserves P (send d)) ->
  preserves P (static_loop isdir read_file guess_type mappings req).
Proof.
  intros Hstatus Hset Hsend.
  induction mappings as [|[prefix directory] rest IH]; simpl.
  - apply preserves_ret.
  - destruct (Py.startswith prefix (path req)); [|done].
    by apply preserves_serve_static.
Qed.

End Whole.

Lemma sendall_closed (chunk : list byte) (sk : socket) :
  closed (sendall chunk sk).2 = closed sk.
Proof.
  unfold sendall. destruct (closed sk) eqn:Hc; [done|].
  destruct (fault sk) as [[n e]|]; [destruct (length chunk <=? n)%nat|]; done.
Qed.

Lemma sendall_seq_closed (cs : list (list byte)) (sk : socket) :
  closed (sendall_seq cs sk).2 = closed sk.
Proof.
  revert sk. induction cs as [|c cs IH]; intros sk; simpl; [done|].
  pose proof (sendall_closed c sk) as Hc.
  destruct (sendall c sk) as [[[]|e] sk']; simpl in *; [|done].
  by rewrite IH.
Qed.

Lemma send_closed (c : bool) (d : data) :
  preserves (fun st => closed (sock st) = c) (send d).
Proof.
  intros st H. unfold send. destruct (sent (res st)); [done|].
  pose proof (sendall_seq_closed
                (chunks (set_headers (final_headers (headers (res st)) (body_bytes_of d))
                           (res st)) (body_bytes_of d)) (sock st)) as Hc.
  destruct (sendall_seq _ _) as [[[]|e] sk]; [|destruct (is_BrokenPipe e)];
    simpl in *; congruence.
Qed.

Lemma update_res_closed (c : bool) (f : Response -> Response) :
  preserves (fun st => closed (sock st) = c) (update_res f).
Proof. by intros st H. Qed.

(** A step followed by [close]. *)
Lemma closes_then_close (m : M unit) (st : conn) (c : bool) :
  closed (sock (m st).2) = c -> closes c ((m ;; close) st).
Proof.
  intros Hc. unfold closes. unfold_bind.
  by destruct (m st) as [[[]|e] st1].
Qed.

Section Whole2.

Context {host : Host}.

Variable json_loads : list byte -> option json_value.
Variable isdir : string -> bool.
Variable read_file : string -> result (list byte).
Variable guess_type : string -> option string.

Lemma closes_invoke (h : handler) (req : Request) (st : conn) :
  closes (closed (sock st)) (invoke h req st).
Proof.
  unfold invoke. apply closes_then_close.
  apply (preserves_guarded (fun st' => closed (sock st') = closed (sock st)));
    auto using send_closed, update_res_closed.
  - intros code. apply update_res_closed.
  - intros n v. apply update_res_closed.
Qed.

Lemma closes_route_loop (route_list : list (regex * handler)) (req : Request) (st : conn) :
  closes (closed (sock st)) (route_loop route_list req st).
Proof.
  induction route_list as [|[re h] rest IH]; simpl.
  - apply (closes_then_close (send (DObj "Not Found"))
             (update_res (set_status 404 (reason_phrase 404)) st).2).
    by apply (send_closed (closed (sock st))).
  - destruct (regex_match re (path req)); [apply closes_invoke | done].
Qed.

Lemma closes_respond (self : MiniExpress) (req : Request) (st : conn) :
  closes (closed (sock st)) (respond isdir read_file guess_type self req st).
Proof.
  unfold respond. destruct (String.eqb (method req) "OPTIONS").
  - apply (closes_then_close (send (DObj ""))
             (update_res
                (fun r => set_headers
                   (Py.dict_set "Access-Control-Allow-Headers" "Content-Type"
                      (Py.dict_set "Access-Control-Allow-Methods" "GET,POST,PUT,DELETE,OPTIONS"
                         (Py.dict_set "Access-Control-Allow-Origin" "*" (headers r))))
                   (set_status 200 (reason_phrase 200) r)) st).2).
    by apply (send_closed (closed (sock st))).
  - unfold_bind.
    pose proof (preserves_static_loop isdir read_file guess_type
                  (fun st' => closed (sock st') = closed (sock st))
                  (static_routes self) req
                  (fun code => update_res_closed _ _)
                  (fun n v => update_res_closed _ _)
                  (send_closed _) st eq_refl) as Hc1.
    destruct (static_loop _ _ _ _ _ _) as [[served|e] st1]; simpl in *; [|done].
    destruct served; [done|]. rewrite <- Hc1. apply closes_route_loop.
Qed.






End Whole2.

Section Outcome.

Context {host : Host}.

Variable json_loads : list byte -> option json_value.
Variable isdir : string -> bool.
Variable read_file : string -> result (list byte).
Variable guess_type : string -> option string.

Lemma handle_request_closes (self : MiniExpress) (sk : socket) (input : list byte)
    (addr : string) :
  let out := handle_request json_loads isdir read_file guess_type self sk input addr in
  (out.1 = Ok tt -> closed out.2 = true) /\
  (forall e, out.1 = Raise e -> closed out.2 = closed sk).
Proof.
  unfold handle_request.
  destruct (Py.utf8_decode _ _) as [line|]; [|done].
  destruct (String.eqb line ""); [done|].
  destruct (Py.split_ws _) as [|m [|p [|v [|? ?]]]]; try done.
  destruct (read_headers _ _) as [[hdrs unread]|e]; [|done].
  destruct (read_body _ _) as [raw|e]; [|done].
  pose proof (closes_respond isdir read_file guess_type self
                (Request_init json_loads m p hdrs raw addr)
                {| res := Response_init; sock := sk |}) as Hc.
  unfold closes in Hc.
  destruct (respond _ _ _ _ _ _) as [[[]|e] st]; simpl in *; split; congruence.
Qed.


(** X2. [handle_request] closes the client socket on every path on which
    it returns; on every path on which an exception leaves it, it has
    not called [close]: the socket is as open as it was. *)
Theorem handle_request_closes_iff_returns (self : MiniExpress) (sk : socket)
    (input : list byte) (addr : string) :
  let out := handle_request json_loads isdir read_file guess_type self sk input addr in
  match out.1 with
  | Ok _ => closed out.2 = true
  | Raise _ => closed out.2 = closed sk
  end.
Proof.
  intros out. destruct (handle_request_closes self sk input addr) as [H2 H3].
  fold out in H2, H3. destruct out as [[[]|e] sk']; simpl in *; eauto.
Qed.


(** X4. A first line that is not valid UTF-8, or that is ASCII and not
    exactly three white-space separated words (an empty input
    included), is answered with nothing: the socket is closed and no
    byte is written. *)
Theorem malformed_request_line_is_dropped (self : MiniExpress) (sk : socket)
    (input : list byte) (addr : string) :
  match Py.utf8_decode Py.Strict (hd [] (readlines input)) with
  | Some line =>
      is_ascii line = true /\ length (Py.split_ws (Py.strip line)) <> 3%nat
  | None => True
  end ->
  handle_request json_loads isdir read_file guess_type self sk input addr
  = (Ok tt, close_socket sk).
Proof.
  unfold handle_request.
  destruct (Py.utf8_decode _ _) as [line|]; [|done].
  intros [_ Hlen]. destruct (String.eqb line ""); [done|].
  by destruct (Py.split_ws _) as [|m [|p [|v [|? ?]]]].
Qed.

End Outcome.



Lemma malformed_request_line_is_dropped_witness :
  handle_request (fun _ => None) (fun _ => false)
    (fun p => Raise (Exception "FileNotFoundError" p)) (fun _ => None)
    MiniExpress_init fresh_socket (Py.encode ("GET /" +:+ Py.CRLF)) "peer"
  = (Ok tt, close_socket fresh_socket).
Proof.
  apply (malformed_request_line_is_dropped (fun _ => None) (fun _ => false)
           (fun p => Raise (Exception "FileNotFoundError" p)) (fun _ => None)
           MiniExpress_init fresh_socket (Py.encode ("GET /" +:+ Py.CRLF)) "peer").
  vm_compute. split; [reflexivity | discriminate].
Defined.

(** * The phases of the dispatcher *)

Lemma send_fresh (d : data) (code : Z) (text : string) (hs : Py.dict string)
    (sk : socket) :
  healthy sk ->
  send d {| res := response code text hs; sock := sk |}
  = (Ok tt,
     {| res := set_sent (response code text (final_headers hs (body_bytes_of d)));
        sock := {| wire := wire sk
                           ++ render (response code text (final_headers hs (body_bytes_of d)))
                                (body_bytes_of d);
                   fault := None; closed := false |} |}).
Proof. intros Hh. by rewrite send_healthy. Qed.

Section Phases.

Context {host : Host}.

Variable isdir : string -> bool.
Variable read_file : string -> result (list byte).
Variable guess_type : string -> option string.

Lemma static_loop_no_prefix (mappings : list (string * string)) (req : Request)
    (st : conn) :
  Forall (fun m => Py.startswith m.1 (path req) = false) mappings ->
  static_loop isdir read_file guess_type mappings req st = (Ok false, st).
Proof.
  induction 1 as [|[prefix directory] rest H0 _ IH]; simpl; [done|].
  simpl in H0. by rewrite H0.
Qed.

Lemma route_loop_no_match (route_list : list (regex * handler)) (req : Request)
    (st : conn) :
  Forall (fun rh => regex_match rh.1 (path req) = None) route_list ->
  route_loop route_list req st = (status 404 ;; send (DObj "Not Found") ;; close) st.
Proof.
  induction 1 as [|[re h] rest H0 _ IH]; simpl; [done|].
  simpl in H0. by rewrite H0.
Qed.

(** X5. A request whose method is [OPTIONS] is answered with the fixed
    preflight response, status 200 with the three CORS headers and an
    empty body, and the socket is closed, whatever the path, the routes,
    the static mappings and the files are: no handler runs and no file
    is read. *)
Theorem options_is_answered_before_routing (self : MiniExpress) (req : Request)
    (sk : socket) :
  method req = "OPTIONS" ->
  healthy sk ->
  respond isdir read_file guess_type self req (fresh_conn sk)
  = (Ok tt,
     let r := response 200 "OK"
                [("Access-Control-Allow-Origin", "*");
                 ("Access-Control-Allow-Methods", "GET,POST,PUT,DELETE,OPTIONS");
                 ("Access-Control-Allow-Headers", "Content-Type");
                 ("Content-Type", "text/plain; charset=utf-8");
                 ("Connection", "close");
                 ("Content-Length", "0")] in
     {| res := set_sent r;
        sock := {| wire := wire sk ++ render r []; fault := None; closed := true |} |}).
Proof.
  intros Hm Hh. unfold respond, fresh_conn. rewrite Hm. simpl.
  unfold_bind. simpl.
  change (set_status 200 (reason_phrase 200) Response_init) with (response 200 "OK" []).
  match goal with
  | |- context [send ?d {| res := ?r; sock := sk |}] =>
      change r with (response 200 "OK"
                       [("Access-Control-Allow-Origin", "*");
                        ("Access-Control-Allow-Methods", "GET,POST,PUT,DELETE,OPTIONS");
                        ("Access-Control-Allow-Headers", "Content-Type")])
  end.
  by rewrite send_fresh.
Qed.

(** X6. When no static prefix starts the path and no route registered
    for the request's method matches it, the answer is status 404 with
    the body [Not Found], and the socket is closed; routes registered
    for other methods play no part. *)
Theorem unmatched_request_is_404 (self : MiniExpress) (req : Request) (sk : socket) :
  method req <> "OPTIONS" ->
  Forall (fun m => Py.startswith m.1 (path req) = false) (static_routes self) ->
  Forall (fun rh => regex_match rh.1 (path req) = None) (routes_get self (method req)) ->
  healthy sk ->
  respond isdir read_file guess_type self req (fresh_conn sk)
  = (Ok tt,
     let r := response 404 "Not Found"
                [("Content-Type", "text/plain; charset=utf-8");
                 ("Access-Control-Allow-Origin", "*");
                 ("Connection", "close");
                 ("Content-Length", "9")] in
     {| res := set_sent r;
        sock := {| wire := wire sk ++ render r (Py.encode "Not Found");
                   fault := None; closed := true |} |}).
Proof.
  intros Hm Hst Hrt Hh. unfold respond, fresh_conn.
  destruct (String.eqb_spec (method req) "OPTIONS"); [done|].
  unfold_bind. rewrite (static_loop_no_prefix _ _ _ Hst).
  rewrite (route_loop_no_match _ _ _ Hrt). unfold_bind. simpl.
  change (set_status 404 (reason_phrase 404) Response_init)
    with (response 404 "Not Found" []).
  by rewrite send_fresh.
Qed.

(** X7. When the first static mapping whose prefix starts the path
    resolves to a file that can be read, the answer is status 200 with
    the file's bytes as body and the guessed MIME type, or
    [application/octet-stream] when there is none, as [Content-Type];
    the socket is closed and the dynamic routes are not consulted. *)
Theorem static_file_is_served (self : MiniExpress) (req : Request) (sk : socket)
    (before after : list (string * string)) (prefix directory : string)
    (content : list byte) :
  method req <> "OPTIONS" ->
  static_routes self = before ++ (prefix, directory) :: after ->
  Forall (fun m => Py.startswith m.1 (path req) = false) before ->
  Py.startswith prefix (path req) = true ->
  read_file (static_file_path isdir prefix directory (path req)) = Ok content ->
  healthy sk ->
  respond isdir read_file guess_type self req (fresh_conn sk)
  = (Ok tt,
     let r := response 200 "OK"
                [("Content-Type",
                  content_type_of
                    (guess_type (static_file_path isdir prefix directory (path req))));
                 ("Access-Control-Allow-Origin", "*");
                 ("Connection", "close");
                 ("Content-Length", Py.str_nat (length content))] in
     {| res := set_sent r;
        sock := {| wire := wire sk ++ render r content; fault := None; closed := true |} |}).
Proof.
  intros Hm Hsplit Hb Hp Hr Hh. unfold respond, fresh_conn.
  destruct (String.eqb_spec (method req) "OPTIONS"); [done|].
  unfold_bind. rewrite Hsplit, (static_loop_first_match _ _ _ _ _ _ _ _ Hb Hp).
  unfold serve_static, try_except, lift. unfold_bind. rewrite Hr. simpl.
  fold (content_type_of (guess_type (static_file_path isdir prefix directory (path req)))).
  change Response_init with (response 200 "OK" []).
  match goal with
  | |- context [send ?d {| res := ?r; sock := sk |}] =>
      change r with
        (response 200 "OK"
           [("Content-Type",
             content_type_of
               (guess_type (static_file_path isdir prefix directory (path req))))])
  end.
  by rewrite send_fresh.
Qed.

(** X8. When reading the file of the first matching static mapping
    raises an exception derived from [Exception] other than
    [FileNotFoundError], the answer is status 500 and its body is
    [Error reading static file: ] followed by the text of the
    exception; the socket is closed and the dynamic routes are not
    consulted. *)
Theorem static_read_error_is_500 (self : MiniExpress) (req : Request) (sk : socket)
    (before after : list (string * string)) (prefix directory : string) (e : exn) :
  method req <> "OPTIONS" ->
  static_routes self = before ++ (prefix, directory) :: after ->
  Forall (fun m => Py.startswith m.1 (path req) = false) before ->
  Py.startswith prefix (path req) = true ->
  read_file (static_file_path isdir prefix directory (path req)) = Raise e ->
  is_FileNotFoundError e = false ->
  is_Exception e = true ->
  healthy sk ->
  let body_text := "Error reading static file: " +:+ exn_text e in
  respond isdir read_file guess_type self req (fresh_conn sk)
  = (Ok tt,
     let r := response 500 "Internal Server Error"
                [("Content-Type", "text/plain; charset=utf-8");
                 ("Access-Control-Allow-Origin", "*");
                 ("Connection", "close");
                 ("Content-Length", Py.str_nat (length (Py.encode body_text)))] in
     {| res := set_sent r;
        sock := {| wire := wire sk ++ render r (Py.encode body_text);
                   fault := None; closed := true |} |}).
Proof.
  intros Hm Hsplit Hb Hp Hr Hfnf Hexc Hh body_text. unfold respond, fresh_conn.
  destruct (String.eqb_spec (method req) "OPTIONS"); [done|].
  unfold_bind. rewrite Hsplit, (static_loop_first_match _ _ _ _ _ _ _ _ Hb Hp).
  unfold serve_static, try_except, lift. unfold_bind. rewrite Hr. simpl.
  rewrite Hfnf, Hexc. simpl.
  change (set_status 500 (reason_phrase 500) Response_init)
    with (response 500 "Internal Server Error" []).
  by rewrite send_fresh.
Qed.

End Phases.

(** X5, witness: an [OPTIONS] request for a path that a static mapping
    and a registered route both cover. *)
Lemma options_is_answered_before_routing_witness :
  let h : handler := fun _ => HSend (DObj "never") HReturn in
  let self :=
    {| routes := {[ "OPTIONS" := [(ReSegments [Literal "static"], h)] ]};
       static_routes := [("/static", "./static")] |} in
  let req := Request_init (fun _ => None) "OPTIONS" "/static" ∅ [] "peer" in
  Py.of_bytes
    (wire (sock (respond (fun _ => true) (fun _ => Ok []) (fun _ => None)
                   self req (fresh_conn fresh_socket)).2))
  = "HTTP/1.1 200 OK" +:+ Py.CRLF +:+
    "Access-Control-Allow-Origin: *" +:+ Py.CRLF +:+
    "Access-Control-Allow-Methods: GET,POST,PUT,DELETE,OPTIONS" +:+ Py.CRLF +:+
    "Access-Control-Allow-Headers: Content-Type" +:+ Py.CRLF +:+
    "Content-Type: text/plain; charset=utf-8" +:+ Py.CRLF +:+
    "Connection: close" +:+ Py.CRLF +:+
    "Content-Length: 0" +:+ Py.CRLF +:+ Py.CRLF.
Proof.
  intros h self req.
  rewrite (options_is_answered_before_routing (fun _ => true) (fun _ => Ok [])
             (fun _ => None) self req fresh_socket eq_refl (conj eq_refl eq_refl)).
  reflexivity.
Defined.

(** X6, witness: [/data] is registered for [POST] only; [GET /data] is
    answered 404. *)
Lemma unmatched_request_is_404_witness :
  let h : handler := fun _ => HSend (DObj "created") HReturn in
  let self :=
    {| routes := {[ "POST" := [(ReSegments [Literal "data"], h)] ]};
       static_routes := [("/static", "./static")] |} in
  let req := Request_init (fun _ => None) "GET" "/data" ∅ [] "peer" in
  Py.of_bytes
    (wire (sock (respond (fun _ => false) (fun _ => Ok []) (fun _ => None)
                   self req (fresh_conn fresh_socket)).2))
  = "HTTP/1.1 404 Not Found" +:+ Py.CRLF +:+
    "Content-Type: text/plain; charset=utf-8" +:+ Py.CRLF +:+
    "Access-Control-Allow-Origin: *" +:+ Py.CRLF +:+
    "Connection: close" +:+ Py.CRLF +:+
    "Content-Length: 9" +:+ Py.CRLF +:+ Py.CRLF +:+ "Not Found".
Proof.
  intros h self req.
  rewrite (unmatched_request_is_404 (fun _ => false) (fun _ => Ok []) (fun _ => None)
             self req fresh_socket).
  - reflexivity.
  - discriminate.
  - repeat constructor.
  - constructor.
  - by split.
Defined.

(** X7, witness: [/static/app.js] with a file of two bytes and the
    guessed type [text/javascript]. *)
Lemma static_file_is_served_witness :
  let h : handler := fun _ => HSend (DObj "dynamic") HReturn in
  let self :=
    {| routes := {[ "GET" := [(ReSegments [Literal "static"; Placeholder "name"], h)] ]};
       static_routes := [("/static", "./static")] |} in
  let req := Request_init (fun _ => None) "GET" "/static/app.js" ∅ [] "peer" in
  Py.of_bytes
    (wire (sock (respond (fun _ => false) (fun _ => Ok [x61; x3b])
                   (fun _ => Some "text/javascript")
                   self req (fresh_conn fresh_socket)).2))
  = "HTTP/1.1 200 OK" +:+ Py.CRLF +:+
    "Content-Type: text/javascript" +:+ Py.CRLF +:+
    "Access-Control-Allow-Origin: *" +:+ Py.CRLF +:+
    "Connection: close" +:+ Py.CRLF +:+
    "Content-Length: 2" +:+ Py.CRLF +:+ Py.CRLF +:+ "a;".
Proof.
  intros h self req.
  rewrite (static_file_is_served (fun _ => false) (fun _ => Ok [x61; x3b])
             (fun _ => Some "text/javascript") self req fresh_socket
             [] [] "/static" "./static" [x61; x3b]).
  - reflexivity.
  - discriminate.
  - reflexivity.
  - constructor.
  - reflexivity.
  - reflexivity.
  - by split.
Defined.

(** X8, witness: the file exists and may not be read. *)
Lemma static_read_error_is_500_witness :
  let self := {| routes := ∅; static_routes := [("/static", "./static")] |} in
  let req := Request_init (fun _ => None) "GET" "/static/key" ∅ [] "peer" in
  Py.of_bytes
    (wire (sock (respond (fun _ => false)
                   (fun _ => Raise (Exception "PermissionError" "[Errno 13] Permission denied"))
                   (fun _ => None)
                   self req (fresh_conn fresh_socket)).2))
  = "HTTP/1.1 500 Internal Server Error" +:+ Py.CRLF +:+
    "Content-Type: text/plain; charset=utf-8" +:+ Py.CRLF +:+
    "Access-Control-Allow-Origin: *" +:+ Py.CRLF +:+
    "Connection: close" +:+ Py.CRLF +:+
    "Content-Length: 55" +:+ Py.CRLF +:+ Py.CRLF +:+
    "Error reading static file: [Errno 13] Permission denied".
Proof.
  intros self req.
  pose proof (static_read_error_is_500 (fun _ => false)
             (fun _ => Raise (Exception "PermissionError" "[Errno 13] Permission denied"))
             (fun _ => None) self req fresh_socket
             [] [] "/static" "./static"
             (Exception "PermissionError" "[Errno 13] Permission denied")) as H.
  cbv zeta in H. rewrite H.
  - reflexivity.
  - discriminate.
  - reflexivity.
  - constructor.
  - reflexivity.
  - reflexivity.
  - reflexivity.
  - reflexivity.
  - by split.
Defined.

(** * More on route patterns *)

Lemma strip_prefix_app (p rest : string) : strip_prefix p (p +:+ rest) = Some rest.
Proof.
  induction p as [|a p IH]; [done|].
  change (String a p +:+ rest) with (String a (p +:+ rest)). simpl.
  by rewrite Ascii.eqb_refl.
Qed.

Lemma span_segment_app (v rest : string) :
  Py.has_char "/" v = false ->
  rest = "" \/ Py.startswith "/" rest = true ->
  span_segment (v +:+ rest) = (v, rest).
Proof.
  intros Hv Hrest. induction v as [|c v IH].
  - change ("" +:+ rest) with rest. destruct Hrest as [->|Hr]; [done|].
    destruct rest as [|c r]; [done|].
    change (Py.startswith "/" (String c r))
      with (if Ascii.eqb "/" c then true else false) in Hr.
    destruct (Ascii.eqb_spec "/" c) as [<-|]; [reflexivity | discriminate Hr].
  - change (String c v +:+ rest) with (String c (v +:+ rest)). simpl in *.
    apply orb_false_elim in Hv as [Hc Hv]. unfold Py.is_slash. rewrite Hc.
    by rewrite IH.
Qed.

Lemma join_segments_head (values : list string) (trailer : string) :
  trailer = "" \/ trailer = "/" ->
  join_segments values trailer = "" \/
  Py.startswith "/" (join_segments values trailer) = true.
Proof.
  intros [->| ->]; destruct values; simpl; auto.
Qed.

Lemma match_segments_complete (segs : list segment) (values : list string)
    (trailer : string) (g : gmap string string) :
  distinct (group_names segs) = true ->
  Forall2 segment_fits segs values ->
  trailer = "" \/ trailer = "/" ->
  exists g',
    match_segments segs (join_segments values trailer) g = Some g' /\
    Forall2 (segment_value g') segs values.
Proof.
  intros Hd Hfit Ht. revert g Hd.
  induction Hfit as [|seg v segs values Hv Hfit IH]; intros g Hd.
  - exists g. split; [|constructor]. simpl. by destruct Ht as [-> | ->].
  - destruct seg as [l|name]; simpl in Hv.
    + subst v. destruct (IH g Hd) as (g' & Hm & Hvs).
      exists g'. split; [|by constructor].
      rewrite match_segments_literal.
      change (join_segments (l :: values) trailer)
        with (String "/" l +:+ join_segments values trailer).
      by rewrite strip_prefix_app.
    + destruct Hv as [Hne Hslash]. simpl in Hd.
      apply andb_prop in Hd as [Hfresh Hd].
      apply negb_true_iff, existsb_eqb_false in Hfresh.
      destruct (IH (<[name := v]> g) Hd) as (g' & Hm & Hvs).
      exists g'.
      assert (match_segments (Placeholder name :: segs)
                (join_segments (v :: values) trailer) g = Some g') as Hhead.
      { change (join_segments (v :: values) trailer)
          with (String "/" (v +:+ join_segments values trailer)).
        simpl. rewrite (span_segment_app _ _ Hslash (join_segments_head _ _ Ht)).
        by rewrite Hne. }
      split; [done|]. constructor; [|done]. simpl. split_and!; [|done|done].
      by rewrite (match_segments_frame _ _ _ _ _ Hm Hfresh), lookup_insert_eq.
Qed.

(** X9. The pattern of a template accepts every path of its shape: one
    slash and one piece per segment, the literal itself under a literal
    segment and any non-empty text without a slash under a placeholder,
    with or without one trailing slash; and [params] then holds each
    placeholder's piece under its name. *)
Theorem path_of_the_shape_is_matched (template : string) (segs : list segment)
    (values : list string) (trailer : string) :
  compile template = Some (ReSegments segs) ->
  Forall2 segment_fits segs values ->
  trailer = "" \/ trailer = "/" ->
  exists groups,
    regex_match (ReSegments segs) (join_segments values trailer) = Some groups /\
    Forall2 (segment_value groups) segs values.
Proof.
  intros Hc Hfit Ht. apply compile_segments in Hc as [_ Hd].
  by apply match_segments_complete.
Qed.

Lemma path_of_the_shape_is_matched_witness :
  exists groups,
    regex_match (ReSegments [Literal "data"; Placeholder "id"]) "/data/17/" = Some groups /\
    Forall2 (segment_value groups) [Literal "data"; Placeholder "id"] ["data"; "17"].
Proof.
  apply (path_of_the_shape_is_matched "/data/:id" [Literal "data"; Placeholder "id"]
           ["data"; "17"] "/").
  - reflexivity.
  - repeat constructor.
  - by right.
Defined.

Lemma match_segments_dom (segs : list segment) (s : string) (g g' : gmap string string)
    (n : string) :
  match_segments segs s g = Some g' ->
  is_Some (g' !! n) <-> is_Some (g !! n) \/ n ∈ group_names segs.
Proof.
  revert s g. induction segs as [|[l|name] segs IH]; intros s g.
  - simpl. destruct (tail_ok s); [|done]. intros [= ->].
    split; [by left | intros [?|H]; [done | by apply elem_of_nil in H]].
  - rewrite match_segments_literal.
    destruct (strip_prefix _ s) as [rest|]; [|done]. simpl. apply IH.
  - simpl. destruct s as [|c r]; [done|]. destruct (Py.is_slash c); [|done].
    destruct (span_segment r) as [v rest]. destruct (String.eqb v ""); [done|].
    intros Hm. rewrite (IH _ _ Hm), lookup_insert_is_Some, elem_of_cons.
    destruct (decide (name = n)) as [->|Hne]; intuition congruence.
Qed.

(** X10. After a match, [params] has exactly the placeholder names of
    the matched template as keys: a name is bound if and only if the
    template has a placeholder of that name. The pattern of the template
    [/] binds nothing. *)
Theorem params_keys_are_the_placeholders (re : regex) (p n : string)
    (groups : gmap string string) :
  regex_match re p = Some groups ->
  is_Some (groups !! n) <->
  match re with
  | ReRoot => False
  | ReSegments segs => n ∈ group_names segs
  end.
Proof.
  destruct re as [|segs]; simpl.
  - destruct p as [|c r]; [done|]. destruct (Py.is_slash c && at_end r); [|done].
    intros [= <-]. rewrite lookup_empty. split; [by intros [? ?] | done].
  - intros Hm. rewrite (match_segments_dom _ _ _ _ n Hm), lookup_empty.
    split; [intros [[? ?]|?]; done | by right].
Qed.

Lemma params_keys_are_the_placeholders_witness :
  is_Some (({[ "id" := "42" ]} : gmap string string) !! "id") <->
  "id" ∈ group_names [Literal "user"; Placeholder "id"].
Proof.
  exact (params_keys_are_the_placeholders
           (ReSegments [Literal "user"; Placeholder "id"]) "/user/42" "id"
           {[ "id" := "42" ]} eq_refl).
Defined.

(** * Slashes around templates and prefixes *)

Lemma append_empty_r (s : string) : s +:+ "" = s.
Proof.
  induction s as [|c s IH]; [done|].
  change (String c s +:+ "") with (String c (s +:+ "")). by rewrite IH.
Qed.

Lemma rstrip_by_snoc (f : ascii -> bool) (s : string) (c : ascii) :
  f c = true -> Py.rstrip_by f (s +:+ String c "") = Py.rstrip_by f s.
Proof.
  intros Hc. induction s as [|a s IH].
  - simpl. by rewrite Hc.
  - change (String a s +:+ String c "") with (String a (s +:+ String c "")).
    simpl. by rewrite IH.
Qed.

Lemma lstrip_by_snoc (f : ascii -> bool) (s : string) (c : ascii) :
  f c = true ->
  Py.lstrip_by f (s +:+ String c "")
  = if all_chars f s then "" else Py.lstrip_by f s +:+ String c "".
Proof.
  intros Hc. induction s as [|a s IH].
  - simpl. by rewrite Hc.
  - change (String a s +:+ String c "") with (String a (s +:+ String c "")).
    simpl. destruct (f a); [done|]. reflexivity.
Qed.

Lemma lstrip_by_all (f : ascii -> bool) (s : string) :
  all_chars f s = true -> Py.lstrip_by f s = "".
Proof.
  induction s as [|a s IH]; [done|]. simpl.
  intros [Ha Hs]%andb_prop. rewrite Ha. auto.
Qed.

Lemma strip_by_snoc (f : ascii -> bool) (s : string) (c : ascii) :
  f c = true -> Py.strip_by f (s +:+ String c "") = Py.strip_by f s.
Proof.
  intros Hc. unfold Py.strip_by. rewrite lstrip_by_snoc by done.
  destruct (all_chars f s) eqn:Hall.
  - by rewrite lstrip_by_all.
  - by apply rstrip_by_snoc.
Qed.

Lemma strip_by_cons (f : ascii -> bool) (s : string) (c : ascii) :
  f c = true -> Py.strip_by f (String c s) = Py.strip_by f s.
Proof. intros Hc. unfold Py.strip_by. simpl. by rewrite Hc. Qed.

Lemma rstrip_by_idem (f : ascii -> bool) (s : string) :
  Py.rstrip_by f (Py.rstrip_by f s) = Py.rstrip_by f s.
Proof.
  induction s as [|a s IH]; [done|]. simpl.
  destruct (Py.rstrip_by f s) as [|b r] eqn:Hr.
  - destruct (f a) eqn:Ha; [done|]. simpl. by rewrite Ha.
  - simpl in *. by rewrite IH.
Qed.

Lemma rstrip_by_empty_all (f : ascii -> bool) (s : string) :
  Py.rstrip_by f s = "" <-> all_chars f s = true.
Proof.
  induction s as [|a s IH]; [done|]. simpl.
  destruct (Py.rstrip_by f s) as [|b r] eqn:Hr.
  - destruct (f a); simpl; [|done]. tauto.
  - split; [done|]. intros [_ Hs]%andb_prop. apply IH in Hs. done.
Qed.

Lemma rstrip_by_head (f : ascii -> bool) (a : ascii) (s : string) :
  Py.rstrip_by f (String a s) = "" \/
  exists r, Py.rstrip_by f (String a s) = String a r.
Proof.
  simpl. destruct (Py.rstrip_by f s); [destruct (f a)|]; eauto.
Qed.

(** X11. Slashes around a template do not count: a template other than
    [/] and the empty one compiles to the same pattern with a slash put
    in front of it or after it, so [/users], [users] and [/users/]
    register the same route. *)
Theorem slashes_around_a_template_are_ignored (template : string) :
  template <> "" -> template <> "/" ->
  compile (template +:+ "/") = compile template /\
  compile ("/" +:+ template) = compile template.
Proof.
  intros Hne Hroot. unfold compile.
  destruct (String.eqb_spec template "/") as [|_]; [done|].
  assert (template +:+ "/" <> "/") as H1.
  { destruct template as [|a [|b t]]; [done| |done].
    change (String a "" +:+ "/") with (String a "/"). congruence. }
  assert ("/" +:+ template <> "/") as H2.
  { destruct template; [done|]. discriminate. }
  destruct (String.eqb_spec (template +:+ "/") "/") as [|_]; [done|].
  destruct (String.eqb_spec ("/" +:+ template) "/") as [|_]; [done|].
  change ("/" +:+ template) with (String "/" template).
  by rewrite (strip_by_snoc Py.is_slash template "/"),
             (strip_by_cons Py.is_slash template "/").
Qed.

Lemma slashes_around_a_template_are_ignored_witness :
  compile ("users/:id" +:+ "/") = compile "users/:id" /\
  compile ("/" +:+ "users/:id") = compile "users/:id".
Proof.
  apply (slashes_around_a_template_are_ignored "users/:id"); discriminate.
Defined.

(** X12. [use_static] appends one mapping and leaves the routes as they
    are. The prefix it stores has no trailing slash and is empty or
    starts with a slash; it is empty exactly when the given prefix is
    made of slashes only, and then it starts every request path, so the
    mapping is consulted for every request. *)
Theorem use_static_stores_a_normal_prefix (prefix directory : string)
    (self : MiniExpress) :
  exists stored,
    static_routes (use_static prefix directory self)
    = static_routes self ++ [(stored, directory)] /\
    routes (use_static prefix directory self) = routes self /\
    Py.rstrip_by Py.is_slash stored = stored /\
    (stored = "" \/ Py.startswith "/" stored = true) /\
    (stored = "" <-> all_chars Py.is_slash prefix = true) /\
    (stored = "" -> forall p, Py.startswith stored p = true).
Proof.
  unfold use_static. simpl.
  set (prefix1 := if Py.startswith "/" prefix then prefix else "/" +:+ prefix).
  exists (Py.rstrip_by Py.is_slash prefix1).
  assert (exists t, prefix1 = String "/" t /\
                    all_chars Py.is_slash prefix1 = all_chars Py.is_slash prefix)
    as (t & Ht & Hall).
  { subst prefix1. destruct prefix as [|c t]; [by exists ""|].
    change (Py.startswith "/" (String c t)) with (if Ascii.eqb "/" c then true else false).
    destruct (Ascii.eqb_spec "/" c) as [<-|]; [by exists t|].
    by exists (String c t). }
  split_and!; [done|done|apply rstrip_by_idem| | |by intros ->].
  - rewrite Ht. destruct (rstrip_by_head Py.is_slash "/" t) as [->|[r ->]]; auto.
  - by rewrite rstrip_by_empty_all, Hall.
Qed.

(** * More on [Request] *)

Lemma split_once_spec (c : ascii) (s : string) :
  match Py.split_once c s with
  | Some (l, r) => s = l +:+ String c r /\ Py.has_char c l = false
  | None => Py.has_char c s = false
  end.
Proof.
  induction s as [|a s IH]; simpl; [done|].
  destruct (Ascii.eqb a c) eqn:Hac.
  { apply Ascii.eqb_eq in Hac as ->. done. }
  destruct (Py.split_once c s) as [[l r]|]; simpl; [|done].
  destruct IH as [-> Hl]. by rewrite Hac.
Qed.

Section RequestFacts.

Variable json_loads : list byte -> option json_value.

(** X13. The request target is cut at its first question mark: [path]
    never holds a question mark, [raw_path] is the target as received,
    and either the target has no question mark, [path] is all of it and
    [query] is empty, or the target is [path], a question mark and a
    query string whose parse is [query]. *)
Theorem target_is_cut_at_the_first_question_mark (m target addr : string)
    (hdrs : gmap string string) (raw : list byte) :
  let req := Request_init json_loads m target hdrs raw addr in
  Py.has_char "?" (path req) = false /\
  raw_path req = target /\
  ((target = path req /\ query req = ∅) \/
   exists qs, target = path req +:+ "?" +:+ qs /\ query req = query_of qs).
Proof.
  unfold Request_init. pose proof (split_once_spec "?" target) as H.
  destruct (Py.split_once "?" target) as [[p q]|]; simpl.
  - destruct H as [-> Hp]. split_and!; [done|done|]. right. by exists q.
  - split_and!; [done|done|]. by left.
Qed.

(** X14. A non-empty body whose content type names
    [application/x-www-form-urlencoded] and not [application/json]
    decodes to a map from each field name to the list of all its
    non-empty values in order; unlike in [query], a single value stays a
    list of one. *)
Theorem form_body_values_are_lists (m target addr : string)
    (hdrs : gmap string string) (raw : list byte) (k : string) :
  raw <> [] ->
  Py.contains "application/json" (default "" (hdrs !! "Content-Type")) = false ->
  Py.contains "application/x-www-form-urlencoded" (default "" (hdrs !! "Content-Type"))
  = true ->
  exists form,
    body (Request_init json_loads m target hdrs raw addr) = BForm form /\
    form !! k
    = match values_of k (Urllib.parse_qsl (Py.decode_lossy Py.Ignore raw)) with
      | [] => None
      | vs => Some vs
      end.
Proof.
  intros Hraw Hj Hf.
  exists (Urllib.parse_qs (Py.decode_lossy Py.Ignore raw)). split.
  - unfold Request_init.
    destruct (Py.split_once "?" target) as [[p q]|]; simpl;
      unfold decode_body; destruct raw; try done; by rewrite Hj, Hf.
  - unfold Urllib.parse_qs. by rewrite fold_add_value, lookup_empty.
Qed.

End RequestFacts.

Lemma form_body_values_are_lists_witness :
  exists form,
    body (Request_init (fun _ => None) "POST" "/login"
            {[ "Content-Type" := "application/x-www-form-urlencoded" ]}
            (Py.encode "user=ann&tag=a&tag=b") "peer") = BForm form /\
    form !! "user" = Some ["ann"].
Proof.
  destruct (form_body_values_are_lists (fun _ => None) "POST" "/login" "peer"
              {[ "Content-Type" := "application/x-www-form-urlencoded" ]}
              (Py.encode "user=ann&tag=a&tag=b") "user") as (form & Hb & Hk).
  - discriminate.
  - reflexivity.
  - reflexivity.
  - exists form. split; [exact Hb | exact Hk].
Defined.

(** * The shape of parsed queries *)

Lemma replace_char_empty (a b : ascii) (s : string) :
  Py.replace_char a b s = "" -> s = "".
Proof. by destruct s. Qed.

Lemma unquote_to_bytes_empty (s : string) : Urllib.unquote_to_bytes s = [] -> s = "".
Proof.
  destruct s as [|c s]; [done|]. simpl.
  destruct (Ascii.eqb c "%"); [|done].
  destruct s as [|a [|b r]]; try done.
  by destruct (Urllib.hex_val a), (Urllib.hex_val b).
Qed.

Lemma of_bytes_empty (bs : list byte) : Py.of_bytes bs = "" -> bs = [].
Proof. intros H. by rewrite <- (encode_of_bytes bs), H. Qed.

Lemma replace_units_empty (us : list Py.unit_) :
  concat (map (Py.unit_bytes Py.Replace) us) = [] ->
  concat (map Py.raw_bytes us) = [].
Proof.
  induction us as [|[bs|bs] us IH]; simpl; [done| |done].
  intros [-> H]%app_eq_nil. auto.
Qed.

Lemma decode_replace_empty (raw : list byte) :
  Py.decode_lossy Py.Replace raw = "" -> raw = [].
Proof.
  unfold Py.decode_lossy. intros H%of_bytes_empty%replace_units_empty.
  by rewrite utf8_scan_raw in H.
Qed.

Lemma rev_app_empty (s acc : string) : String.rev_app s acc = "" -> s = "" /\ acc = "".
Proof.
  revert acc. induction s as [|a s IH]; intros acc; simpl; [done|].
  by intros [_ [=]]%IH.
Qed.

Lemma flush_empty (run : string) : Urllib.flush run = "" -> run = "".
Proof.
  unfold Urllib.flush.
  intros H%decode_replace_empty%unquote_to_bytes_empty.
  by apply rev_app_empty in H as [-> _].
Qed.

Lemma unquote_go_empty (run s : string) :
  Urllib.unquote_go run s = "" -> run = "" /\ s = "".
Proof.
  revert run. induction s as [|c s IH]; intros run; simpl.
  - intros ->%flush_empty. done.
  - destruct (Py.ord c <? 128)%N.
    + by intros [[=] _]%IH.
    + by destruct (Urllib.flush run).
Qed.

Lemma decode_field_empty (s : string) : Urllib.decode_field s = "" -> s = "".
Proof.
  unfold Urllib.decode_field, Urllib.unquote.
  destruct (Py.has_char "%" _).
  - intros [_ H]%unquote_go_empty. by apply replace_char_empty in H.
  - apply replace_char_empty.
Qed.

Lemma parse_pair_value (f n v : string) :
  Urllib.parse_pair f = Some (n, v) -> v <> "".
Proof.
  unfold Urllib.parse_pair.
  destruct (Py.split_once "=" f) as [[n0 v0]|]; [|done].
  destruct (String.eqb_spec v0 "") as [|Hne]; [done|].
  intros [= _ <-] H. by apply decode_field_empty in H.
Qed.

Lemma parse_qsl_values (qs : string) :
  Forall (fun nv : string * string => nv.2 <> "") (Urllib.parse_qsl qs).
Proof.
  rewrite parse_qsl_eq.
  induction (Py.split "&" qs) as [|f fs IH]; simpl; [constructor|].
  destruct (Urllib.parse_pair f) as [[n v]|] eqn:Hf; [|done].
  constructor; [|done]. simpl. by apply (parse_pair_value f n).
Qed.

Lemma values_of_Forall (P : string -> Prop) (k : string) (pairs : list (string * string)) :
  Forall (fun nv : string * string => P nv.2) pairs -> Forall P (values_of k pairs).
Proof.
  induction 1 as [|[n v] pairs Hv _ IH]; simpl; [constructor|].
  destruct (String.eqb n k); [by constructor | done].
Qed.

(** X15. Every entry of [query] is a non-empty string or a list of at
    least two non-empty strings: no key maps to an empty string, to an
    empty list or to a list of one. *)
Theorem query_entries_are_well_shaped (qs k : string) (q : qvalue) :
  query_of qs !! k = Some q -> well_shaped q.
Proof.
  unfold query_of. destruct (String.eqb qs ""); [by rewrite lookup_empty|].
  rewrite lookup_fmap. unfold Urllib.parse_qs. rewrite fold_add_value, lookup_empty.
  pose proof (values_of_Forall (fun v => v <> "") k _ (parse_qsl_values qs)) as Hall.
  destruct (values_of k (Urllib.parse_qsl qs)) as [|v [|v' vs]]; simpl; [done| |].
  - intros [= <-]. simpl. by inversion Hall.
  - intros [= <-]. simpl. split; [lia | done].
Qed.

Lemma query_entries_are_well_shaped_witness :
  well_shaped (QList ["a"; "b"]).
Proof.
  exact (query_entries_are_well_shaped "tag=a&x=&tag=b" "tag" (QList ["a"; "b"]) eq_refl).
Defined.

(** * The headers [send] emits and the exceptions it lets through *)

Lemma setdefault_header_get (name value k : string) (h : Py.dict string) :
  Py.dict_get k (setdefault_header name value h)
  = match Py.dict_get k h with
    | Some v => Some v
    | None => if String.eqb k name then Some value else None
    end.
Proof.
  unfold setdefault_header, Py.dict_has.
  destruct (String.eqb_spec k name) as [->|Hne].
  - destruct (Py.dict_get name h) eqn:Hg; [by rewrite Hg|].
    by rewrite dict_get_set_eq.
  - destruct (Py.dict_get name h) eqn:Hn.
    + by destruct (Py.dict_get k h).
    + rewrite dict_get_set_ne by congruence. by destruct (Py.dict_get k h).
Qed.

Lemma final_headers_get (h : Py.dict string) (b : list byte) (k : string) :
  Py.dict_get k (final_headers h b)
  = if String.eqb k "Content-Length" then Some (Py.str_nat (length b))
    else if String.eqb k "Connection" then Some "close"
    else match Py.dict_get k h with
         | Some v => Some v
         | None => default_header k
         end.
Proof.
  unfold final_headers, default_header.
  destruct (String.eqb_spec k "Content-Length") as [->|H1];
    [by rewrite dict_get_set_eq|].
  rewrite dict_get_set_ne by congruence.
  destruct (String.eqb_spec k "Connection") as [->|H2];
    [by rewrite dict_get_set_eq|].
  rewrite dict_get_set_ne by congruence.
  rewrite !setdefault_header_get.
  destruct (Py.dict_get k h); [done|].
  by destruct (String.eqb k "Content-Type").
Qed.

Lemma send_headers (d : data) (st : conn) :
  sent (res st) = false ->
  headers (res (send d st).2) = final_headers (headers (res st)) (body_bytes_of d).
Proof.
  intros H. unfold send. rewrite H.
  destruct (sendall_seq _ _) as [[[]|e] sk]; [done|].
  by destruct (is_BrokenPipe e).
Qed.

(** X16. The headers of a response that [send] writes: [Content-Length]
    is the length of the body and [Connection] is [close] whatever the
    handler set; every other header the handler set keeps its value;
    [Content-Type] and [Access-Control-Allow-Origin] get their defaults
    only when the handler did not set them; no other header appears. *)
Theorem send_overrides_two_headers_and_defaults_two (d : data) (st : conn)
    (name : string) :
  sent (res st) = false ->
  Py.dict_get name (headers (res (send d st).2))
  = if String.eqb name "Content-Length"
    then Some (Py.str_nat (length (body_bytes_of d)))
    else if String.eqb name "Connection" then Some "close"
    else match Py.dict_get name (headers (res st)) with
         | Some v => Some v
         | None => default_header name
         end.
Proof. intros H. rewrite send_headers by done. apply final_headers_get. Qed.

Lemma send_overrides_two_headers_and_defaults_two_witness :
  let st := {| res := {| status_code := 200; status_text := "OK";
                         headers := [("Connection", "keep-alive");
                                     ("Content-Type", "text/html")];
                         sent := false |};
               sock := fresh_socket |} in
  Py.dict_get "Connection" (headers (res (send (DObj "hi") st).2)) = Some "close" /\
  Py.dict_get "Content-Type" (headers (res (send (DObj "hi") st).2)) = Some "text/html".
Proof.
  intros st. split.
  - exact (send_overrides_two_headers_and_defaults_two (DObj "hi") st "Connection" eq_refl).
  - exact (send_overrides_two_headers_and_defaults_two (DObj "hi") st "Content-Type" eq_refl).
Defined.

Lemma dict_set_keys_prefix {V} (k : string) (v : V) (d : Py.dict V) :
  d.*1 `prefix_of` (Py.dict_set k v d).*1.
Proof.
  induction d as [|[k' v'] d IH]; simpl; [apply prefix_nil|].
  destruct (String.eqb_spec k k') as [->|_]; simpl; [done|].
  by apply prefix_cons.
Qed.

Lemma setdefault_header_keys_prefix (name value : string) (h : Py.dict string) :
  h.*1 `prefix_of` (setdefault_header name value h).*1.
Proof.
  unfold setdefault_header. destruct (Py.dict_has name h); [done|].
  apply dict_set_keys_prefix.
Qed.

Lemma final_headers_keys_prefix (h : Py.dict string) (b : list byte) :
  h.*1 `prefix_of` (final_headers h b).*1.
Proof.
  unfold final_headers.
  repeat (etrans; [|apply dict_set_keys_prefix]).
  repeat (etrans; [|apply setdefault_header_keys_prefix]).
  done.
Qed.

(** X17. A [send] that writes, on a socket that accepts the bytes and
    with texts that encode, puts on the wire the status line, one line
    per header, the blank line and the body, the header lines in the
    order in which the names were first set: the names the handler set
    come first, in the handler's order, without duplicates, and what
    [send] adds follows them. *)
Theorem send_keeps_the_order_of_headers (d : data) (st : conn) :
  sent (res st) = false ->
  healthy (sock st) ->
  encodable (res st) d = true ->
  NoDup (headers (res st)).*1 ->
  let hs := headers (res (send d st).2) in
  (headers (res st)).*1 `prefix_of` hs.*1 /\
  NoDup hs.*1 /\
  wire (sock (send d st).2)
  = wire (sock st)
    ++ Py.encode (status_line (res st))
    ++ concat (map (fun nv => Py.encode (header_line nv)) hs)
    ++ Py.encode Py.CRLF ++ body_bytes_of d.
Proof.
  intros Hs Hh _ Hnd hs. split_and!.
  - subst hs. rewrite send_headers by done. apply final_headers_keys_prefix.
  - by apply send_headers_NoDup.
  - subst hs. rewrite send_headers by done.
    rewrite send_healthy by done. cbn [snd sock wire]. by rewrite render_eq.
Qed.

Lemma send_keeps_the_order_of_headers_witness :
  let st := {| res := {| status_code := 200; status_text := "OK";
                         headers := [("X-B", "1"); ("Content-Length", "99"); ("X-A", "2")];
                         sent := false |};
               sock := fresh_socket |} in
  Py.of_bytes (wire (sock (send (DObj "hi") st).2))
  = "HTTP/1.1 200 OK" +:+ Py.CRLF +:+
    "X-B: 1" +:+ Py.CRLF +:+
    "Content-Length: 2" +:+ Py.CRLF +:+
    "X-A: 2" +:+ Py.CRLF +:+
    "Content-Type: text/plain; charset=utf-8" +:+ Py.CRLF +:+
    "Access-Control-Allow-Origin: *" +:+ Py.CRLF +:+
    "Connection: close" +:+ Py.CRLF +:+ Py.CRLF +:+ "hi".
Proof.
  intros st.
  assert (NoDup (headers (res st)).*1) as Hnd.
  { simpl. apply (bool_decide_unpack _). by vm_compute. }
  destruct (send_keeps_the_order_of_headers (DObj "hi") st eq_refl (conj eq_refl eq_refl)
              eq_refl Hnd) as (_ & _ & Hw).
  rewrite Hw. reflexivity.
Defined.

Lemma sendall_seq_raises (cs : list (list byte)) (sk : socket) (e : exn) :
  (sendall_seq cs sk).1 = Raise e ->
  (closed sk = true /\ e = OSError_closed) \/
  (closed sk = false /\ exists n, fault sk = Some (n, e)).
Proof.
  revert sk. induction cs as [|c cs IH]; intros sk; simpl; [done|].
  unfold sendall. destruct (closed sk) eqn:Hc.
  - simpl. intros [= <-]. by left.
  - destruct (fault sk) as [[n e0]|] eqn:Hf.
    + destruct (length c <=? n)%nat.
      * intros [[[=] _]|[_ [n' Hn']]]%IH. simpl in Hn'. injection Hn' as _ <-.
        right. eauto.
      * simpl. intros [= <-]. right. eauto.
    + intros [[[=] _]|[_ [n' [=]]]]%IH.
Qed.

(** X18. Given a response and data whose texts encode, [send] raises
    only what [sendall] raised, and never a [BrokenPipeError]: an
    exception leaves [send] only when the response was not sent before
    and the socket is already closed ([OSError]) or the peer fails with
    an error other than a broken pipe; the response is marked as sent
    all the same. *)
Theorem send_raises_only_socket_errors (d : data) (st : conn) (e : exn) :
  encodable (res st) d = true ->
  (send d st).1 = Raise e ->
  sent (res st) = false /\ is_BrokenPipe e = false /\
  sent (res (send d st).2) = true /\
  ((closed (sock st) = true /\ e = OSError_closed) \/
   (closed (sock st) = false /\ exists n, fault (sock st) = Some (n, e))).
Proof.
  intros _ H. pose proof (send_sent d st) as Hsent.
  unfold send in *. destruct (sent (res st)); [done|].
  destruct (sendall_seq _ _) as [[[]|e0] sk] eqn:Hseq; [done|].
  pose proof (sendall_seq_raises _ _ e0 ltac:(by rewrite Hseq)) as Hsk.
  destruct (is_BrokenPipe e0) eqn:Hb; [done|].
  simpl in H. injection H as <-. done.
Qed.

Lemma send_raises_only_socket_errors_witness :
  let reset := Exception "ConnectionResetError" "[Errno 104] Connection reset by peer" in
  let st := {| res := Response_init;
               sock := {| wire := []; fault := Some (20%nat, reset); closed := false |} |} in
  sent (res st) = false /\ is_BrokenPipe reset = false /\
  sent (res (send (DObj "hello") st).2) = true /\
  ((closed (sock st) = true /\ reset = OSError_closed) \/
   (closed (sock st) = false /\ exists n, fault (sock st) = Some (n, reset))).
Proof.
  exact (send_raises_only_socket_errors (DObj "hello")
           {| res := Response_init;
              sock := {| wire := [];
                         fault := Some (20%nat, Exception "ConnectionResetError"
                                                  "[Errno 104] Connection reset by peer");
                         closed := false |} |} _ eq_refl eq_refl).
Defined.

(** X19. After [json] the [Content-Type] of the response is
    [application/json; charset=utf-8], whatever the handler set before
    and whether or not the response had already been sent. *)
Theorem json_sets_the_content_type (o : jsonable) (st : conn) :
  Py.dict_get "Content-Type" (headers (res (json o st).2))
  = Some "application/json; charset=utf-8".
Proof.
  rewrite json_eq.
  destruct (sent (res st)) eqn:Hs.
  - rewrite send_noop by done. simpl. apply dict_get_set_eq.
  - rewrite send_headers by done. rewrite final_headers_get. simpl.
    by rewrite dict_get_set_eq.
Qed.

(** * Reading a request back from its bytes *)

Lemma string_app_cons (x : ascii) (a b : string) : String x a +:+ b = String x (a +:+ b).
Proof. reflexivity. Qed.

Lemma string_app_nil_l (a : string) : "" +:+ a = a.
Proof. reflexivity. Qed.

Lemma string_app_assoc (a b c : string) : (a +:+ b) +:+ c = a +:+ (b +:+ c).
Proof. induction a as [|x a IH]; [done|]. rewrite !string_app_cons. by rewrite IH. Qed.

Lemma encode_app (a b : string) : Py.encode (a +:+ b) = Py.encode a ++ Py.encode b.
Proof.
  unfold Py.encode, list_byte_of_string. induction a as [|x a IH]; [done|].
  rewrite string_app_cons. cbn [list_ascii_of_string map app]. by rewrite IH.
Qed.

Lemma has_char_app (c : ascii) (a b : string) :
  Py.has_char c (a +:+ b) = Py.has_char c a || Py.has_char c b.
Proof.
  induction a as [|x a IH]; [done|].
  rewrite string_app_cons. cbn. rewrite IH. by rewrite orb_assoc.
Qed.

Lemma all_chars_app (f : ascii -> bool) (a b : string) :
  all_chars f (a +:+ b) = all_chars f a && all_chars f b.
Proof.
  induction a as [|x a IH]; [done|].
  rewrite string_app_cons. cbn. rewrite IH. by rewrite andb_assoc.
Qed.

Lemma to_N_byte_of_ascii (c : ascii) : Byte.to_N (byte_of_ascii c) = Py.ord c.
Proof. apply Byte.to_of_N. symmetry. apply byte_of_ascii_via_N. Qed.

Lemma utf8_scan_ascii (s : string) :
  is_ascii s = true ->
  Py.utf8_scan None (Py.encode s) = map (fun b => Py.Good [b]) (Py.encode s).
Proof.
  unfold is_ascii, Py.encode, list_byte_of_string.
  induction s as [|c s IH]; [done|]. cbn [all_chars list_ascii_of_string map].
  intros [Hc Hs]%andb_prop. cbn [Py.utf8_scan].
  unfold Py.utf8_start. rewrite to_N_byte_of_ascii, Hc. cbn [app]. by rewrite IH.
Qed.

Lemma decode_ascii (s : string) :
  is_ascii s = true -> Py.utf8_decode Py.Strict (Py.encode s) = Some s.
Proof.
  intros H. unfold Py.utf8_decode. rewrite utf8_scan_ascii by done.
  assert (forall bs : list byte,
            forallb Py.is_good (map (fun b => Py.Good [b]) bs) = true /\
            concat (map (Py.unit_bytes Py.Strict) (map (fun b => Py.Good [b]) bs)) = bs)
    as Hbs.
  { induction bs as [|b bs [IH1 IH2]]; [done|]. cbn. by rewrite IH1, IH2. }
  destruct (Hbs (Py.encode s)) as [-> ->].
  unfold Py.of_bytes, Py.encode. by rewrite string_of_list_byte_of_string.
Qed.

(** ** [readline] *)

Lemma readlines_go_concat (cur input : list byte) :
  concat (readlines_go cur input) = rev cur ++ input.
Proof.
  revert cur. induction input as [|b input IH]; intros cur; simpl.
  - destruct cur; simpl; by rewrite ?app_nil_r.
  - destruct (Byte.eqb b x0a); simpl; rewrite IH; simpl; by rewrite <- ?app_assoc.
Qed.

Lemma readlines_go_line (cur l rest : list byte) :
  x0a ∉ l ->
  readlines_go cur (l ++ x0a :: rest) = (rev cur ++ l ++ [x0a]) :: readlines rest.
Proof.
  revert cur. induction l as [|b l IH]; intros cur Hl; simpl.
  - done.
  - apply not_elem_of_cons in Hl as [Hb Hl].
    destruct (Byte.eqb b x0a) eqn:Hbb.
    { apply Byte.byte_dec_bl in Hbb. congruence. }
    rewrite IH by done. simpl. by rewrite <- app_assoc.
Qed.

Lemma encode_no_LF (s : string) :
  Py.has_char (Py.chr 10) s = false -> x0a ∉ Py.encode s.
Proof.
  unfold Py.encode. induction s as [|c s IH]; cbn; [intros _; apply not_elem_of_nil|].
  intros [Hc Hs]%orb_false_elim. apply not_elem_of_cons. split; [|auto].
  intros Hx. assert (c = Py.chr 10) as ->.
  { rewrite <- (ascii_of_byte_of_ascii c), <- Hx. reflexivity. }
  done.
Qed.

Lemma readlines_line (s : string) (rest : list byte) :
  Py.has_char (Py.chr 10) s = false ->
  readlines (Py.encode (s +:+ Py.LF) ++ rest)
  = Py.encode (s +:+ Py.LF) :: readlines rest.
Proof.
  intros Hs. unfold readlines at 1. rewrite encode_app.
  change (Py.encode Py.LF) with [x0a]. rewrite <- app_assoc. simpl.
  by rewrite readlines_go_line by by apply encode_no_LF.
Qed.

(** ** The request line *)

Lemma rev_app_rev_app (t acc r : string) :
  String.rev_app (String.rev_app t acc) r = String.rev_app acc (t +:+ r).
Proof.
  revert acc. induction t as [|a t IH]; intros acc; [done|].
  cbn. by rewrite IH.
Qed.

Lemma split_ws_go_run (acc t s : string) :
  all_chars (fun c => negb (Py.isspace c)) t = true ->
  Py.split_ws_go (Some acc) (t +:+ s) = Py.split_ws_go (Some (String.rev_app t acc)) s.
Proof.
  revert acc. induction t as [|a t IH]; intros acc; [done|].
  cbn [all_chars]. intros [Ha Ht]%andb_prop. rewrite string_app_cons.
  cbn [Py.split_ws_go]. apply negb_true_iff in Ha. rewrite Ha. cbn. by rewrite IH.
Qed.

Lemma split_ws_go_token (t s : string) :
  is_token t = true ->
  Py.split_ws_go None (t +:+ s) = Py.split_ws_go (Some (String.rev t)) s.
Proof.
  unfold is_token. intros [[Hne _]%andb_prop Hns]%andb_prop.
  destruct t as [|a t]; [done|]. cbn [all_chars] in Hns.
  apply andb_prop in Hns as [Ha Ht]. rewrite string_app_cons.
  cbn [Py.split_ws_go]. apply negb_true_iff in Ha. rewrite Ha. cbn.
  by rewrite split_ws_go_run.
Qed.

Lemma rev_rev (t : string) : String.rev (String.rev t) = t.
Proof.
  unfold String.rev. rewrite rev_app_rev_app. cbn [String.rev_app].
  apply append_empty_r.
Qed.

Lemma split_ws_three (m t v : string) :
  is_token m = true -> is_token t = true -> is_token v = true ->
  Py.split_ws (m +:+ " " +:+ t +:+ " " +:+ v) = [m; t; v].
Proof.
  intros Hm Ht Hv. unfold Py.split_ws.
  rewrite split_ws_go_token by done.
  rewrite string_app_cons, string_app_nil_l. cbn [Py.split_ws_go].
  change (Py.isspace " ") with true. cbn [fmap option_fmap option_map option_list app].
  rewrite rev_rev. f_equal.
  rewrite split_ws_go_token by done.
  rewrite string_app_cons, string_app_nil_l. cbn [Py.split_ws_go].
  change (Py.isspace " ") with true. cbn [fmap option_fmap option_map option_list app].
  rewrite rev_rev. f_equal.
  rewrite <- (append_empty_r v) at 1.
  rewrite split_ws_go_token by done. cbn. by rewrite rev_rev.
Qed.

Lemma rstrip_by_keeps (f : ascii -> bool) (s : string) (c : ascii) :
  f c = false -> Py.rstrip_by f (s +:+ String c "") = s +:+ String c "".
Proof.
  intros Hc. induction s as [|a s IH].
  - rewrite string_app_nil_l. cbn. by rewrite Hc.
  - rewrite string_app_cons. cbn [Py.rstrip_by]. rewrite IH. by destruct s.
Qed.

Lemma token_last (t : string) :
  is_token t = true -> exists r c, t = r +:+ String c "" /\ Py.isspace c = false.
Proof.
  unfold is_token. intros [[Hne _]%andb_prop Hns]%andb_prop.
  induction t as [|a t IH]; [done|]. cbn [all_chars] in Hns.
  apply andb_prop in Hns as [Ha Ht]. destruct t as [|b t].
  - exists "", a. split; [done|]. by apply negb_true_iff.
  - destruct (IH eq_refl Ht) as (r & c & -> & Hc). by exists (String a r), c.
Qed.

Lemma token_first (t : string) :
  is_token t = true -> exists c r, t = String c r /\ Py.isspace c = false.
Proof.
  unfold is_token. intros [[Hne _]%andb_prop Hns]%andb_prop.
  destruct t as [|c r]; [done|]. cbn [all_chars] in Hns.
  apply andb_prop in Hns as [Hc _]. exists c, r. split; [done|]. by apply negb_true_iff.
Qed.

Lemma strip_request_line (m t v : string) :
  is_token m = true -> is_token v = true ->
  Py.strip (request_line m t v) = m +:+ " " +:+ t +:+ " " +:+ v.
Proof.
  intros Hm Hv. unfold request_line, Py.strip, Py.strip_by.
  destruct (token_first m Hm) as (c & r & -> & Hc).
  rewrite string_app_cons. cbn [Py.lstrip_by]. rewrite Hc.
  rewrite <- string_app_cons.
  assert (forall s, s +:+ Py.CRLF = (s +:+ Py.CR) +:+ Py.LF) as Hcrlf.
  { intros s. by rewrite string_app_assoc. }
  rewrite <- !string_app_assoc, Hcrlf.
  unfold Py.LF, Py.CR. rewrite !rstrip_by_snoc by done.
  destruct (token_last v Hv) as (r' & c' & -> & Hc').
  rewrite <- !string_app_assoc. by rewrite rstrip_by_keeps.
Qed.

(** ** The header loop *)

Lemma header_line_read (nv : string * string) (h : gmap string string)
    (lines : list (list byte)) :
  is_field nv = true ->
  read_headers h (Py.encode (header_line nv) :: lines)
  = read_headers (<[Py.strip nv.1 := Py.strip nv.2]> h) lines.
Proof.
  destruct nv as [n v]. unfold is_field. cbn [fst snd].
  intros [[[[Hn Hv]%andb_prop Hc%negb_true_iff]%andb_prop _]%andb_prop _]%andb_prop.
  cbn [read_headers]. unfold header_line. cbn [fst snd].
  rewrite decode_ascii; cycle 1.
  { unfold is_ascii in *. rewrite !all_chars_app, Hn, Hv. done. }
  set (line := n +:+ ": " +:+ v +:+ Py.CRLF).
  assert (Py.has_char ":" line = true) as Hcolon.
  { unfold line. rewrite has_char_app. cbn. by rewrite orb_true_r. }
  assert (String.eqb line "" || String.eqb line Py.CRLF || String.eqb line Py.LF = false)
    as ->.
  { destruct (String.eqb_spec line "") as [E|_]; [by rewrite E in Hcolon|].
    destruct (String.eqb_spec line Py.CRLF) as [E|_]; [by rewrite E in Hcolon|].
    destruct (String.eqb_spec line Py.LF) as [E|_]; [by rewrite E in Hcolon|]. done. }
  unfold line. change (": " +:+ v +:+ Py.CRLF) with (String ":" (" " +:+ v +:+ Py.CRLF)).
  rewrite split_once_app by done. f_equal. f_equal.
  unfold Py.strip. change (" " +:+ v +:+ Py.CRLF) with (String " " (v +:+ Py.CRLF)).
  rewrite strip_by_cons by done.
  replace (v +:+ Py.CRLF) with ((v +:+ Py.CR) +:+ Py.LF) by by rewrite string_app_assoc.
  unfold Py.LF, Py.CR. by rewrite !strip_by_snoc.
Qed.

Lemma header_line_LF (nv : string * string) :
  is_field nv = true ->
  exists s, header_line nv = s +:+ Py.LF /\ Py.has_char (Py.chr 10) s = false.
Proof.
  destruct nv as [n v]. unfold is_field. cbn [fst snd].
  intros [[_ Hn%negb_true_iff]%andb_prop Hv%negb_true_iff]%andb_prop.
  exists (n +:+ ": " +:+ v +:+ Py.CR). split.
  - unfold header_line. cbn [fst snd]. by rewrite !string_app_assoc.
  - rewrite !has_char_app, Hn, Hv. done.
Qed.

Lemma read_headers_fields (fields : list (string * string)) (h : gmap string string)
    (rest : list byte) :
  forallb is_field fields = true ->
  read_headers h
    (readlines (concat (map (fun nv => Py.encode (header_line nv)) fields)
                ++ Py.encode Py.CRLF ++ rest))
  = Ok (foldl (fun h nv => <[Py.strip nv.1 := Py.strip nv.2]> h) h fields,
        readlines rest).
Proof.
  revert h. induction fields as [|nv fields IH]; intros h; cbn [forallb map concat foldl].
  - intros _. change (Py.encode Py.CRLF) with (Py.encode (Py.CR +:+ Py.LF)).
    rewrite app_nil_l, readlines_line by done. reflexivity.
  - intros [Hnv Hfs]%andb_prop.
    destruct (header_line_LF nv Hnv) as (s & Hs & HLF).
    rewrite <- app_assoc. rewrite Hs at 1. rewrite readlines_line by done.
    rewrite <- Hs. rewrite header_line_read by done. by apply IH.
Qed.

Section Parsing.

Context {host : Host}.

Variable json_loads : list byte -> option json_value.
Variable isdir : string -> bool.
Variable read_file : string -> result (list byte).
Variable guess_type : string -> option string.

(** X20. A request made of a request line of three ASCII tokens, header
    lines [name: value] and a blank line is read back as it was written:
    the method and the target are the first two tokens, the header map
    holds the stripped names and values, a later field replacing an
    earlier one of the same name, and the body is read from the bytes
    after the blank line. The version token is not looked at. *)
Theorem request_is_read_back (self : MiniExpress) (sk : socket)
    (method_ target version addr : string) (fields : list (string * string))
    (rest : list byte) :
  is_token method_ = true -> is_token target = true -> is_token version = true ->
  forallb is_field fields = true ->
  handle_request json_loads isdir read_file guess_type self sk
    (request_bytes method_ target version fields rest) addr
  = match read_body (headers_of fields) rest with
    | Raise e => (Raise e, sk)
    | Ok raw =>
        let '(r, st) :=
          respond isdir read_file guess_type self
            (Request_init json_loads method_ target (headers_of fields) raw addr)
            {| res := Response_init; sock := sk |} in
        (r, sock st)
    end.
Proof.
  intros Hm Ht Hv Hfs. unfold handle_request, request_bytes.
  assert (is_ascii (request_line method_ target version) = true) as Hascii.
  { unfold is_token in *. unfold request_line, is_ascii in *.
    rewrite !all_chars_app.
    apply andb_prop in Hm as [[_ ->]%andb_prop _].
    apply andb_prop in Ht as [[_ ->]%andb_prop _].
    apply andb_prop in Hv as [[_ ->]%andb_prop _]. done. }
  assert (exists s, request_line method_ target version = s +:+ Py.LF /\
                    Py.has_char (Py.chr 10) s = false) as (s & Hs & HLF).
  { exists (method_ +:+ " " +:+ target +:+ " " +:+ version +:+ Py.CR). split.
    - unfold request_line. by rewrite !string_app_assoc.
    - assert (forall t, is_token t = true -> Py.has_char (Py.chr 10) t = false) as Htok.
      { intros t [_ Hns]%andb_prop. induction t as [|c t IH]; [done|].
        cbn in *. apply andb_prop in Hns as [Hc Hns]. rewrite IH by done.
        destruct (Ascii.eqb_spec c (Py.chr 10)) as [->|]; done. }
      rewrite !has_char_app.
      rewrite (Htok method_), (Htok target), (Htok version) by done. done. }
  rewrite Hs, !readlines_line by done. rewrite <- Hs.
  cbn [hd tl]. rewrite decode_ascii by done.
  assert (String.eqb (request_line method_ target version) "" = false) as ->.
  { destruct (token_first method_ Hm) as (c & r & -> & _). done. }
  rewrite strip_request_line, split_ws_three by done.
  rewrite read_headers_fields by done.
  unfold readlines. rewrite readlines_go_concat. cbn [rev app].
  reflexivity.
Qed.

End Parsing.

Section Framing.

Context {host : Host}.

(** X21. With a [Content-Length] header that holds the decimal text of
    [n], a number that fits an index: when the host has room for a
    buffer of [n] bytes, the body is the first [n] bytes that follow the
    blank line, and all of them when fewer arrive, so a body sent with
    its own length is read back unchanged whatever follows it; when it
    has not, the exception of the allocation leaves the read. *)
Theorem content_length_frames_the_body (hdrs : gmap string string) (n : nat)
    (unread : list byte) :
  hdrs !! "Content-Length" = Some (Py.str_nat n) ->
  (Z.of_nat n < 2 ^ 63)%Z ->
  match allocation (Z.of_nat n) with
  | Ok _ =>
      read_body hdrs unread = Ok (take n unread) /\
      forall b extra, n = length b -> unread = b ++ extra -> read_body hdrs unread = Ok b
  | Raise e => read_body hdrs unread = Raise e
  end.
Proof.
  intros Hcl Hn.
  assert (read_body hdrs unread
          = match allocation (Z.of_nat n) with
            | Ok _ => Ok (take n unread)
            | Raise e => Raise e
            end) as Hread.
  { unfold read_body. rewrite Hcl, int_str_nat. unfold rfile_read.
    destruct (Z.eqb_spec (Z.of_nat n) (-1)); [lia|].
    destruct (Z.ltb_spec (Z.of_nat n) (-1)); [lia|].
    destruct (Z.leb_spec (2 ^ 63) (Z.of_nat n)); [lia|].
    destruct (allocation (Z.of_nat n)); [|done]. by rewrite Nat2Z.id. }
  destruct (allocation (Z.of_nat n)); [|done].
  split; [done|]. intros b extra -> ->. by rewrite Hread, take_app_length.
Qed.

End Framing.

Lemma request_is_read_back_witness :
  let fields := [("Content-Type", "text/plain"); ("Content-Length", "2")] in
  let no_file := fun _ : string => Raise (Exception "FileNotFoundError" "") in
  handle_request (fun _ => None) (fun _ => false) no_file (fun _ => None)
    MiniExpress_init fresh_socket
    (request_bytes "POST" "/data?x=1" "HTTP/1.1" fields (Py.encode "hi!")) "peer"
  = match read_body (headers_of fields) (Py.encode "hi!") with
    | Raise e => (Raise e, fresh_socket)
    | Ok raw =>
        let '(r, st) :=
          respond (fun _ => false) no_file (fun _ => None) MiniExpress_init
            (Request_init (fun _ => None) "POST" "/data?x=1" (headers_of fields) raw "peer")
            {| res := Response_init; sock := fresh_socket |} in
        (r, sock st)
    end.
Proof.
  intros fields no_file.
  apply (request_is_read_back (fun _ => None) (fun _ => false) no_file (fun _ => None)
           MiniExpress_init fresh_socket "POST" "/data?x=1" "HTTP/1.1" "peer" fields
           (Py.encode "hi!")); reflexivity.
Defined.

Lemma content_length_frames_the_body_witness :
  let hdrs : gmap string string := {["Content-Length" := Py.str_nat 2]} in
  read_body hdrs (Py.encode "hi!") = Ok (take 2 (Py.encode "hi!")) /\
  forall b extra, 2%nat = length b -> Py.encode "hi!" = b ++ extra ->
                  read_body hdrs (Py.encode "hi!") = Ok b.
Proof.
  intros hdrs.
  exact (content_length_frames_the_body hdrs 2 (Py.encode "hi!") eq_refl eq_refl).
Defined.

(** * The application *)

Lemma find_by_id (n : Z) (l : list item) (k : nat) :
  (forall i it, l !! i = Some it -> item_id it = (Z.of_nat (k + i) + 1)%Z) ->
  find (fun it => (item_id it =? n)%Z) l
  = if ((Z.of_nat k <? n) && (n <=? Z.of_nat (k + length l)))%Z
    then l !! (Z.to_nat (n - 1) - k)%nat else None.
Proof.
  revert k. induction l as [|it l IH]; intros k Hl; simpl.
  - by destruct (_ && _).
  - pose proof (Hl O it eq_refl) as Hit. rewrite Nat.add_0_r in Hit.
    rewrite Hit.
    destruct (Z.eqb_spec (Z.of_nat k + 1) n) as [<-|Hne].
    + replace (Z.to_nat (Z.of_nat k + 1 - 1) - k)%nat with O by lia.
      destruct (Z.ltb_spec (Z.of_nat k) (Z.of_nat k + 1)); [|lia].
      destruct (Z.leb_spec (Z.of_nat k + 1) (Z.of_nat (k + S (length l)))); [done | lia].
    + rewrite (IH (S k)).
      2:{ intros i it' Hi. rewrite (Hl (S i) it' Hi). f_equal. lia. }
      destruct (Z.ltb_spec (Z.of_nat k) n), (Z.ltb_spec (Z.of_nat (S k)) n),
        (Z.leb_spec n (Z.of_nat (S k + length l))),
        (Z.leb_spec n (Z.of_nat (k + S (length l)))); simpl; try lia; try done.
      replace (Z.to_nat (n - 1) - k)%nat with (S (Z.to_nat (n - 1) - S k)) by lia.
      done.
Qed.

Lemma create_data_ids (database : list item) (req : Request) :
  (forall i it, database !! i = Some it -> item_id it = (Z.of_nat i + 1)%Z) ->
  forall i it, (create_data database req).1 !! i = Some it ->
               item_id it = (Z.of_nat i + 1)%Z.
Proof.
  intros Hdb i it. unfold create_data.
  destruct (isinstance_dict (body req)); simpl; [|by apply Hdb].
  intros [Hi|[Hi Hit]]%lookup_app_Some; [by apply Hdb|].
  apply list_lookup_singleton_Some in Hit as [Hi0 <-]. simpl. lia.
Qed.

Lemma database_after_snoc (reqs : list Request) (req : Request) :
  database_after (reqs ++ [req]) = (create_data (database_after reqs) req).1.
Proof. unfold database_after. by rewrite foldl_app. Qed.

Lemma database_after_ids (reqs : list Request) (i : nat) (it : item) :
  database_after reqs !! i = Some it -> item_id it = (Z.of_nat i + 1)%Z.
Proof.
  revert i it. induction reqs as [|req reqs IH] using rev_ind; intros i it.
  - done.
  - rewrite database_after_snoc. by apply create_data_ids.
Qed.

(** X22. When the [create_data] calls run one after the other, the
    entry at position [i] of [database] has the id [i + 1]: ids are
    distinct, start at 1 and have no gaps; and the database only grows,
    by one entry for each request whose body is a dict. *)
Theorem ids_are_positions (reqs more : list Request) (i : nat) (it : item) :
  (database_after reqs !! i = Some it ->
   item_id it = (Z.of_nat i + 1)%Z /\
   database_after (reqs ++ more) !! i = Some it) /\
  length (database_after reqs)
  = length (filter (fun req => isinstance_dict (body req) = true) reqs).
Proof.
  split; [intros Hi; split; [by apply (database_after_ids reqs)|]|].
  - induction more as [|req more IH] using rev_ind; [by rewrite app_nil_r|].
    rewrite app_assoc, database_after_snoc. unfold create_data.
    destruct (isinstance_dict (body req)); simpl; [|done].
    by apply lookup_app_l_Some.
  - clear. induction reqs as [|req reqs IH] using rev_ind; [done|].
    rewrite database_after_snoc, filter_app, length_app, <- IH. unfold create_data.
    rewrite filter_cons, filter_nil.
    case_decide as Hd; [|apply not_true_is_false in Hd]; rewrite Hd; simpl.
    + by rewrite length_app.
    + lia.
Qed.

Section AppFacts.

Variable item_json : item -> jsonable.

Lemma get_data_by_id_stored (reqs : list Request) (req : Request) :
  get_data_by_id item_json (database_after reqs) req
  = match params req !! "id" ≫= Py.int with
    | None => HStatus 400 (HSend (DObj "Invalid ID!") HReturn)
    | Some n =>
        match (if (0 <? n)%Z then database_after reqs !! Z.to_nat (n - 1) else None) with
        | Some it => HJson (item_json it) HReturn
        | None => HStatus 404 (HSend (DObj "Item not found") HReturn)
        end
    end.
Proof.
  unfold get_data_by_id. destruct (params req !! "id" ≫= Py.int) as [n|]; [|done].
  rewrite (find_by_id n (database_after reqs) O) by (intros i it; apply database_after_ids).
  rewrite Nat.sub_0_r. change (Z.of_nat 0) with 0%Z. cbn [Nat.add].
  destruct (Z.ltb_spec 0 n); cbn [andb]; [|done].
  destruct (Z.leb_spec n (Z.of_nat (length (database_after reqs)))); [done|].
  rewrite lookup_ge_None_2 by lia. done.
Qed.

(** X23. The id [create_data] returns for a dict body finds that body
    again: when the decimal text of the returned id comes back as the
    [id] parameter, [get_data_by_id] passes to [json] the entry made of
    that id and that body. *)
Theorem created_item_is_found_by_its_id (reqs : list Request) (req lookup : Request) :
  let new_id := (Z.of_nat (length (database_after reqs)) + 1)%Z in
  isinstance_dict (body req) = true ->
  params lookup !! "id" = Some (Py.str_Z new_id) ->
  (create_data (database_after reqs) req).2 = HStatus 201 (HJson (id_json new_id) HReturn) /\
  get_data_by_id item_json (database_after (reqs ++ [req])) lookup
  = HJson (item_json {| item_id := new_id; item_data := body req |}) HReturn.
Proof.
  intros new_id Hd Hp. split.
  { unfold create_data. by rewrite Hd. }
  rewrite get_data_by_id_stored, Hp. simpl.
  assert (Py.str_Z new_id = Py.str_nat (S (length (database_after reqs)))) as ->.
  { unfold Py.str_Z, Py.str_nat, new_id.
    destruct (Z.ltb_spec (Z.of_nat (length (database_after reqs)) + 1) 0); [lia|].
    f_equal. lia. }
  rewrite int_str_nat.
  destruct (Z.ltb_spec 0 (Z.of_nat (S (length (database_after reqs))))); [|lia].
  replace (Z.to_nat (Z.of_nat (S (length (database_after reqs))) - 1))
    with (length (database_after reqs) + 0)%nat by lia.
  rewrite database_after_snoc. unfold create_data. rewrite Hd. simpl.
  rewrite lookup_app_r, Nat.add_0_r, Nat.sub_diag by lia. done.
Qed.

End AppFacts.

(** * The application behind the dispatcher *)

Lemma regex_literal_piece (l seg : string) :
  Py.has_char "/" seg = false -> at_end seg = false ->
  regex_match (ReSegments [Literal l]) ("/" +:+ l +:+ "/" +:+ seg) = None /\
  regex_match (ReSegments [Literal l; Placeholder "id"]) ("/" +:+ l +:+ "/" +:+ seg)
  = Some (<["id" := seg]> ∅).
Proof.
  intros Hs He. unfold regex_match. cbn [match_segments].
  change ("/" +:+ l +:+ "/" +:+ seg) with (String "/" l +:+ String "/" seg).
  rewrite strip_prefix_app. cbn [match_segments]. split.
  - unfold tail_ok. change (Py.is_slash "/") with true. rewrite He. reflexivity.
  - change (Py.is_slash "/") with true. cbn iota.
    rewrite <- (append_empty_r seg) at 1.
    rewrite span_segment_app by (done || by left).
    destruct (String.eqb_spec seg "") as [->|_]; [done|]. reflexivity.
Qed.

Section Routing.

Context {host : Host}.

Variable isdir : string -> bool.
Variable read_file : string -> result (list byte).
Variable guess_type : string -> option string.

Lemma respond_routed (self : MiniExpress) (req : Request)
    (before after : list (regex * handler)) (re : regex) (h : handler)
    (groups : gmap string string) :
  method req <> "OPTIONS" ->
  static_routes self = [("/static", "./static")] ->
  Py.startswith "/static" (path req) = false ->
  routes_get self (method req) = before ++ (re, h) :: after ->
  Forall (fun rh => regex_match rh.1 (path req) = None) before ->
  regex_match re (path req) = Some groups ->
  routed_to isdir read_file guess_type self req h groups.
Proof.
  intros Hm Hst Hp Hr Hb Hre st. unfold respond.
  destruct (String.eqb_spec (method req) "OPTIONS"); [done|].
  unfold_bind. rewrite Hst. cbn [static_loop]. rewrite Hp. cbn.
  rewrite Hr. by rewrite (route_loop_first_match before after re h req groups).
Qed.

Lemma routed_answered (self : MiniExpress) (req : Request) (h : handler)
    (groups : gmap string string) :
  routed_to isdir read_file guess_type self req h groups ->
  answered_by isdir read_file guess_type self req h groups.
Proof. intros Hr st Hs _. rewrite Hr. by apply invoke_wrote. Qed.

End Routing.

Ltac reach bf HR Hm Hp :=
  eapply respond_routed with (before := bf);
  [ by rewrite Hm | done | by rewrite Hp | rewrite Hm, HR; reflexivity
  | rewrite Hp | rewrite Hp ].

Section AppServer.

Context {host : Host}.

Variable isdir : string -> bool.
Variable read_file : string -> result (list byte).
Variable guess_type : string -> option string.
Variable user_json : option string -> jsonable.
Variable item_json : item -> jsonable.
Variable database_json : list item -> jsonable.
Variable str_of_list : list string -> string.

Lemma app_built (database : list item) :
  exists self,
    app user_json item_json database_json str_of_list database = Some self /\
    static_routes self = [("/static", "./static")] /\
    routes_get self "GET"
    = [(ReRoot, home);
       (ReSegments [Literal "echo"], echo str_of_list);
       (ReSegments [Literal "user"; Placeholder "id"], get_user user_json);
       (ReSegments [Literal "data"], get_all_data database_json database);
       (ReSegments [Literal "data"; Placeholder "id"], get_data_by_id item_json database)] /\
    routes_get self "POST"
    = [(ReSegments [Literal "data"], fun req => (create_data database req).2)].
Proof.
  destruct (app user_json item_json database_json str_of_list database) as [self|] eqn:Happ;
    [|discriminate Happ].
  exists self. split; [done|]. unfold app in Happ.
  pose proof (register_all_routes_get _ _ _ "GET" Happ) as [HG Hst].
  pose proof (register_all_routes_get _ _ _ "POST" Happ) as [HP _].
  rewrite Hst, HG, HP. done.
Qed.

(** X24. Every route of [app.py] is answered by its own handler: for
    the method and the path a route was registered with, a placeholder
    standing for any non-empty piece without a slash, the one response
    the dispatcher puts on the wire is the answer of that route's
    handler, called with the piece as [id]: the handler's own first
    [send] or [json], or what the dispatcher sends for a handler that
    made none. Neither the static mapping of [/static] nor a route
    registered earlier takes the request. *)
Theorem app_routes_reach_their_handlers (database : list item) (req : Request)
    (seg : string) :
  Py.has_char "/" seg = false -> at_end seg = false ->
  exists self,
    app user_json item_json database_json str_of_list database = Some self /\
    let answered := answered_by isdir read_file guess_type self req in
    (method req = "GET" -> path req = "/" -> answered home ∅) /\
    (method req = "GET" -> path req = "/echo" -> answered (echo str_of_list) ∅) /\
    (method req = "GET" -> path req = "/user/" +:+ seg ->
     answered (get_user user_json) (<["id" := seg]> ∅)) /\
    (method req = "POST" -> path req = "/data" ->
     answered (fun req => (create_data database req).2) ∅) /\
    (method req = "GET" -> path req = "/data" ->
     answered (get_all_data database_json database) ∅) /\
    (method req = "GET" -> path req = "/data/" +:+ seg ->
     answered (get_data_by_id item_json database) (<["id" := seg]> ∅)).
Proof.
  intros Hs He. destruct (app_built database) as (self & Happ & Hst & HG & HP).
  exists self. split; [done|]. cbv zeta.
  pose proof (regex_literal_piece "user" seg Hs He) as [_ Huser].
  pose proof (regex_literal_piece "data" seg Hs He) as [Hdata0 Hdata].
  split_and!; intros Hm Hp; apply routed_answered.
  - reach (@nil (regex * handler)) HG Hm Hp; [constructor | reflexivity].
  - reach [(ReRoot, home)] HG Hm Hp; [by repeat constructor | reflexivity].
  - reach [(ReRoot, home); (ReSegments [Literal "echo"], echo str_of_list)] HG Hm Hp;
      [by repeat constructor | exact Huser].
  - reach (@nil (regex * handler)) HP Hm Hp; [constructor | reflexivity].
  - reach [(ReRoot, home); (ReSegments [Literal "echo"], echo str_of_list);
           (ReSegments [Literal "user"; Placeholder "id"], get_user user_json)] HG Hm Hp;
      [by repeat constructor | reflexivity].
  - reach [(ReRoot, home); (ReSegments [Literal "echo"], echo str_of_list);
           (ReSegments [Literal "user"; Placeholder "id"], get_user user_json);
           (ReSegments [Literal "data"], get_all_data database_json database)] HG Hm Hp;
      [repeat constructor; try done; exact Hdata0 | exact Hdata].
Qed.

End AppServer.

Lemma invoke_status_send {host : Host} (h : handler) (req : Request) (code : Z) (text : string)
    (sk : socket) :
  h req = HStatus code (HSend (DObj text) HReturn) ->
  healthy sk ->
  invoke h req (fresh_conn sk)
  = (Ok tt, answered sk (plain_response code "text/plain; charset=utf-8" text) text).
Proof.
  intros Hh Hsk. unfold invoke, guarded, try_finally, try_except, fresh_conn.
  unfold_bind. rewrite Hh. cbn [run_hprog]. unfold_bind. cbn [status update_res res sock].
  change (set_status code (reason_phrase code) Response_init)
    with (response code (reason_phrase code) []).
  rewrite send_fresh by done. reflexivity.
Qed.

Lemma invoke_json {host : Host} (h : handler) (req : Request) (o : jsonable) (sk : socket) :
  h req = HJson o HReturn ->
  healthy sk ->
  invoke h req (fresh_conn sk)
  = (Ok tt, answered sk (plain_response 200 "application/json; charset=utf-8" (json_text o))
              (json_text o)).
Proof.
  intros Hh Hsk. unfold invoke, guarded, try_finally, try_except, fresh_conn.
  unfold_bind. rewrite Hh. cbn [run_hprog]. unfold_bind. rewrite json_eq.
  cbn [res sock headers Response_init].
  change (set_headers _ _)
    with (response 200 "OK" [("Content-Type", "application/json; charset=utf-8")]).
  rewrite send_fresh by done. reflexivity.
Qed.

Section AppAnswers.

Context {host : Host}.

Variable isdir : string -> bool.
Variable read_file : string -> result (list byte).
Variable guess_type : string -> option string.
Variable user_json : option string -> jsonable.
Variable item_json : item -> jsonable.
Variable database_json : list item -> jsonable.
Variable str_of_list : list string -> string.

(** X25. [GET /data/<piece>] on the application, end to end, for a
    piece that is not empty, not a lone line feed, has no slash, is
    ASCII and has at most 4300 characters (where [int] is as modelled):
    status 400 with [Invalid ID!] when [int] rejects the piece; the JSON
    text of the entry at position [id - 1] with status 200 when the
    number is the id of a database_after entry; status 404 with [Item not found]
    for any other number. In each case one complete response goes out
    and the socket is closed. *)
Theorem app_answers_get_data_by_id (reqs : list Request) (req : Request) (seg : string)
    (sk : socket) :
  method req = "GET" -> path req = "/data/" +:+ seg ->
  Py.has_char "/" seg = false -> at_end seg = false ->
  is_ascii seg = true -> (String.length seg <= 4300)%nat ->
  healthy sk ->
  exists self,
    app user_json item_json database_json str_of_list (database_after reqs) = Some self /\
    respond isdir read_file guess_type self req (fresh_conn sk)
    = (Ok tt,
       match Py.int seg with
       | None =>
           answered sk (plain_response 400 "text/plain; charset=utf-8" "Invalid ID!")
             "Invalid ID!"
       | Some n =>
           match (if (0 <? n)%Z then database_after reqs !! Z.to_nat (n - 1) else None) with
           | Some it =>
               answered sk
                 (plain_response 200 "application/json; charset=utf-8"
                    (json_text (item_json it)))
                 (json_text (item_json it))
           | None =>
               answered sk (plain_response 404 "text/plain; charset=utf-8" "Item not found")
                 "Item not found"
           end
       end).
Proof.
  intros Hm Hp Hs He _ _ Hsk.
  destruct (app_built user_json item_json database_json str_of_list (database_after reqs))
    as (self & Happ & Hst & HG & _).
  exists self. split; [done|].
  pose proof (regex_literal_piece "data" seg Hs He) as [Hdata0 Hdata].
  assert (routed_to isdir read_file guess_type self req
            (get_data_by_id item_json (database_after reqs)) (<["id" := seg]> ∅)) as ->.
  { reach [(ReRoot, home); (ReSegments [Literal "echo"], echo str_of_list);
           (ReSegments [Literal "user"; Placeholder "id"], get_user user_json);
           (ReSegments [Literal "data"], get_all_data database_json (database_after reqs))]
          HG Hm Hp; [repeat constructor; try done; exact Hdata0 | exact Hdata]. }
  set (req' := with_params (<["id" := seg]> ∅) req).
  assert (get_data_by_id item_json (database_after reqs) req'
          = match Py.int seg with
            | None => HStatus 400 (HSend (DObj "Invalid ID!") HReturn)
            | Some n =>
                match (if (0 <? n)%Z then database_after reqs !! Z.to_nat (n - 1) else None) with
                | Some it => HJson (item_json it) HReturn
                | None => HStatus 404 (HSend (DObj "Item not found") HReturn)
                end
            end) as Hh.
  { rewrite get_data_by_id_stored. unfold req'. cbn [params with_params].
    by rewrite lookup_insert_eq. }
  destruct (Py.int seg) as [n|].
  - destruct (if (0 <? n)%Z then database_after reqs !! Z.to_nat (n - 1) else None) as [it|].
    + by apply invoke_json.
    + by apply (invoke_status_send _ _ 404).
  - by apply (invoke_status_send _ _ 400).
Qed.

End AppAnswers.

Lemma ids_are_positions_witness :
  let reqs := [post_with_body (BJson (JDict [])); post_with_body (BText "x");
               post_with_body (BForm ∅)] in
  let it := {| item_id := 2; item_data := BForm ∅ |} in
  item_id it = (Z.of_nat 1 + 1)%Z /\
  database_after (reqs ++ [post_with_body (BJson (JDict []))]) !! 1%nat = Some it /\
  length (database_after reqs)
  = length (filter (fun req => isinstance_dict (body req) = true) reqs).
Proof.
  intros reqs it.
  destruct (ids_are_positions reqs [post_with_body (BJson (JDict []))] 1 it) as [H Hlen].
  destruct (H eq_refl) as [Hid Hkept]. exact (conj Hid (conj Hkept Hlen)).
Defined.

Lemma created_item_is_found_by_its_id_witness :
  let reqs := [post_with_body (BJson (JDict []))] in
  let req := post_with_body (BForm ∅) in
  let lookup := with_params {["id" := "2"]} (request_for_item "2") in
  (create_data (database_after reqs) req).2 = HStatus 201 (HJson (id_json 2) HReturn) /\
  get_data_by_id item_json_stub (database_after (reqs ++ [req])) lookup
  = HJson (item_json_stub {| item_id := 2; item_data := BForm ∅ |}) HReturn.
Proof.
  intros reqs req lookup.
  exact (created_item_is_found_by_its_id item_json_stub reqs req lookup eq_refl eq_refl).
Defined.

Lemma app_routes_reach_their_handlers_witness :
  exists self,
    app any_json_stub item_json_stub any_json_stub (fun _ => "") [] = Some self /\
    wrote_response (set_status 404 "Not Found" Response_init)
      (DObj "Item not found") (fresh_conn fresh_socket)
      (respond (fun _ => false) (fun _ => Raise (Exception "FileNotFoundError" ""))
         (fun _ => None) self (request_for_item "7") (fresh_conn fresh_socket)).2.
Proof.
  destruct (app_routes_reach_their_handlers
              (fun _ => false) (fun _ => Raise (Exception "FileNotFoundError" ""))
              (fun _ => None) any_json_stub item_json_stub any_json_stub (fun _ => "")
              [] (request_for_item "7") "7" eq_refl eq_refl)
    as (self & Happ & _ & _ & _ & _ & _ & Hget).
  exists self. split; [exact Happ|].
  exact (Hget eq_refl eq_refl (fresh_conn fresh_socket) eq_refl eq_refl).
Defined.

Lemma app_answers_get_data_by_id_witness :
  let reqs := [post_with_body (BJson (JDict []))] in
  exists self,
    app any_json_stub item_json_stub any_json_stub (fun _ => "") (database_after reqs)
    = Some self /\
    Py.of_bytes
      (wire (sock (respond (fun _ => false)
                     (fun _ => Raise (Exception "FileNotFoundError" "")) (fun _ => None)
                     self (request_for_item "1") (fresh_conn fresh_socket)).2))
    = "HTTP/1.1 200 OK" +:+ Py.CRLF +:+
      "Content-Type: application/json; charset=utf-8" +:+ Py.CRLF +:+
      "Access-Control-Allow-Origin: *" +:+ Py.CRLF +:+
      "Connection: close" +:+ Py.CRLF +:+
      "Content-Length: 6" +:+ Py.CRLF +:+ Py.CRLF +:+ "item 1".
Proof.
  intros reqs.
  destruct (app_answers_get_data_by_id
              (fun _ => false) (fun _ => Raise (Exception "FileNotFoundError" ""))
              (fun _ => None) any_json_stub item_json_stub any_json_stub (fun _ => "")
              reqs (request_for_item "1") "1" fresh_socket
              eq_refl eq_refl eq_refl eq_refl eq_refl ltac:(simpl; lia) ltac:(by split))
    as (self & Happ & Hres).
  exists self. split; [exact Happ|]. rewrite Hres. reflexivity.
Defined.

Lemma split_no_separator (c : ascii) (s : string) :
  Py.has_char c s = false -> Py.split c s = [s].
Proof.
  induction s as [|a s IH]; [done|]. cbn [Py.has_char Py.split].
  intros [Ha Hs]%orb_false_elim. rewrite Ha, IH by done. done.
Qed.

Lemma query_of_message (v : string) :
  v <> "" -> Py.has_char "&" v = false ->
  query_of ("message=" +:+ v) !! "message" = Some (QStr (Urllib.decode_field v)).
Proof.
  intros Hv Hamp. unfold query_of.
  change ("message=" +:+ v) with ("message" +:+ String "=" v).
  destruct (String.eqb_spec ("message" +:+ String "=" v) "") as [E|_]; [discriminate E|].
  rewrite lookup_fmap. unfold Urllib.parse_qs.
  rewrite fold_add_value, lookup_empty, parse_qsl_eq.
  rewrite split_no_separator by (rewrite has_char_app; cbn; by rewrite Hamp).
  cbn [omap list_omap]. unfold Urllib.parse_pair.
  rewrite split_once_app by done.
  destruct (String.eqb_spec v "") as [|_]; [done|]. reflexivity.
Qed.

Lemma invoke_send {host : Host} (h : handler) (req : Request) (text : string) (sk : socket) :
  h req = HSend (DObj text) HReturn ->
  healthy sk ->
  invoke h req (fresh_conn sk)
  = (Ok tt, answered sk (plain_response 200 "text/plain; charset=utf-8" text) text).
Proof.
  intros Hh Hsk. unfold invoke, guarded, try_finally, try_except, fresh_conn.
  unfold_bind. rewrite Hh. cbn [run_hprog]. unfold_bind.
  change Response_init with (response 200 "OK" []).
  rewrite send_fresh by done. reflexivity.
Qed.

Lemma invoke_status_json {host : Host} (h : handler) (req : Request) (code : Z) (o : jsonable)
    (sk : socket) :
  h req = HStatus code (HJson o HReturn) ->
  healthy sk ->
  invoke h req (fresh_conn sk)
  = (Ok tt,
     answered sk (plain_response code "application/json; charset=utf-8" (json_text o))
       (json_text o)).
Proof.
  intros Hh Hsk. unfold invoke, guarded, try_finally, try_except, fresh_conn.
  unfold_bind. rewrite Hh. cbn [run_hprog]. unfold_bind.
  cbn [status update_res res sock]. rewrite json_eq.
  cbn [res sock headers Response_init set_status].
  change (set_headers _ _)
    with (response code (reason_phrase code)
            [("Content-Type", "application/json; charset=utf-8")]).
  rewrite send_fresh by done. reflexivity.
Qed.

Section AppFlows.

Context {host : Host}.

Variable json_loads : list byte -> option json_value.
Variable isdir : string -> bool.
Variable read_file : string -> result (list byte).
Variable guess_type : string -> option string.
Variable user_json : option string -> jsonable.
Variable item_json : item -> jsonable.
Variable database_json : list item -> jsonable.
Variable str_of_list : list string -> string.

(** X26. [GET /echo?message=<v>] on the application, end to end: for a
    non-empty [v] without [&], the answer is status 200 with the text
    [Echo: ] followed by [v] percent-decoded, with [+] read as a space;
    whatever else the request holds. *)
Theorem app_echoes_the_decoded_message (database : list item) (v addr : string)
    (hdrs : gmap string string) (raw : list byte) (sk : socket) :
  v <> "" -> Py.has_char "&" v = false -> healthy sk ->
  exists self,
    app user_json item_json database_json str_of_list database = Some self /\
    respond isdir read_file guess_type self
      (Request_init json_loads "GET" ("/echo?message=" +:+ v) hdrs raw addr)
      (fresh_conn sk)
    = (Ok tt,
       let text := "Echo: " +:+ Urllib.decode_field v in
       answered sk (plain_response 200 "text/plain; charset=utf-8" text) text).
Proof.
  intros Hv Hamp Hsk.
  destruct (app_built user_json item_json database_json str_of_list database)
    as (self & Happ & Hst & HG & _).
  exists self. split; [done|].
  set (req := Request_init _ _ _ _ _ _).
  assert (path req = "/echo" /\ query req = query_of ("message=" +:+ v)) as [Hp Hq].
  { unfold req, Request_init.
    change ("/echo?message=" +:+ v) with ("/echo" +:+ String "?" ("message=" +:+ v)).
    by rewrite split_once_app. }
  assert (method req = "GET") as Hm.
  { unfold req, Request_init. by destruct (Py.split_once _ _) as [[? ?]|]. }
  assert (routed_to isdir read_file guess_type self req (echo str_of_list) ∅) as ->.
  { reach [(ReRoot, home)] HG Hm Hp; [by repeat constructor | reflexivity]. }
  apply invoke_send; [|done].
  unfold echo. cbn [query with_params]. by rewrite Hq, query_of_message.
Qed.

(** X27. [POST /data] on the application, end to end: a body that is a
    dict is answered with status 201 and the JSON object holding the
    new id, one more than the number of entries stored; any other body
    (none, a JSON value that is not an object, text, raw bytes) is
    answered with status 400 and [Invalid JSON!]. *)
Theorem app_answers_post_data (database : list item) (req : Request) (sk : socket) :
  method req = "POST" -> path req = "/data" -> healthy sk ->
  exists self,
    app user_json item_json database_json str_of_list database = Some self /\
    respond isdir read_file guess_type self req (fresh_conn sk)
    = (Ok tt,
       if isinstance_dict (body req) then
         let text := json_text (id_json (Z.of_nat (length database) + 1)) in
         answered sk (plain_response 201 "application/json; charset=utf-8" text) text
       else
         answered sk (plain_response 400 "text/plain; charset=utf-8" "Invalid JSON!")
           "Invalid JSON!").
Proof.
  intros Hm Hp Hsk.
  destruct (app_built user_json item_json database_json str_of_list database)
    as (self & Happ & Hst & _ & HP).
  exists self. split; [done|].
  assert (routed_to isdir read_file guess_type self req
            (fun req => (create_data database req).2) ∅) as ->.
  { reach (@nil (regex * handler)) HP Hm Hp; [constructor | reflexivity]. }
  unfold create_data. cbn [body with_params].
  destruct (isinstance_dict (body req)) eqn:Hd.
  - apply invoke_status_json; [|done]. unfold create_data. cbn [body with_params].
    by rewrite Hd.
  - apply (invoke_status_send _ _ 400); [|done]. unfold create_data.
    cbn [body with_params]. by rewrite Hd.
Qed.

End AppFlows.

Lemma app_echoes_the_decoded_message_witness :
  exists self,
    app any_json_stub item_json_stub any_json_stub (fun _ => "") [] = Some self /\
    Py.of_bytes
      (wire (sock (respond (fun _ => false)
                     (fun _ => Raise (Exception "FileNotFoundError" "")) (fun _ => None)
                     self
                     (Request_init (fun _ => None) "GET" ("/echo?message=" +:+ "a+b%21")
                        ∅ [] "peer")
                     (fresh_conn fresh_socket)).2))
    = "HTTP/1.1 200 OK" +:+ Py.CRLF +:+
      "Content-Type: text/plain; charset=utf-8" +:+ Py.CRLF +:+
      "Access-Control-Allow-Origin: *" +:+ Py.CRLF +:+
      "Connection: close" +:+ Py.CRLF +:+
      "Content-Length: 10" +:+ Py.CRLF +:+ Py.CRLF +:+ "Echo: a b!".
Proof.
  destruct (app_echoes_the_decoded_message
              (fun _ => None) (fun _ => false)
              (fun _ => Raise (Exception "FileNotFoundError" "")) (fun _ => None)
              any_json_stub item_json_stub any_json_stub (fun _ => "")
              [] "a+b%21" "peer" ∅ [] fresh_socket
              ltac:(discriminate) eq_refl ltac:(by split))
    as (self & Happ & Hres).
  exists self. split; [exact Happ|]. rewrite Hres. reflexivity.
Defined.

Lemma app_answers_post_data_witness :
  exists self,
    app any_json_stub item_json_stub any_json_stub (fun _ => "") [] = Some self /\
    Py.of_bytes
      (wire (sock (respond (fun _ => false)
                     (fun _ => Raise (Exception "FileNotFoundError" "")) (fun _ => None)
                     self (post_with_body (BJson (JDict []))) (fresh_conn fresh_socket)).2))
    = "HTTP/1.1 201 Created" +:+ Py.CRLF +:+
      "Content-Type: application/json; charset=utf-8" +:+ Py.CRLF +:+
      "Access-Control-Allow-Origin: *" +:+ Py.CRLF +:+
      "Connection: close" +:+ Py.CRLF +:+
      "Content-Length: 9" +:+ Py.CRLF +:+ Py.CRLF +:+
      "{" +:+ dquote +:+ "id" +:+ dquote +:+ ": 1}".
Proof.
  destruct (app_answers_post_data
              (fun _ => false)
              (fun _ => Raise (Exception "FileNotFoundError" "")) (fun _ => None)
              any_json_stub item_json_stub any_json_stub (fun _ => "")
              [] (post_with_body (BJson (JDict []))) fresh_socket
              eq_refl eq_refl ltac:(by split))
    as (self & Happ & Hres).
  exists self. split; [exact Happ|]. rewrite Hres. reflexivity.
Defined.
